(** * The upload / status-tracking core of the document processor

    A shallow embedding of the browser client ([app.js]), of the Next.js
    client page and of its two API routes (the files route and the logs
    route, over the tables of the Prisma migration), followed by the
    properties of the specification that concern them. *)

From Stdlib Require Import ZArith List String Ascii Bool Lia.
From stdpp Require Import base option list gmap strings pretty.

Local Open Scope string_scope.
Local Open Scope Z_scope.

(** ** JavaScript strings

    File names are byte strings; [toLowerCase] is modelled on the ASCII
    letters, which is what the extension tests of the program look at. *)
Module Js.

Definition lowerChar (c : ascii) : ascii :=
  let n := nat_of_ascii c in
  if ((65 <=? n) && (n <=? 90))%nat then ascii_of_nat (n + 32) else c.

Fixpoint toLowerCase (s : string) : string :=
  match s with
  | EmptyString => EmptyString
  | String c rest => String (lowerChar c) (toLowerCase rest)
  end.

(** [s.endsWith(suffix)] *)
Definition endsWith (s suffix : string) : bool :=
  let ls := String.length s in
  let lx := String.length suffix in
  if (lx <=? ls)%nat
  then String.eqb (substring (ls - lx) lx s) suffix
  else false.

(** [s.lastIndexOf(".")]: the index of the last dot, [-1] when there is none. *)
Fixpoint lastIndexOfDot_from (i : Z) (s : string) (found : Z) : Z :=
  match s with
  | EmptyString => found
  | String c rest =>
      lastIndexOfDot_from (i + 1) rest (if Ascii.eqb c "."%char then i else found)
  end.

Definition lastIndexOfDot (s : string) : Z := lastIndexOfDot_from 0 s (-1).

(** [s.slice(start)]: a negative [start] counts from the end of the string. *)
Definition slice (s : string) (start : Z) : string :=
  let len := Z.of_nat (String.length s) in
  let from := if start <? 0 then Z.max (len + start) 0 else Z.min start len in
  substring (Z.to_nat from) (Z.to_nat (len - from)) s.

(** [s.split('.').pop()]: what follows the last dot, the whole string when
    there is no dot. *)
Definition afterLastDot (s : string) : string :=
  slice s (lastIndexOfDot s + 1).

(** [xs.includes(x)] on an array of strings. *)
Definition includes (xs : list string) (x : string) : bool :=
  existsb (String.eqb x) xs.

(** Truthiness of a string: the empty string is falsy. *)
Definition truthyStr (s : string) : bool := negb (String.eqb s "").

(** [a || b] on strings. *)
Definition orStr (a b : string) : string := if truthyStr a then a else b.

End Js.

(** ** Values shared by the two clients: files, form bodies, JSON *)
Module Web.

(** The browser's [File], with the fields the program reads. *)
Record File := {
  name : string;
  size : Z;
  lastModified : Z;
  type : string;
  webkitRelativePath : string
}.

(** A [FormData] is an ordered list of entries; [append] never replaces. *)
Inductive FormValue :=
| FormFile (f : File) (filename : string)
| FormText (s : string).

Definition FormData := list (string * FormValue).

Definition append (key : string) (v : FormValue) (fd : FormData) : FormData :=
  (fd ++ [(key, v)])%list.

Definition has (key : string) (fd : FormData) : bool :=
  existsb (fun e => String.eqb (fst e) key) fd.

(** JSON values of the request bodies. *)
Inductive JValue :=
| JNull
| JBool (b : bool)
| JNum (n : Z)
| JStr (s : string).

(** Truthiness of a property read from an object: [None] is [undefined]. *)
Definition truthy (v : option JValue) : bool :=
  match v with
  | None | Some JNull => false
  | Some (JBool b) => b
  | Some (JNum n) => negb (n =? 0)
  | Some (JStr s) => Js.truthyStr s
  end.

Inductive Body :=
| NoBody
| FormBody (fd : FormData)
| JsonBody (o : gmap string JValue).

(** What [await fetch(...)] followed by reading the response gives. *)
Record Response := { status : Z; text : string }.

Definition ok (r : Response) : bool := (200 <=? status r) && (status r <=? 299).

End Web.

Module WebRequest.
Import Web.

(** A request as handed to [fetch]. *)
Record Request := { url : string; method : string; body : Body }.

Definition formOf (r : Request) : FormData :=
  match body r with FormBody fd => fd | _ => [] end.

End WebRequest.

(** ** [app.js]: the single-page client

    One click handler: filter the picked files, upload them one request
    after the other, then trigger the processing. The handler awaits every
    [fetch], so the list of requests it returns is in the order in which
    the requests were issued, each one settled before the next is issued. *)
Module AppJs.
Import Web WebRequest.

Record Endpoints := { UPLOAD_URL : string; PROCESS_URL : string }.

Definition LOCAL : Endpoints :=
  {| UPLOAD_URL := "http://localhost:8000/embeddings/upload";
     PROCESS_URL := "http://localhost:8000/embeddings/process-uploads" |}.

Definition PROD : Endpoints :=
  {| UPLOAD_URL := "http://10.1.1.172:3820/embeddings/upload";
     PROCESS_URL := "http://10.1.1.172:3820/embeddings/process-uploads" |}.

Definition ENV : Endpoints := PROD.

Definition SUPPORTED_EXTENSIONS : list string := [".txt"; ".pdf"; ".docx"; ".md"].

(** The predicate of [Array.from(files).filter(...)]. *)
Definition supported (f : File) : bool :=
  Js.includes SUPPORTED_EXTENSIONS
    (Js.toLowerCase (Js.slice (name f) (Js.lastIndexOfDot (name f)))).

(** [uploadStatus], one of the four strings the handler assigns. *)
Inductive UploadStatus := Pending | Success | Failed | Error.

(** How one awaited upload ends: [resp.json()] gave an object (its
    [success] read for truthiness, its [message] if any), or [fetch] or
    [resp.json()] threw an error with the given message. *)
Inductive UploadOutcome :=
| UploadJson (success : bool) (message : option string)
| UploadThrew (message : string).

(** The same for the processing call; [result] is [None] when the object
    has no [result], in which case reading [inserted_chunks] throws. *)
Inductive Thrown := Rejected (message : string) | ResultMissing.

Inductive ProcessOutcome :=
| ProcessJson (success : bool) (result : option (option Z)) (error : option string)
| ProcessThrew (message : string).

(** The text left in [statusDiv]. *)
Inductive StatusText :=
| ProcessingComplete (inserted_chunks : option Z)
| ProcessingFailed (error : option string)
| ProcessingError (e : Thrown).

(** What the handler reads from its environment; the clock and the upload
    outcomes are indexed by the position of the file in [filteredFiles]. *)
Record Io := {
  toISOString : nat -> string;
  toLocaleString : nat -> string;
  userAgent : string;
  upload : nat -> UploadOutcome;
  process : ProcessOutcome
}.

(** A row appended to the table. *)
Record Row := {
  rowName : string;
  rowTime : string;
  rowAgent : string;
  uploadStatus : UploadStatus;
  uploadMessage : string
}.

Definition formDataOf (io : Io) (i : nat) (file : File) : FormData :=
  append "original_path" (FormText (webkitRelativePath file))
    (append "uploaded_by" (FormText (userAgent io))
       (append "uploaded_at" (FormText (toISOString io i))
          (append "file" (FormFile file (name file)) []))).

Definition uploadRequest (io : Io) (i : nat) (file : File) : Request :=
  {| url := UPLOAD_URL ENV; method := "POST"; body := FormBody (formDataOf io i file) |}.

(** The [try]/[catch] around one upload. *)
Definition settle (o : UploadOutcome) : UploadStatus * string :=
  match o with
  | UploadJson success message =>
      (if success then Success else Failed, Js.orStr (default "" message) "")
  | UploadThrew message => (Error, message)
  end.

Definition rowOf (io : Io) (i : nat) (file : File) : Row :=
  {| rowName := name file;
     rowTime := toLocaleString io i;
     rowAgent := userAgent io;
     uploadStatus := fst (settle (upload io i));
     uploadMessage := snd (settle (upload io i)) |}.

(** [for (const file of filteredFiles) { ... }] *)
Fixpoint uploadLoop (io : Io) (i : nat) (files : list File) : list Row * list Request :=
  match files with
  | [] => ([], [])
  | file :: rest =>
      let '(rows, requests) := uploadLoop io (S i) rest in
      (rowOf io i file :: rows, uploadRequest io i file :: requests)
  end.

Definition processRequest : Request :=
  {| url := PROCESS_URL ENV; method := "POST";
     body := JsonBody (<["directory_path" := JStr "/app/data/uploads"]>
                         (<["recursive" := JBool true]> ∅)) |}.

Definition processStatus (o : ProcessOutcome) : StatusText :=
  match o with
  | ProcessJson true (Some chunks) _ => ProcessingComplete chunks
  | ProcessJson true None _ => ProcessingError ResultMissing
  | ProcessJson false _ error => ProcessingFailed error
  | ProcessThrew message => ProcessingError (Rejected message)
  end.

Record Result := {
  alerted : bool;
  rows : list Row;
  requests : list Request;
  statusText : option StatusText
}.

(** [uploadBtn.addEventListener("click", async () => { ... })] *)
Definition click (io : Io) (files : list File) : Result :=
  if (length files =? 0)%nat
  then {| alerted := true; rows := []; requests := []; statusText := None |}
  else
    let filteredFiles := List.filter supported files in
    let '(rows, uploads) := uploadLoop io 0 filteredFiles in
    {| alerted := false;
       rows := rows;
       requests := (uploads ++ [processRequest])%list;
       statusText := Some (processStatus (process io)) |}.

Definition isUpload (r : Request) : bool := String.eqb (url r) (UPLOAD_URL ENV).
Definition isProcess (r : Request) : bool := String.eqb (url r) (PROCESS_URL ENV).

End AppJs.

(** ** The Next.js client page

    A handler of the page is a closure of one render: it reads the
    [environment], [selectedFiles] and [fileMetadata] of that render
    ([Render] below), whatever the state setters were given since. What a
    handler does is recorded in a [Client]: the value last given to
    [setFileMetadata], and the requests it issued, oldest first. *)
Module Level.
Inductive t := info | success | warning | error.
End Level.

Module Page.
Import Web WebRequest.

Inductive Environment := local | production.

Inductive FileStatus := pending | uploaded | processed | error.

Definition FileStatus_eqb (a b : FileStatus) : bool :=
  match a, b with
  | pending, pending | uploaded, uploaded
  | processed, processed | error, error => true
  | _, _ => false
  end.

Record FileMetadata := {
  id : string;
  name : string;
  sizeBytes : Z;
  relativePath : option string;
  lastModified : Z;
  selectedAt : option string;
  uploadedAt : option string;
  processedAt : option string;
  host : Environment;
  status : FileStatus;
  errorMessage : option string;
  computerName : option string;
  userName : option string;
  userAgent : option string;
  uploadDuration : option Z;
  processDuration : option Z;
  fileType : option string;
  mimeType : option string;
  checksum : option string;
  retryCount : option Z
}.

Definition SUPPORTED_EXTENSIONS : list string := [".txt"; ".pdf"; ".docx"; ".md"].

Definition getApiBaseUrl (env : Environment) : string :=
  match env with
  | local => "http://localhost:8000"
  | production => "http://10.1.1.172:3820"
  end.

Definition getUploadEndpoint (env : Environment) : string :=
  getApiBaseUrl env +:+ "/embeddings/upload".

Definition getProcessEndpoint (env : Environment) : string :=
  getApiBaseUrl env +:+ "/embeddings/process-uploads".

Definition isSupportedFile (file : File) : bool :=
  let lower := Js.toLowerCase (Web.name file) in
  existsb (fun ext => Js.endsWith lower ext) SUPPORTED_EXTENSIONS.

Definition getFileType (file : File) : string :=
  let extension := Js.orStr (Js.toLowerCase (Js.afterLastDot (Web.name file))) "" in
  let mimeType := Web.type file in
  if String.eqb extension "pdf" then "PDF Document"
  else if String.eqb extension "docx" then "Word Document"
  else if String.eqb extension "txt" then "Text File"
  else if String.eqb extension "md" then "Markdown File"
  else Js.orStr mimeType "Unknown".

(** The messages given to [addLog], by the template they are built from
    (the sizes and durations are kept as numbers, not formatted). *)
Inductive Message :=
| FolderSelected (supported total : nat)
| FileListed (name : string) (size : Z) (type : string)
| UploadEndpoint (endpoint : string)
| ProcessEndpoint (endpoint : string)
| NoValidFile
| UploadStarting (count : nat) (totalSize : Z)
| UploadDone (count : nat) (duration : Z)
| FileUploaded (name : string) (size : Z)
| UploadFailure (message : string)
| NoUploadedFile
| ProcessStarting (count : nat)
| ProcessDone (count : nat) (duration : Z)
| FileProcessed (name : string)
| ProcessFailure (message : string).

(** A request issued by a handler: to the ingestion service (awaited by the
    handler, so settled before the next event), to the files route, or to
    the logs route (the [POST] of [addLog]). *)
Inductive Event :=
| Backend (r : Request)
| FilesRoute (method : string) (body : gmap string JValue)
| LogsRoute (message : Message) (level : Level.t) (fileId : option string).

(** The values a render hands to its handlers. *)
Record Render := {
  environment : Environment;
  selectedFiles : list File;
  fileMetadata : list FileMetadata
}.

(** The React state the setters write, and the requests issued so far. *)
Record Client := {
  stateSelectedFiles : list File;
  stateFileMetadata : list FileMetadata;
  trace : list Event
}.

Definition renderOf (env : Environment) (c : Client) : Render :=
  {| environment := env;
     selectedFiles := stateSelectedFiles c;
     fileMetadata := stateFileMetadata c |}.

Definition setSelectedFiles (files : list File) (c : Client) : Client :=
  {| stateSelectedFiles := files;
     stateFileMetadata := stateFileMetadata c;
     trace := trace c |}.

Definition setFileMetadata (metas : list FileMetadata) (c : Client) : Client :=
  {| stateSelectedFiles := stateSelectedFiles c;
     stateFileMetadata := metas;
     trace := trace c |}.

Definition emitAll (es : list Event) (c : Client) : Client :=
  {| stateSelectedFiles := stateSelectedFiles c;
     stateFileMetadata := stateFileMetadata c;
     trace := (trace c ++ es)%list |}.

Definition emit (e : Event) (c : Client) : Client := emitAll [e] c.

(** [addLog]: the [POST] to the logs route, in the order of the calls (the
    list of formatted lines kept for display is not modelled). *)
Definition addLog (message : Message) (level : Level.t) (fileId : option string)
    (c : Client) : Client :=
  emit (LogsRoute message level fileId) c.

(** [useMemo(() => selectedFiles.filter(isSupportedFile))] *)
Definition filteredFiles (r : Render) : list File :=
  List.filter isSupportedFile (selectedFiles r).

(** *** JSON bodies: [JSON.stringify] leaves out the [undefined] fields. *)
Definition field (key : string) (v : option JValue) (o : gmap string JValue)
    : gmap string JValue :=
  match v with
  | Some x => <[key := x]> o
  | None => o
  end.

Definition hostName (env : Environment) : string :=
  match env with local => "local" | production => "production" end.

Definition statusName (s : FileStatus) : string :=
  match s with
  | pending => "pending"
  | uploaded => "uploaded"
  | processed => "processed"
  | error => "error"
  end.

Definition toJSON (m : FileMetadata) : gmap string JValue :=
  field "id" (Some (JStr (id m)))
  (field "name" (Some (JStr (name m)))
  (field "sizeBytes" (Some (JNum (sizeBytes m)))
  (field "relativePath" (JStr <$> relativePath m)
  (field "lastModified" (Some (JNum (lastModified m)))
  (field "selectedAt" (JStr <$> selectedAt m)
  (field "uploadedAt" (JStr <$> uploadedAt m)
  (field "processedAt" (JStr <$> processedAt m)
  (field "host" (Some (JStr (hostName (host m))))
  (field "status" (Some (JStr (statusName (status m))))
  (field "errorMessage" (JStr <$> errorMessage m)
  (field "computerName" (JStr <$> computerName m)
  (field "userName" (JStr <$> userName m)
  (field "userAgent" (JStr <$> userAgent m)
  (field "uploadDuration" (JNum <$> uploadDuration m)
  (field "processDuration" (JNum <$> processDuration m)
  (field "fileType" (JStr <$> fileType m)
  (field "mimeType" (JStr <$> mimeType m)
  (field "checksum" (JStr <$> checksum m)
  (field "retryCount" (JNum <$> retryCount m) ∅))))))))))))))))))).

(** The three bodies the handlers [PUT] to the files route. *)
Definition uploadedPatch (meta : FileMetadata) : gmap string JValue :=
  field "id" (Some (JStr (id meta)))
  (field "status" (Some (JStr (statusName (status meta))))
  (field "uploadedAt" (JStr <$> uploadedAt meta)
  (field "uploadDuration" (JNum <$> uploadDuration meta) ∅))).

Definition processedPatch (meta : FileMetadata) : gmap string JValue :=
  field "id" (Some (JStr (id meta)))
  (field "status" (Some (JStr (statusName (status meta))))
  (field "processedAt" (JStr <$> processedAt meta)
  (field "processDuration" (JNum <$> processDuration meta) ∅))).

Definition errorPatch (meta : FileMetadata) : gmap string JValue :=
  field "id" (Some (JStr (id meta)))
  (field "status" (Some (JStr (statusName (status meta))))
  (field "errorMessage" (JStr <$> errorMessage meta)
  (field "retryCount" (JNum <$> retryCount meta) ∅))).

(** *** The object spreads of the handlers *)

(** [{ ...m, status: "uploaded", uploadedAt, uploadDuration: duration }] *)
Definition markUploaded (at_ : string) (duration : Z) (m : FileMetadata) : FileMetadata :=
  {| id := id m; name := name m; sizeBytes := sizeBytes m;
     relativePath := relativePath m; lastModified := lastModified m;
     selectedAt := selectedAt m;
     uploadedAt := Some at_;
     processedAt := processedAt m; host := host m;
     status := uploaded;
     errorMessage := errorMessage m; computerName := computerName m;
     userName := userName m; userAgent := userAgent m;
     uploadDuration := Some duration;
     processDuration := processDuration m; fileType := fileType m;
     mimeType := mimeType m; checksum := checksum m;
     retryCount := retryCount m |}.

(** [{ ...m, status: "processed", processedAt, processDuration: duration }] *)
Definition markProcessed (at_ : string) (duration : Z) (m : FileMetadata) : FileMetadata :=
  {| id := id m; name := name m; sizeBytes := sizeBytes m;
     relativePath := relativePath m; lastModified := lastModified m;
     selectedAt := selectedAt m; uploadedAt := uploadedAt m;
     processedAt := Some at_;
     host := host m;
     status := processed;
     errorMessage := errorMessage m; computerName := computerName m;
     userName := userName m; userAgent := userAgent m;
     uploadDuration := uploadDuration m;
     processDuration := Some duration;
     fileType := fileType m; mimeType := mimeType m; checksum := checksum m;
     retryCount := retryCount m |}.

(** [m.retryCount || 0] *)
Definition retryCountOr0 (m : FileMetadata) : Z := default 0 (retryCount m).

(** [{ ...m, status: "error", errorMessage: message,
       retryCount: (m.retryCount || 0) + 1 }] *)
Definition markError (message : string) (m : FileMetadata) : FileMetadata :=
  {| id := id m; name := name m; sizeBytes := sizeBytes m;
     relativePath := relativePath m; lastModified := lastModified m;
     selectedAt := selectedAt m; uploadedAt := uploadedAt m;
     processedAt := processedAt m; host := host m;
     status := error;
     errorMessage := Some message;
     computerName := computerName m; userName := userName m;
     userAgent := userAgent m; uploadDuration := uploadDuration m;
     processDuration := processDuration m; fileType := fileType m;
     mimeType := mimeType m; checksum := checksum m;
     retryCount := Some (retryCountOr0 m + 1) |}.

(** [{ ...meta, id }], the assignment [metas[index].id = result.file.id]. *)
Definition withId (dbId : string) (m : FileMetadata) : FileMetadata :=
  {| id := dbId; name := name m; sizeBytes := sizeBytes m;
     relativePath := relativePath m; lastModified := lastModified m;
     selectedAt := selectedAt m; uploadedAt := uploadedAt m;
     processedAt := processedAt m; host := host m; status := status m;
     errorMessage := errorMessage m; computerName := computerName m;
     userName := userName m; userAgent := userAgent m;
     uploadDuration := uploadDuration m; processDuration := processDuration m;
     fileType := fileType m; mimeType := mimeType m; checksum := checksum m;
     retryCount := retryCount m |}.

(** *** [handleFolderChange] *)

(** How the [POST] of one record to the files route ends: a response with
    [ok] and the stored row's id, a response that is not [ok], or a thrown
    error. *)
Inductive SaveResult :=
| Saved (dbId : string)
| NotSaved
| SaveThrew.

Record FolderIo := {
  nowIso : string;
  computerInfo : string * string;
  navigatorUserAgent : string;
  save : nat -> SaveResult
}.

(** The object built by [supported.map((file, index) => ({ ... }))]. *)
Definition metaOf (r : Render) (io : FolderIo) (index : nat) (file : File)
    : FileMetadata :=
  {| id := Web.name file +:+ "-" +:+ pretty (Web.size file) +:+ "-"
             +:+ pretty (Web.lastModified file) +:+ "-" +:+ pretty index;
     name := Web.name file;
     sizeBytes := Web.size file;
     relativePath := Some (Web.webkitRelativePath file);
     lastModified := Web.lastModified file;
     selectedAt := Some (nowIso io);
     uploadedAt := None;
     processedAt := None;
     host := environment r;
     status := pending;
     errorMessage := None;
     computerName := Some (fst (computerInfo io));
     userName := Some (snd (computerInfo io));
     userAgent := Some (navigatorUserAgent io);
     uploadDuration := None;
     processDuration := None;
     fileType := Some (getFileType file);
     mimeType := Some (Web.type file);
     checksum := None;
     retryCount := Some 0 |}.

Definition fileListed (file : File) : Message :=
  FileListed (Web.name file) (Web.size file) (Js.orStr (Web.type file) "Unknown type").

(** [for (const [index, file] of supported.entries()) { ... }]: the records
    with the ids the store gave, and the requests issued. *)
Fixpoint saveLoop (io : FolderIo) (index : nat) (files : list File)
    (metas : list FileMetadata) : list FileMetadata * list Event :=
  match files, metas with
  | file :: files', meta :: metas' =>
      let '(rest, events) := saveLoop io (S index) files' metas' in
      let post := FilesRoute "POST" (toJSON meta) in
      match save io index with
      | Saved dbId =>
          (withId dbId meta :: rest,
           post :: LogsRoute (fileListed file) Level.info (Some dbId) :: events)
      | NotSaved => (meta :: rest, post :: events)
      | SaveThrew =>
          (meta :: rest,
           post :: LogsRoute (fileListed file) Level.info None :: events)
      end
  | _, _ => (metas, [])
  end.

Definition handleFolderChange (r : Render) (io : FolderIo)
    (fileList : option (list File)) (c : Client) : Client :=
  match fileList with
  | None => setFileMetadata [] (setSelectedFiles [] c)
  | Some files =>
      let supported := List.filter isSupportedFile files in
      let c := setSelectedFiles supported c in
      let c := addLog (FolderSelected (length supported) (length files)) Level.info None c in
      let metas := imap (metaOf r io) supported in
      let c := setFileMetadata metas c in
      let '(metas, events) := saveLoop io 0 supported metas in
      setFileMetadata metas (emitAll events c)
  end.

(** *** The calls to the ingestion service *)

(** How an awaited call ends: a response, or a thrown value ([fetch] or
    the reading of the response threw); [None] when the value thrown is not
    an [Error]. *)
Inductive FetchResult :=
| Resolved (resp : Response)
| Threw (message : option string).

Record CallIo := {
  startTime : Z;
  endTime : Z;
  doneAt : string;
  result : FetchResult
}.

(** The message the [catch] block receives, [None] when nothing is thrown. *)
Definition failure (prefix : string) (res : FetchResult) : option string :=
  match res with
  | Resolved resp =>
      if ok resp then None
      else Some (prefix +:+ pretty (Web.status resp) +:+ " " +:+ text resp)
  | Threw (Some message) => Some message
  | Threw None => Some "Bilinmeyen hata"
  end.

Definition uploadFormData (r : Render) : FormData :=
  fold_left (fun fd file => append "files" (FormFile file (Web.name file)) fd)
    (filteredFiles r) [].

Definition uploadRequest (r : Render) : Request :=
  {| url := getUploadEndpoint (environment r); method := "POST";
     body := FormBody (uploadFormData r) |}.

Definition uploadFiles (r : Render) (c : Client) : Client :=
  let c := addLog (UploadEndpoint (getUploadEndpoint (environment r))) Level.info None c in
  emit (Backend (uploadRequest r)) c.

Definition processRequest (r : Render) : Request :=
  {| url := getProcessEndpoint (environment r); method := "POST"; body := NoBody |}.

Definition processUploaded (r : Render) (c : Client) : Client :=
  let c := addLog (ProcessEndpoint (getProcessEndpoint (environment r))) Level.info None c in
  emit (Backend (processRequest r)) c.

Definition put (patch : FileMetadata -> gmap string JValue) (metas : list FileMetadata)
    : list Event :=
  map (fun meta => FilesRoute "PUT" (patch meta)) metas.

(** [updatedMetas.find(m => m.name === file.name)?.id] *)
Definition idByName (metas : list FileMetadata) (n : string) : option string :=
  id <$> List.find (fun m => String.eqb (name m) n) metas.

(** The [catch] block shared in shape by the two handlers. *)
Definition failed (r : Render) (report : string -> Message) (message : string)
    (c : Client) : Client :=
  let updatedMetas := map (markError message) (fileMetadata r) in
  let c := setFileMetadata updatedMetas c in
  let c := emitAll (put errorPatch updatedMetas) c in
  addLog (report message) Level.error None c.

Definition handleUploadOnly (r : Render) (io : CallIo) (c : Client) : Client :=
  if (length (filteredFiles r) =? 0)%nat
  then addLog NoValidFile Level.error None c
  else
    let c := addLog (UploadStarting (length (filteredFiles r))
                       (fold_left (fun sum f => sum + Web.size f) (filteredFiles r) 0))
               Level.info None c in
    let c := uploadFiles r c in
    let duration := endTime io - startTime io in
    match failure "Yükleme başarısız: " (result io) with
    | None =>
        let updatedMetas := map (markUploaded (doneAt io) duration) (fileMetadata r) in
        let c := setFileMetadata updatedMetas c in
        let c := emitAll (put uploadedPatch updatedMetas) c in
        let c := addLog (UploadDone (length (filteredFiles r)) duration) Level.success None c in
        emitAll (map (fun file =>
                        LogsRoute (FileUploaded (Web.name file) (Web.size file))
                          Level.success (idByName updatedMetas (Web.name file)))
                   (filteredFiles r)) c
    | Some message => failed r UploadFailure message c
    end.

(** [fileMetadata.filter(f => f.status === "uploaded")] *)
Definition uploadedOf (r : Render) : list FileMetadata :=
  List.filter (fun f => FileStatus_eqb (status f) uploaded) (fileMetadata r).

Definition handleProcessOnly (r : Render) (io : CallIo) (c : Client) : Client :=
  let uploadedFiles := uploadedOf r in
  if (length uploadedFiles =? 0)%nat
  then addLog NoUploadedFile Level.error None c
  else
    let c := addLog (ProcessStarting (length uploadedFiles)) Level.info None c in
    let c := processUploaded r c in
    let duration := endTime io - startTime io in
    match failure "İşleme başarısız: " (result io) with
    | None =>
        let updatedMetas := map (markProcessed (doneAt io) duration) (fileMetadata r) in
        let c := setFileMetadata updatedMetas c in
        let c := emitAll (put processedPatch updatedMetas) c in
        let c := addLog (ProcessDone (length uploadedFiles) duration) Level.success None c in
        emitAll (map (fun file =>
                        LogsRoute (FileProcessed (name file)) Level.success
                          (idByName updatedMetas (name file)))
                   uploadedFiles) c
    | Some message => failed r ProcessFailure message c
    end.

(** Both calls are made by the closure of the render of the click: the
    test and [handleProcessOnly] read that render's [fileMetadata]. *)
Definition handleUploadAndProcess (r : Render) (uploadIo processIo : CallIo)
    (c : Client) : Client :=
  let c := handleUploadOnly r uploadIo c in
  if existsb (fun f => FileStatus_eqb (status f) uploaded) (fileMetadata r)
  then handleProcessOnly r processIo c
  else c.

(** [loadDataFromDatabase], for the files: the rows the files route answers
    with replace the state when there is at least one. *)
Definition loadDataFromDatabase (files : list FileMetadata) (c : Client) : Client :=
  let c := emit (FilesRoute "GET" ∅) c in
  if (0 <? length files)%nat then setFileMetadata files c else c.

(** The same page with nothing issued yet, to read a handler's own requests. *)
Definition quiet (c : Client) : Client :=
  {| stateSelectedFiles := stateSelectedFiles c;
     stateFileMetadata := stateFileMetadata c;
     trace := [] |}.

(** The requests of a trace that go to the ingestion service. *)
Definition backendRequests (t : list Event) : list Request :=
  omap (fun e => match e with Backend r => Some r | _ => None end) t.

(** A request to the upload endpoint, to the processing endpoint. *)
Definition isUpload (r : Request) : bool :=
  Js.endsWith (url r) "/embeddings/upload".

Definition isProcess (r : Request) : bool :=
  Js.endsWith (url r) "/embeddings/process-uploads".

(** The log entries a trace asks the logs route to store. *)
Definition logLevels (t : list Event) : list Level.t :=
  omap (fun e => match e with LogsRoute _ level _ => Some level | _ => None end) t.

Definition isWarning (l : Level.t) : bool :=
  match l with Level.warning => true | _ => false end.

Definition logEntries (t : list Event) : list (Message * Level.t * option string) :=
  omap (fun e => match e with
                 | LogsRoute message level fileId => Some (message, level, fileId)
                 | _ => None
                 end) t.

(** A log entry is the [info] entry that lists a file of [files]. *)
Definition listedEntry (files : list File) (e : Message * Level.t * option string) : Prop :=
  snd (fst e) = Level.info /\ exists file, In file files /\ fst (fst e) = fileListed file.

(** The requests of a trace that go to the files route. *)
Definition filesRequests (t : list Event) : list (string * gmap string JValue) :=
  omap (fun e => match e with
                 | FilesRoute method body => Some (method, body)
                 | _ => None
                 end) t.

End Page.

(** ** The store: the two tables of the migration

    [FileMetadata] is keyed by its primary key [id]; a row maps the other
    columns to their values. [Log] is keyed by its [id]; its [fileId] is the
    foreign key to [FileMetadata(id)], declared [ON DELETE SET NULL]. *)
Module Db.
Import Web.

Record Log := {
  message : Page.Message;
  level : Level.t;
  timestamp : string;
  fileId : option string
}.

Record t := {
  FileMetadata : gmap string (gmap string JValue);
  Logs : gmap string Log;
  generated : nat
}.

(** The columns of [FileMetadata] besides [id]. *)
Definition columns : list string :=
  ["name"; "sizeBytes"; "relativePath"; "lastModified"; "selectedAt";
   "uploadedAt"; "processedAt"; "host"; "status"; "errorMessage";
   "computerName"; "userName"; "userAgent"; "uploadDuration";
   "processDuration"; "fileType"; "mimeType"; "checksum"; "retryCount";
   "createdAt"; "updatedAt"].

(** The columns declared [NOT NULL] without a default that a [create] has
    to supply. *)
Definition required : list string :=
  ["name"; "sizeBytes"; "lastModified"; "selectedAt"; "host"; "status"].

(** The declared type of a column. *)
Inductive ColType := Text | Integer | DateTime.

(** The declaration of each column in the migration: its type, and
    whether it may be null. *)
Definition schema : list (string * (ColType * bool)) :=
  [("name", (Text, false)); ("sizeBytes", (Integer, false));
   ("relativePath", (Text, true)); ("lastModified", (Integer, false));
   ("selectedAt", (DateTime, false)); ("uploadedAt", (DateTime, true));
   ("processedAt", (DateTime, true)); ("host", (Text, false));
   ("status", (Text, false)); ("errorMessage", (Text, true));
   ("computerName", (Text, true)); ("userName", (Text, true));
   ("userAgent", (Text, true)); ("uploadDuration", (Integer, true));
   ("processDuration", (Integer, true)); ("fileType", (Text, true));
   ("mimeType", (Text, true)); ("checksum", (Text, true));
   ("retryCount", (Integer, false)); ("createdAt", (DateTime, false));
   ("updatedAt", (DateTime, false))].

Definition columnOf (col : string) : option (ColType * bool) :=
  snd <$> List.find (fun c => String.eqb (fst c) col) schema.

(** What the sources leave to the JavaScript engine and to the client
    library of the store: the strings [new Date(s)] reads as a date, and
    the strings the client takes as they are for a [DATETIME] column. *)
Record Engine := {
  parses : string -> bool;
  iso : string -> bool
}.

(** A value of the [data] of a query: a value of the request body as it
    came, or the [Date] object a handler made of one. A [Date] is an
    instant or invalid; an instant is written as the string it was read
    from, or as its milliseconds since the epoch when it was made of
    anything else. An integer of a body is taken to be one that the
    column stores and gives back. *)
Inductive Datum :=
| Raw (v : JValue)
| DateObject (instant : option JValue).

(** The check of one value against the type of its column. *)
Definition typed (eng : Engine) (ty : ColType) (nullable : bool) (d : Datum) : bool :=
  match d with
  | Raw JNull => nullable
  | Raw (JStr s) =>
      match ty with Text => true | DateTime => iso eng s | Integer => false end
  | Raw (JNum _) =>
      match ty with Integer => true | _ => false end
  | Raw (JBool _) => false
  | DateObject (Some _) =>
      match ty with DateTime => true | _ => false end
  | DateObject None => false
  end.

Definition accepted (eng : Engine) (col : string) (d : Datum) : bool :=
  match columnOf col with
  | Some (ty, nullable) => typed eng ty nullable d
  | None => false
  end.

(** The [data] of a query is refused unless every key is a column and
    every value is one its column takes. *)
Definition valid (eng : Engine) (data : gmap string Datum) : bool :=
  bool_decide (map_Forall (fun col d => accepted eng col d = true) data).

(** The value a column holds once a datum is written to it. *)
Definition stored (d : Datum) : JValue :=
  match d with
  | Raw v => v
  | DateObject (Some instant) => instant
  | DateObject None => JNull
  end.

(** The primary keys are generated by the client library; a counter stands
    for the generator. *)
Definition cuid (n : nat) : string := "c" +:+ pretty n.

Definition empty : t := {| FileMetadata := ∅; Logs := ∅; generated := 0 |}.

(** The columns of a new row that the query does not supply: null, the
    declared default 0 of [retryCount], and the time of the insert for
    [createdAt] and [updatedAt]. *)
Definition defaults (now : string) : gmap string JValue :=
  <["createdAt" := JStr now]>
    (<["updatedAt" := JStr now]>
       (<["retryCount" := JNum 0]>
          (list_to_map (map (fun col => (col, JNull)) columns)))).

(** [INSERT INTO FileMetadata]: refused when the data is not valid or a
    required column is not supplied. *)
Definition createFile (eng : Engine) (now : string) (data : gmap string Datum) (db : t)
    : option (string * t) :=
  if valid eng data
     && forallb (fun col => bool_decide (is_Some (data !! col))) required
  then
    let key := cuid (generated db) in
    Some (key, {| FileMetadata := <[key := (stored <$> data) ∪ defaults now]>
                                    (FileMetadata db);
                  Logs := Logs db;
                  generated := S (generated db) |})
  else None.

(** [UPDATE FileMetadata SET ... WHERE id = key]: the columns of [data]
    are written, [updatedAt] is set to the time of the update unless
    [data] supplies it, the other columns are kept; refused when the row
    does not exist or the data is not valid. *)
Definition updateFile (eng : Engine) (now : string) (key : string)
    (data : gmap string Datum) (db : t) : option t :=
  match FileMetadata db !! key with
  | None => None
  | Some row =>
      if valid eng data
      then Some {| FileMetadata :=
                     <[key := (stored <$> data) ∪ <["updatedAt" := JStr now]> row]>
                       (FileMetadata db);
                   Logs := Logs db;
                   generated := generated db |}
      else None
  end.

(** The action of the foreign key on one log row when the rows selected by
    [gone] are deleted from [FileMetadata]. *)
Definition onDeleteSetNull (gone : string -> bool) (l : Log) : Log :=
  match fileId l with
  | Some f =>
      if gone f
      then {| message := message l; level := level l;
              timestamp := timestamp l; fileId := None |}
      else l
  | None => l
  end.

(** [DELETE FROM FileMetadata WHERE id = key] *)
Definition deleteFile (key : string) (db : t) : t :=
  match FileMetadata db !! key with
  | None => db
  | Some _ =>
      {| FileMetadata := delete key (FileMetadata db);
         Logs := onDeleteSetNull (String.eqb key) <$> Logs db;
         generated := generated db |}
  end.

(** [DELETE FROM FileMetadata] *)
Definition deleteManyFiles (db : t) : t :=
  {| FileMetadata := ∅;
     Logs := onDeleteSetNull (fun f => bool_decide (is_Some (FileMetadata db !! f)))
               <$> Logs db;
     generated := generated db |}.

(** [INSERT INTO Log]: fails when [fileId] names no row of [FileMetadata]. *)
Definition createLog (l : Log) (db : t) : option (string * t) :=
  if match fileId l with
     | Some f => bool_decide (is_Some (FileMetadata db !! f))
     | None => true
     end
  then
    let key := cuid (generated db) in
    Some (key, {| FileMetadata := FileMetadata db;
                  Logs := <[key := l]> (Logs db);
                  generated := S (generated db) |})
  else None.

(** [DELETE FROM Log] *)
Definition deleteManyLogs (db : t) : t :=
  {| FileMetadata := FileMetadata db; Logs := ∅; generated := generated db |}.

End Db.

(** ** The files route *)
Module FilesApi.
Import Web.

(** The answer of a handler: [{ success: true, ... }] with the id of the
    row, or status 500. *)
Inductive Reply := Done (key : string) | Failed500.

(** [new Date(v)]: a string is parsed; a number is the milliseconds since
    the epoch, within the range of time values; [true] is 1 and [false]
    and [null] are 0; [undefined] gives an invalid date. *)
Definition newDate (eng : Db.Engine) (v : option JValue) : Db.Datum :=
  Db.DateObject
    match v with
    | None => None
    | Some JNull => Some (JNum 0)
    | Some (JBool b) => Some (JNum (if b then 1 else 0))
    | Some (JNum n) =>
        if Z.abs n <=? 8640000000000000 then Some (JNum n) else None
    | Some (JStr s) => if Db.parses eng s then Some (JStr s) else None
    end.

(** [x ? new Date(x) : null] *)
Definition dateOrNull (eng : Db.Engine) (v : option JValue) : Db.Datum :=
  if truthy v then newDate eng v else Db.Raw JNull.

(** A property read off the body: [undefined] when the body has none. *)
Definition raw (v : option JValue) : option Db.Datum := Db.Raw <$> v.

(** [x || 0] *)
Definition orZero (v : option JValue) : Db.Datum :=
  if truthy v then Db.Raw (default JNull v) else Db.Raw (JNum 0).

(** An object literal handed to the client library: a property whose
    value is [undefined] counts as not given. *)
Definition properties (l : list (string * option Db.Datum)) : gmap string Db.Datum :=
  omap (fun d => d) (list_to_map l : gmap string (option Db.Datum)).

Definition POST (eng : Db.Engine) (now : string) (fileData : gmap string JValue)
    (db : Db.t) : Reply * Db.t :=
  let data : gmap string Db.Datum :=
    properties
      [("name", raw (fileData !! "name"));
       ("sizeBytes", raw (fileData !! "sizeBytes"));
       ("relativePath", raw (fileData !! "relativePath"));
       ("lastModified", raw (fileData !! "lastModified"));
       ("selectedAt", Some (newDate eng (fileData !! "selectedAt")));
       ("uploadedAt", Some (dateOrNull eng (fileData !! "uploadedAt")));
       ("processedAt", Some (dateOrNull eng (fileData !! "processedAt")));
       ("host", raw (fileData !! "host"));
       ("status", raw (fileData !! "status"));
       ("errorMessage", raw (fileData !! "errorMessage"));
       ("computerName", raw (fileData !! "computerName"));
       ("userName", raw (fileData !! "userName"));
       ("userAgent", raw (fileData !! "userAgent"));
       ("uploadDuration", raw (fileData !! "uploadDuration"));
       ("processDuration", raw (fileData !! "processDuration"));
       ("fileType", raw (fileData !! "fileType"));
       ("mimeType", raw (fileData !! "mimeType"));
       ("checksum", raw (fileData !! "checksum"));
       ("retryCount", Some (orZero (fileData !! "retryCount")))] in
  match Db.createFile eng now data db with
  | Some (key, db') => (Done key, db')
  | None => (Failed500, db)
  end.

(** [const { id, ...updateData } = await request.json()] and the [data] of
    the update. *)
Definition updateData (body : gmap string JValue) : gmap string JValue :=
  delete "id" body.

Definition putData (eng : Db.Engine) (body : gmap string JValue) : gmap string Db.Datum :=
  <["processedAt" := dateOrNull eng (updateData body !! "processedAt")]>
    (<["uploadedAt" := dateOrNull eng (updateData body !! "uploadedAt")]>
       (Db.Raw <$> updateData body)).

Definition PUT (eng : Db.Engine) (now : string) (body : gmap string JValue) (db : Db.t)
    : Reply * Db.t :=
  match body !! "id" with
  | Some (JStr key) =>
      match Db.updateFile eng now key (putData eng body) db with
      | Some db' => (Done key, db')
      | None => (Failed500, db)
      end
  | _ => (Failed500, db)
  end.

Definition DELETE (db : Db.t) : Db.t := Db.deleteManyFiles db.

End FilesApi.

(** ** The logs route *)
Module LogsApi.

(** [fileId: fileId || null] *)
Definition fileIdOrNull (fileId : option string) : option string :=
  match fileId with
  | Some f => if Js.truthyStr f then Some f else None
  | None => None
  end.

Definition POST (message : Page.Message) (level : Level.t) (fileId : option string)
    (now : string) (db : Db.t) : FilesApi.Reply * Db.t :=
  match Db.createLog {| Db.message := message; Db.level := level;
                        Db.timestamp := now; Db.fileId := fileIdOrNull fileId |} db with
  | Some (key, db') => (FilesApi.Done key, db')
  | None => (FilesApi.Failed500, db)
  end.

Definition DELETE (db : Db.t) : Db.t := Db.deleteManyLogs db.

End LogsApi.

(** ** The duplicate detector of the desktop client *)
Module Lifecycle.
(** Modelled from the spec: the lifecycle states of a record of the desktop
    client (its file manager and database modules are not part of the
    sources at hand), section 4.3. *)
Inductive FileStatus :=
| SELECTED | PENDING | UPLOADING | UPLOADED | UPLOAD_FAILED
| PROCESSING | PROCESSED | PROCESS_FAILED
| DUPLICATE | OVERWRITE (n : nat).
End Lifecycle.

Module DuplicateDetector.

(** Modelled from the spec: the fields of a FileRecord that the
    classification reads (section 3). *)
Record FileRecord := {
  contentHash : string;
  host : string;
  status : Lifecycle.FileStatus
}.

Inductive Classification := NEW | DUPLICATE | OVERWRITE (n : nat).

(** Modelled from the spec: a prior record has the same hash and host. *)
Definition sameContent (h hst : string) (r : FileRecord) : bool :=
  String.eqb (contentHash r) h && String.eqb (host r) hst.

(** Modelled from the spec: a record reached PROCESSED, which is terminal. *)
Definition reachedProcessed (r : FileRecord) : bool :=
  match status r with Lifecycle.PROCESSED => true | _ => false end.

Definition priorsOf (h hst : string) (priorRecords : list FileRecord) : list FileRecord :=
  List.filter (sameContent h hst) priorRecords.

Definition processedPriors (h hst : string) (priorRecords : list FileRecord) : nat :=
  length (List.filter reachedProcessed (priorsOf h hst priorRecords)).

(** Modelled from the spec: the decision precedence of section 4.4, rule 1,
    then rule 2, then rule 3. *)
Definition classify (h hst : string) (priorRecords : list FileRecord) : Classification :=
  match priorsOf h hst priorRecords with
  | [] => NEW
  | _ :: _ =>
      if existsb reachedProcessed (priorsOf h hst priorRecords)
      then OVERWRITE (processedPriors h hst priorRecords)
      else DUPLICATE
  end.

(** Modelled from the spec: a record of the given content reaches PROCESSED. *)
Definition processedRecord (h hst : string) : FileRecord :=
  {| contentHash := h; host := hst; status := Lifecycle.PROCESSED |}.

End DuplicateDetector.

(** ** Reachable states of the page *)
Module Reach.
Import Page.

Definition initial : Client :=
  {| stateSelectedFiles := []; stateFileMetadata := []; trace := [] |}.

Definition retryCountValid (m : FileMetadata) : Prop := 0 <= retryCountOr0 m.

(** No record of [after] has a lower counter than the record at its place
    in [before]. *)
Definition notLowered (before after : list FileMetadata) : Prop :=
  Forall2 (fun m m' => retryCountOr0 m <= retryCountOr0 m') before after.

(** One operator action: a handler runs in the render of the current
    state. *)
Inductive action : Client -> Client -> Prop :=
| folderChange env io fileList c :
    action c (handleFolderChange (renderOf env c) io fileList c)
| uploadOnly env io c :
    action c (handleUploadOnly (renderOf env c) io c)
| processOnly env io c :
    action c (handleProcessOnly (renderOf env c) io c)
| uploadAndProcess env uploadIo processIo c :
    action c (handleUploadAndProcess (renderOf env c) uploadIo processIo c).

(** The states the handlers reach from the empty page. *)
Inductive reachable : Client -> Prop :=
| reach_initial : reachable initial
| reach_action c c' : reachable c -> action c c' -> reachable c'.

End Reach.

(** ** Concrete selections and call outcomes used in the examples *)
Module Sample.
Import Web Page.

Definition a_txt : File :=
  {| Web.name := "a.txt"; size := 12; Web.lastModified := 1755864575000;
     type := "text/plain"; webkitRelativePath := "docs/a.txt" |}.

Definition b_pdf : File :=
  {| Web.name := "b.pdf"; size := 2048; Web.lastModified := 1755864576000;
     type := "application/pdf"; webkitRelativePath := "docs/b.pdf" |}.

Definition c_exe : File :=
  {| Web.name := "c.exe"; size := 4096; Web.lastModified := 1755864577000;
     type := "application/x-msdownload"; webkitRelativePath := "docs/c.exe" |}.

Definition folderIo : FolderIo :=
  {| nowIso := "2025-08-22T12:09:35.000Z";
     computerInfo := ("Win32", "Unknown");
     navigatorUserAgent := "Mozilla/5.0";
     save := fun index => Saved (Db.cuid index) |}.

(** The page after the folder [{a.txt, b.pdf, c.exe}] was picked. *)
Definition selected : Client :=
  handleFolderChange (renderOf local Reach.initial) folderIo
    (Some [a_txt; b_pdf; c_exe]) Reach.initial.

Definition answers (code : Z) (t : string) (at_ : string) : CallIo :=
  {| startTime := 1755864580000; endTime := 1755864580250; doneAt := at_;
     result := Resolved {| Web.status := code; text := t |} |}.

Definition http200 : CallIo := answers 200 "{}" "2025-08-22T12:09:40.250Z".
Definition http500 : CallIo := answers 500 "Internal Server Error" "2025-08-22T12:09:40.250Z".

(** The page after the upload of that selection succeeded, and after it
    failed. *)
Definition uploadedPage : Client :=
  handleUploadOnly (renderOf local selected) http200 selected.

Definition failedPage : Client :=
  handleUploadOnly (renderOf local selected) http500 selected.

(** The page after a reload that found the row of [a.txt] uploaded and
    the row of [b.pdf] still pending in the store. *)
Definition mixedPage : Client :=
  loadDataFromDatabase
    (firstn 1 (stateFileMetadata uploadedPage) ++ skipn 1 (stateFileMetadata selected))
    Reach.initial.

(** An environment of [app.js] with the given upload outcomes. *)
Definition appIo (upload : nat -> AppJs.UploadOutcome) : AppJs.Io :=
  {| AppJs.toISOString := fun _ => "2025-08-22T12:09:40.000Z";
     AppJs.toLocaleString := fun _ => "22.08.2025 12:09:40";
     AppJs.userAgent := "Mozilla/5.0";
     AppJs.upload := upload;
     AppJs.process := AppJs.ProcessJson true (Some (Some 7)) None |}.

Definition allSucceed : nat -> AppJs.UploadOutcome :=
  fun _ => AppJs.UploadJson true None.

Definition secondFails : nat -> AppJs.UploadOutcome :=
  fun i => if (i =? 1)%nat then AppJs.UploadThrew "Failed to fetch"
           else AppJs.UploadJson true None.

(** A store holding the row of [a.txt], uploaded, and the log entry that
    lists it. *)
Definition storedRow : gmap string JValue :=
  toJSON (markUploaded "2025-08-22T12:09:40.250Z" 250
            (metaOf (renderOf local Reach.initial) folderIo 0 a_txt)).

(** An engine that reads the strings of the shape [toISOString] gives. *)
Definition engine : Db.Engine :=
  {| Db.parses := fun s => (String.length s =? 24)%nat && Js.endsWith s "Z";
     Db.iso := fun s => (String.length s =? 24)%nat && Js.endsWith s "Z" |}.

Definition store : Db.t :=
  snd (LogsApi.POST (fileListed a_txt) Level.info (Some (Db.cuid 0))
         "2025-08-22T12:09:36.000Z"
         (snd (FilesApi.POST engine "2025-08-22T12:09:35.500Z" storedRow Db.empty))).

(** The body the page sends for that row after a successful trigger. *)
Definition processedBody : gmap string JValue :=
  processedPatch
    (markProcessed "2025-08-22T12:10:00.000Z" 900
       (withId (Db.cuid 0)
          (markUploaded "2025-08-22T12:09:40.250Z" 250
             (metaOf (renderOf local Reach.initial) folderIo 0 a_txt)))).

End Sample.

(** ** Auxiliary notions for the properties of the code *)
Module Aux.
Import Web.

(** The suffix of a string that starts at its last dot, if it has a dot. *)
Fixpoint lastDotSuffix (s : string) : option string :=
  match s with
  | EmptyString => None
  | String c rest =>
      match lastDotSuffix rest with
      | Some t => Some t
      | None => if Ascii.eqb c "."%char then Some s else None
      end
  end.

(** The label [getFileType] gives to a supported file. *)
Definition labelOf (lower : string) : string :=
  if Js.endsWith lower ".pdf" then "PDF Document"
  else if Js.endsWith lower ".docx" then "Word Document"
  else if Js.endsWith lower ".txt" then "Text File"
  else "Markdown File".

(** Referential integrity of the store: a log entry names no file row
    or a row of [FileMetadata]. *)
Definition consistent (db : Db.t) : Prop :=
  forall k l f,
    Db.Logs db !! k = Some l -> Db.fileId l = Some f ->
    is_Some (Db.FileMetadata db !! f).

(** The [data] the [POST] handler of the files route hands to [create]. *)
Definition postData (eng : Db.Engine) (fileData : gmap string JValue)
    : gmap string Db.Datum :=
  FilesApi.properties
    [("name", FilesApi.raw (fileData !! "name"));
     ("sizeBytes", FilesApi.raw (fileData !! "sizeBytes"));
     ("relativePath", FilesApi.raw (fileData !! "relativePath"));
     ("lastModified", FilesApi.raw (fileData !! "lastModified"));
     ("selectedAt", Some (FilesApi.newDate eng (fileData !! "selectedAt")));
     ("uploadedAt", Some (FilesApi.dateOrNull eng (fileData !! "uploadedAt")));
     ("processedAt", Some (FilesApi.dateOrNull eng (fileData !! "processedAt")));
     ("host", FilesApi.raw (fileData !! "host"));
     ("status", FilesApi.raw (fileData !! "status"));
     ("errorMessage", FilesApi.raw (fileData !! "errorMessage"));
     ("computerName", FilesApi.raw (fileData !! "computerName"));
     ("userName", FilesApi.raw (fileData !! "userName"));
     ("userAgent", FilesApi.raw (fileData !! "userAgent"));
     ("uploadDuration", FilesApi.raw (fileData !! "uploadDuration"));
     ("processDuration", FilesApi.raw (fileData !! "processDuration"));
     ("fileType", FilesApi.raw (fileData !! "fileType"));
     ("mimeType", FilesApi.raw (fileData !! "mimeType"));
     ("checksum", FilesApi.raw (fileData !! "checksum"));
     ("retryCount", Some (FilesApi.orZero (fileData !! "retryCount")))].

(** A property of the body is missing or null. *)
Definition absent (fileData : gmap string JValue) (col : string) : Prop :=
  fileData !! col = None \/ fileData !! col = Some JNull.

(** A body whose data the store takes and which writes the values
    [written]. *)
Definition writes (eng : Db.Engine) (written : list (string * JValue))
    (body : gmap string JValue) : Prop :=
  Db.valid eng (FilesApi.putData eng body) = true
  /\ forall col v, In (col, v) written ->
       Db.stored <$> (FilesApi.putData eng body !! col) = Some v.

(** The requests of a trace to the files route are [PUT]s of such bodies. *)
Definition putsOf (eng : Db.Engine) (written : list (string * JValue)) (e : Page.Event)
    : Prop :=
  match e with
  | Page.FilesRoute method body => method = "PUT" /\ writes eng written body
  | _ => True
  end.

(** Two rows hold the same values but for the two time stamps of the
    store. *)
Definition sameButStamps (row row' : gmap string JValue) : Prop :=
  forall col, col <> "createdAt" -> col <> "updatedAt" -> row !! col = row' !! col.

(** The row of [key] is stored and holds the values [written]. *)
Definition holds (written : list (string * JValue)) (db : Db.t) (key : string) : Prop :=
  exists row,
    Db.FileMetadata db !! key = Some row
    /\ forall col v, In (col, v) written -> row !! col = Some v.

(** The upload button pressed once for each outcome of [ios], each time in
    the render of the state the press before left. *)
Fixpoint uploads (env : Page.Environment) (ios : list Page.CallIo) (c : Page.Client)
    : Page.Client :=
  match ios with
  | [] => c
  | io :: rest => uploads env rest (Page.handleUploadOnly (Page.renderOf env c) io c)
  end.

(** The id of the record of a file after the loop of [handleFolderChange]:
    the id the store answered with, or the one the page made up. *)
Definition registered (r : Page.Render) (io : Page.FolderIo) (index : nat) (file : File)
    : Page.FileMetadata :=
  match Page.save io index with
  | Page.Saved dbId => Page.withId dbId (Page.metaOf r io index file)
  | _ => Page.metaOf r io index file
  end.

(** The log entry of a file in that loop, if it gets one. *)
Definition listing (io : Page.FolderIo) (index : nat) (file : File)
    : option (Page.Message * Level.t * option string) :=
  match Page.save io index with
  | Page.Saved dbId => Some (Page.fileListed file, Level.info, Some dbId)
  | Page.NotSaved => None
  | Page.SaveThrew => Some (Page.fileListed file, Level.info, None)
  end.

End Aux.

(** ** The lines of the log panel *)
Module Panel.

(** The updater of [addLog] and [addLogSync]:
    [prev => [logMessage, ...prev.slice(0, 99)]]. *)
Definition push (logMessage : string) (prev : list string) : list string :=
  logMessage :: firstn 99 prev.

(** The panel after the messages were added, oldest first. *)
Definition pushAll (messages : list string) (prev : list string) : list string :=
  fold_left (fun logs logMessage => push logMessage logs) messages prev.

End Panel.

(** ** The requests of the page at the route handlers

    A request of a trace that reaches the server runs the handler its
    method names ([GET] reads only); the requests run in the order of the
    trace. The clock gives the time of a query. *)
Module Wire.
Import Web.

Definition deliver (eng : Db.Engine) (clock : nat -> string) (e : Page.Event)
    (db : Db.t) : Db.t :=
  match e with
  | Page.Backend _ => db
  | Page.FilesRoute method body =>
      if String.eqb method "POST"
      then snd (FilesApi.POST eng (clock (Db.generated db)) body db)
      else if String.eqb method "PUT"
      then snd (FilesApi.PUT eng (clock (Db.generated db)) body db)
      else if String.eqb method "DELETE" then FilesApi.DELETE db
      else db
  | Page.LogsRoute message level fileId =>
      snd (LogsApi.POST message level fileId (clock (Db.generated db)) db)
  end.

Definition deliverAll (eng : Db.Engine) (clock : nat -> string) (t : list Page.Event)
    (db : Db.t) : Db.t :=
  fold_left (fun db e => deliver eng clock e db) t db.

End Wire.

(** * Properties *)

(** ** The duplicate detector *)
Section Classify.
Import DuplicateDetector.

Lemma filter_nil_existsb {A} (p : A -> bool) (l : list A) :
  List.filter p l = [] <-> existsb p l = false.
Proof.
  induction l as [|x l IH]; simpl; [tauto|].
  destruct (p x); simpl; [split; discriminate | exact IH].
Qed.

Lemma processedPriors_pos h hst priors :
  (0 < processedPriors h hst priors)%nat <->
  existsb reachedProcessed (priorsOf h hst priors) = true.
Proof.
  unfold processedPriors.
  destruct (existsb reachedProcessed (priorsOf h hst priors)) eqn:E.
  - split; [reflexivity|intros _].
    destruct (List.filter reachedProcessed (priorsOf h hst priors)) eqn:F.
    + apply filter_nil_existsb in F. congruence.
    + simpl; lia.
  - apply filter_nil_existsb in E. rewrite E. simpl. split; [lia|discriminate].
Qed.

(** C1. [classify] returns NEW when no prior record has the hash and the
    host; OVERWRITE n, with n the number of the priors of that hash and
    host that reached PROCESSED, when there is at least one of those; and
    DUPLICATE when there are priors and none reached PROCESSED. Content
    processed once is classified OVERWRITE 1 when selected again, and
    OVERWRITE 2 once that second record was processed too. *)
Theorem classify_precedence (h hst : string) (priorRecords : list FileRecord) :
  (priorsOf h hst priorRecords = [] -> classify h hst priorRecords = NEW)
  /\ ((0 < processedPriors h hst priorRecords)%nat ->
      classify h hst priorRecords = OVERWRITE (processedPriors h hst priorRecords))
  /\ (priorsOf h hst priorRecords <> [] ->
      processedPriors h hst priorRecords = 0%nat ->
      classify h hst priorRecords = DUPLICATE)
  /\ classify h hst [processedRecord h hst] = OVERWRITE 1
  /\ classify h hst [processedRecord h hst; processedRecord h hst] = OVERWRITE 2.
Proof.
  unfold classify. repeat split.
  - intros ->. reflexivity.
  - intros Hpos. pose proof Hpos as Hex. apply processedPriors_pos in Hex.
    destruct (priorsOf h hst priorRecords) eqn:E; [discriminate Hex|].
    rewrite Hex. reflexivity.
  - intros Hne Hzero.
    destruct (priorsOf h hst priorRecords) eqn:E; [congruence|].
    destruct (existsb reachedProcessed (f :: l)) eqn:Hex; [|reflexivity].
    rewrite <- E in Hex. apply processedPriors_pos in Hex. lia.
  - unfold processedPriors, priorsOf, sameContent. simpl.
    rewrite !String.eqb_refl. reflexivity.
  - unfold processedPriors, priorsOf, sameContent. simpl.
    rewrite !String.eqb_refl. reflexivity.
Qed.

Lemma classify_precedence_witness :
  classify "9f86d0" "local"
    [ {| contentHash := "9f86d0"; host := "local"; status := Lifecycle.UPLOAD_FAILED |};
      {| contentHash := "9f86d0"; host := "production"; status := Lifecycle.PROCESSED |};
      {| contentHash := "9f86d0"; host := "local"; status := Lifecycle.PROCESSED |} ]
  = OVERWRITE 1
  /\ classify "9f86d0" "local"
       [ {| contentHash := "9f86d0"; host := "local"; status := Lifecycle.UPLOADING |} ]
     = DUPLICATE
  /\ classify "9f86d0" "local"
       [ {| contentHash := "77aa01"; host := "local"; status := Lifecycle.PROCESSED |} ]
     = NEW.
Proof.
  split; [|split].
  - refine (proj1 (proj2 (classify_precedence "9f86d0" "local" (_ :: _ :: _ :: []))) _).
    vm_compute. lia.
  - refine (proj1 (proj2 (proj2 (classify_precedence "9f86d0" "local" (_ :: []))))
              _ _).
    + vm_compute. discriminate.
    + vm_compute. reflexivity.
  - refine (proj1 (classify_precedence "9f86d0" "local" (_ :: [])) _).
    vm_compute. reflexivity.
Defined.

End Classify.

(** ** The upload loop of [app.js] *)
Section AppJsLoop.
Import Web WebRequest AppJs.

Lemma uploadLoop_rows io files : forall i k,
  fst (uploadLoop io i files) !! k = rowOf io (i + k) <$> files !! k.
Proof.
  induction files as [|file rest IH]; intros i k; simpl.
  - reflexivity.
  - specialize (IH (S i)). destruct (uploadLoop io (S i) rest) as [rows reqs].
    simpl in *. destruct k as [|k]; simpl.
    + rewrite Nat.add_0_r. reflexivity.
    + rewrite IH. replace (i + S k)%nat with (S (i + k)) by lia. reflexivity.
Qed.

Lemma uploadLoop_requests io files : forall i k,
  snd (uploadLoop io i files) !! k = uploadRequest io (i + k) <$> files !! k.
Proof.
  induction files as [|file rest IH]; intros i k; simpl.
  - reflexivity.
  - specialize (IH (S i)). destruct (uploadLoop io (S i) rest) as [rows reqs].
    simpl in *. destruct k as [|k]; simpl.
    + rewrite Nat.add_0_r. reflexivity.
    + rewrite IH. replace (i + S k)%nat with (S (i + k)) by lia. reflexivity.
Qed.

Lemma uploadLoop_lengths io files : forall i,
  length (fst (uploadLoop io i files)) = length files
  /\ length (snd (uploadLoop io i files)) = length files.
Proof.
  induction files as [|file rest IH]; intros i; simpl; [split; reflexivity|].
  specialize (IH (S i)). destruct (uploadLoop io (S i) rest) as [rows reqs].
  simpl in *. destruct IH as [-> ->]. split; reflexivity.
Qed.

Lemma click_rows io files :
  rows (click io files) = fst (uploadLoop io 0 (List.filter supported files)).
Proof.
  unfold click. destruct files as [|f files]; [reflexivity|].
  cbn [length Nat.eqb].
  destruct (uploadLoop io 0 (List.filter supported (f :: files))); reflexivity.
Qed.

Lemma click_requests io files :
  files <> [] ->
  requests (click io files)
  = (snd (uploadLoop io 0 (List.filter supported files)) ++ [processRequest])%list.
Proof.
  intros Hne. unfold click. destruct files as [|f files]; [congruence|].
  cbn [length Nat.eqb].
  destruct (uploadLoop io 0 (List.filter supported (f :: files))); reflexivity.
Qed.

Lemma uploadRequest_kind io i file :
  isUpload (uploadRequest io i file) = true
  /\ isProcess (uploadRequest io i file) = false.
Proof. split; reflexivity. Qed.

Lemma uploadLoop_all_uploads io files : forall i,
  Forall (fun r => isUpload r = true /\ isProcess r = false)
    (snd (uploadLoop io i files)).
Proof.
  induction files as [|file rest IH]; intros i; simpl; [constructor|].
  specialize (IH (S i)). destruct (uploadLoop io (S i) rest) as [rows reqs].
  simpl in *. constructor; [apply uploadRequest_kind | exact IH].
Qed.

End AppJsLoop.

(** ** What the handlers of the page leave in the state *)
Section PageState.
Import Web WebRequest Page.

Lemma guard_nonempty {A} (l : list A) : l <> [] -> (length l =? 0)%nat = false.
Proof. destruct l; [congruence | reflexivity]. Qed.

Lemma upload_failure_state r io c message :
  filteredFiles r <> [] ->
  failure "Yükleme başarısız: " (result io) = Some message ->
  stateFileMetadata (handleUploadOnly r io c) = map (markError message) (fileMetadata r).
Proof.
  intros Hne Hfail. unfold handleUploadOnly.
  rewrite (guard_nonempty _ Hne), Hfail. reflexivity.
Qed.

Lemma upload_success_state r io c :
  filteredFiles r <> [] ->
  failure "Yükleme başarısız: " (result io) = None ->
  stateFileMetadata (handleUploadOnly r io c)
  = map (markUploaded (doneAt io) (endTime io - startTime io)) (fileMetadata r).
Proof.
  intros Hne Hok. unfold handleUploadOnly.
  rewrite (guard_nonempty _ Hne), Hok. reflexivity.
Qed.

Lemma upload_guard_state r io c :
  filteredFiles r = [] ->
  stateFileMetadata (handleUploadOnly r io c) = stateFileMetadata c.
Proof. intros Hnil. unfold handleUploadOnly. rewrite Hnil. reflexivity. Qed.

Lemma process_failure_state r io c message :
  uploadedOf r <> [] ->
  failure "İşleme başarısız: " (result io) = Some message ->
  stateFileMetadata (handleProcessOnly r io c) = map (markError message) (fileMetadata r).
Proof.
  intros Hne Hfail. unfold handleProcessOnly.
  rewrite (guard_nonempty _ Hne), Hfail. reflexivity.
Qed.

Lemma process_success_state r io c :
  uploadedOf r <> [] ->
  failure "İşleme başarısız: " (result io) = None ->
  stateFileMetadata (handleProcessOnly r io c)
  = map (markProcessed (doneAt io) (endTime io - startTime io)) (fileMetadata r).
Proof.
  intros Hne Hok. unfold handleProcessOnly.
  rewrite (guard_nonempty _ Hne), Hok. reflexivity.
Qed.

Lemma process_guard_state r io c :
  uploadedOf r = [] ->
  stateFileMetadata (handleProcessOnly r io c) = stateFileMetadata c.
Proof.
  intros Hnil. unfold handleProcessOnly.
  rewrite Hnil. reflexivity.
Qed.

Lemma uploadedOf_member r i m :
  fileMetadata r !! i = Some m -> status m = uploaded -> uploadedOf r <> [].
Proof.
  intros Hi Hs Hnil.
  assert (Hin : In m (uploadedOf r)).
  { apply filter_In. split.
    - apply list_elem_of_In, list_elem_of_lookup. eauto.
    - rewrite Hs. reflexivity. }
  rewrite Hnil in Hin. exact Hin.
Qed.

End PageState.

(** ** Failures of the upload and of the processing trigger *)
Section Failures.
Import Web WebRequest Page Sample.

(** C2, as stated, fails on the page: when the one upload request of the
    batch [{a.txt, b.pdf}] fails, records other than the first do not stay
    as they were. *)
Lemma upload_failure_reaches_other_records :
  ~ (forall j : nat, j <> 0%nat ->
       stateFileMetadata failedPage !! j = stateFileMetadata selected !! j).
Proof.
  intros H. specialize (H 1%nat ltac:(discriminate)).
  vm_compute in H. discriminate H.
Qed.

(** C2, as amended. In [app.js] every file has its own request: row [k] of
    the table is made of file [k] and of the outcome of upload [k] alone,
    so that a failure of another upload leaves it as it is, and the loop
    goes through all the supported files. In the page the batch has one
    request, and its failure sets every record to [error], with the
    message of the failure and [retryCount] one higher. *)
Theorem upload_failure_scope :
  (forall io files k,
     AppJs.rows (AppJs.click io files) !! k
     = AppJs.rowOf io k <$> List.filter AppJs.supported files !! k)
  /\ (forall io io' files k,
        AppJs.upload io k = AppJs.upload io' k ->
        AppJs.toLocaleString io k = AppJs.toLocaleString io' k ->
        AppJs.userAgent io = AppJs.userAgent io' ->
        AppJs.rows (AppJs.click io files) !! k
        = AppJs.rows (AppJs.click io' files) !! k)
  /\ (forall r io c message,
        filteredFiles r <> [] ->
        failure "Yükleme başarısız: " (result io) = Some message ->
        stateFileMetadata (handleUploadOnly r io c)
        = map (markError message) (fileMetadata r)).
Proof.
  assert (Hrow : forall io files k,
     AppJs.rows (AppJs.click io files) !! k
     = AppJs.rowOf io k <$> List.filter AppJs.supported files !! k).
  { intros io files k. rewrite click_rows, uploadLoop_rows. reflexivity. }
  split; [exact Hrow|]. split.
  - intros io io' files k Hup Htime Hagent. rewrite !Hrow.
    destruct (List.filter AppJs.supported files !! k) as [file|]; [|reflexivity].
    simpl. unfold AppJs.rowOf. rewrite Hup, Htime, Hagent. reflexivity.
  - intros r io c message. apply upload_failure_state.
Qed.

Lemma upload_failure_scope_witness :
  AppJs.rows (AppJs.click (appIo allSucceed) [a_txt; b_pdf; c_exe]) !! 0%nat
  = AppJs.rows (AppJs.click (appIo secondFails) [a_txt; b_pdf; c_exe]) !! 0%nat
  /\ map status (stateFileMetadata failedPage) = [error; error].
Proof.
  split.
  - apply (proj1 (proj2 upload_failure_scope)); reflexivity.
  - unfold failedPage.
    rewrite (proj2 (proj2 upload_failure_scope) (renderOf local selected) http500
               selected "Yükleme başarısız: 500 Internal Server Error").
    + vm_compute. reflexivity.
    + vm_compute. discriminate.
    + vm_compute. reflexivity.
Defined.

(** C3, as stated, fails: after a failed trigger the records that were
    uploaded do not all have the status [uploaded]. *)
Lemma process_failure_leaves_no_uploaded :
  ~ Forall (fun m => status m = uploaded)
      (stateFileMetadata
         (handleProcessOnly (renderOf local uploadedPage) http500 uploadedPage)).
Proof.
  intros H. apply Forall_inv in H. vm_compute in H. discriminate H.
Qed.

(** C3, as amended. When the processing trigger fails, every record that
    was [uploaded] gets the status [error], the message of the failure as
    [errorMessage] and a [retryCount] one higher; its other fields stay. *)
Theorem process_failure_marks_error r io c message i m :
  fileMetadata r !! i = Some m ->
  status m = uploaded ->
  failure "İşleme başarısız: " (result io) = Some message ->
  exists m',
    stateFileMetadata (handleProcessOnly r io c) !! i = Some m'
    /\ m' = markError message m
    /\ status m' = error
    /\ errorMessage m' = Some message
    /\ retryCount m' = Some (retryCountOr0 m + 1).
Proof.
  intros Hi Hs Hfail. exists (markError message m).
  rewrite (process_failure_state r io c message (uploadedOf_member r i m Hi Hs) Hfail).
  rewrite list_lookup_fmap, Hi. repeat split; reflexivity.
Qed.

Lemma process_failure_marks_error_witness :
  exists m',
    stateFileMetadata
      (handleProcessOnly (renderOf local uploadedPage) http500 uploadedPage) !! 1%nat
    = Some m'
    /\ status m' = error /\ retryCount m' = Some 1.
Proof.
  destruct (process_failure_marks_error (renderOf local uploadedPage) http500
              uploadedPage "İşleme başarısız: 500 Internal Server Error" 1%nat
              (markUploaded "2025-08-22T12:09:40.250Z" 250
                 (withId "c1" (metaOf (renderOf local Reach.initial) folderIo 1 b_pdf))))
    as (m' & Hlook & -> & Hstatus & _ & Hretry).
  - vm_compute. reflexivity.
  - reflexivity.
  - vm_compute. reflexivity.
  - exists (markError "İşleme başarısız: 500 Internal Server Error"
              (markUploaded "2025-08-22T12:09:40.250Z" 250
                 (withId "c1" (metaOf (renderOf local Reach.initial) folderIo 1 b_pdf)))).
    split; [exact Hlook|]. split; [exact Hstatus | exact Hretry].
Defined.

(** C4 fails on the code: with the record of [a.txt] uploaded and the
    record of [b.pdf] pending, a successful trigger leaves both records
    [processed], while the handler reports one processed file. *)
Lemma process_success_marks_pending_record :
  map status (stateFileMetadata mixedPage) = [uploaded; pending]
  /\ map status
       (stateFileMetadata (handleProcessOnly (renderOf local mixedPage) http200 mixedPage))
     = [processed; processed]
  /\ In (LogsRoute (ProcessDone 1 250) Level.success None)
       (trace (handleProcessOnly (renderOf local mixedPage) http200 mixedPage)).
Proof.
  split; [vm_compute; reflexivity|]. split; [vm_compute; reflexivity|].
  vm_compute. tauto.
Qed.

End Failures.

(** ** The retry counter *)
Section RetryCount.
Import Web WebRequest Page Sample.

Lemma saveLoop_keeps {B} (f : FileMetadata -> B) io :
  (forall dbId m, f (withId dbId m) = f m) ->
  forall files metas index,
    map f (fst (saveLoop io index files metas)) = map f metas.
Proof.
  intros Hf. induction files as [|file files IH]; intros metas index.
  - destruct metas; reflexivity.
  - destruct metas as [|meta metas]; [reflexivity|]. simpl.
    specialize (IH metas (S index)).
    destruct (saveLoop io (S index) files metas) as [rest events].
    simpl in IH. destruct (save io index); simpl; rewrite ?Hf, IH; reflexivity.
Qed.

Lemma folder_state r io files c :
  stateFileMetadata (handleFolderChange r io (Some files) c)
  = fst (saveLoop io 0 (List.filter isSupportedFile files)
           (imap (metaOf r io) (List.filter isSupportedFile files))).
Proof.
  unfold handleFolderChange.
  destruct (saveLoop io 0 _ _) as [metas events]. reflexivity.
Qed.

Lemma folder_registers r io files c :
  map retryCount (stateFileMetadata (handleFolderChange r io (Some files) c))
  = map (fun _ => Some 0) (List.filter isSupportedFile files)
  /\ map status (stateFileMetadata (handleFolderChange r io (Some files) c))
     = map (fun _ => pending) (List.filter isSupportedFile files)
  /\ map name (stateFileMetadata (handleFolderChange r io (Some files) c))
     = map Web.name (List.filter isSupportedFile files).
Proof.
  rewrite folder_state.
  rewrite !saveLoop_keeps by reflexivity.
  change (@map) with (@fmap list _). rewrite !fmap_imap.
  repeat split; apply imap_const.
Qed.

Lemma folder_retryCount_zero r io files c :
  Forall (fun m => retryCount m = Some 0)
    (stateFileMetadata (handleFolderChange r io (Some files) c)).
Proof.
  pose proof (proj1 (folder_registers r io files c)) as Hretry.
  apply Forall_forall. intros m Hin. apply list_elem_of_In in Hin.
  assert (Hz : In (retryCount m)
                 (map retryCount (stateFileMetadata
                    (handleFolderChange r io (Some files) c))))
    by (apply in_map, Hin).
  rewrite Hretry in Hz. apply in_map_iff in Hz. destruct Hz as (? & Hz & _).
  congruence.
Qed.

Lemma upload_state_cases r io c :
  stateFileMetadata (handleUploadOnly r io c) = stateFileMetadata c
  \/ (exists message,
        stateFileMetadata (handleUploadOnly r io c)
        = map (markError message) (fileMetadata r))
  \/ stateFileMetadata (handleUploadOnly r io c)
     = map (markUploaded (doneAt io) (endTime io - startTime io)) (fileMetadata r).
Proof.
  destruct (filteredFiles r) eqn:Hf.
  - left. apply upload_guard_state, Hf.
  - assert (Hne : filteredFiles r <> []) by (rewrite Hf; discriminate).
    destruct (failure "Yükleme başarısız: " (result io)) as [message|] eqn:Hfail.
    + right; left. exists message. apply upload_failure_state; assumption.
    + right; right. apply upload_success_state; assumption.
Qed.

Lemma process_state_cases r io c :
  stateFileMetadata (handleProcessOnly r io c) = stateFileMetadata c
  \/ (exists message,
        stateFileMetadata (handleProcessOnly r io c)
        = map (markError message) (fileMetadata r))
  \/ stateFileMetadata (handleProcessOnly r io c)
     = map (markProcessed (doneAt io) (endTime io - startTime io)) (fileMetadata r).
Proof.
  destruct (uploadedOf r) eqn:Hf.
  - left. apply process_guard_state, Hf.
  - assert (Hne : uploadedOf r <> []) by (rewrite Hf; discriminate).
    destruct (failure "İşleme başarısız: " (result io)) as [message|] eqn:Hfail.
    + right; left. exists message. apply process_failure_state; assumption.
    + right; right. apply process_success_state; assumption.
Qed.

Lemma markError_valid message m :
  Reach.retryCountValid m -> Reach.retryCountValid (markError message m).
Proof.
  unfold Reach.retryCountValid, retryCountOr0. cbn [retryCount markError].
  unfold retryCountOr0. destruct (retryCount m); simpl; lia.
Qed.

Lemma valid_after_cases (metas state' : list FileMetadata) at_ duration
    (mark : string -> Z -> FileMetadata -> FileMetadata) :
  (forall m, retryCount (mark at_ duration m) = retryCount m) ->
  Forall Reach.retryCountValid metas ->
  (exists message, state' = map (markError message) metas)
  \/ state' = map (mark at_ duration) metas ->
  Forall Reach.retryCountValid state'.
Proof.
  intros Hmark Hvalid [[message ->] | ->]; apply Forall_map;
    (eapply Forall_impl; [exact Hvalid|]); intros m Hm.
  - apply markError_valid, Hm.
  - unfold Reach.retryCountValid, retryCountOr0 in *. rewrite Hmark. exact Hm.
Qed.

Lemma upload_valid r io c :
  Forall Reach.retryCountValid (fileMetadata r) ->
  Forall Reach.retryCountValid (stateFileMetadata c) ->
  Forall Reach.retryCountValid (stateFileMetadata (handleUploadOnly r io c)).
Proof.
  intros Hr Hc. destruct (upload_state_cases r io c) as [-> | Hcases]; [exact Hc|].
  eapply (valid_after_cases _ _ _ _ markUploaded); [reflexivity | exact Hr | exact Hcases].
Qed.

Lemma process_valid r io c :
  Forall Reach.retryCountValid (fileMetadata r) ->
  Forall Reach.retryCountValid (stateFileMetadata c) ->
  Forall Reach.retryCountValid (stateFileMetadata (handleProcessOnly r io c)).
Proof.
  intros Hr Hc. destruct (process_state_cases r io c) as [-> | Hcases]; [exact Hc|].
  eapply (valid_after_cases _ _ _ _ markProcessed); [reflexivity | exact Hr | exact Hcases].
Qed.

Lemma action_valid c c' :
  Reach.action c c' ->
  Forall Reach.retryCountValid (stateFileMetadata c) ->
  Forall Reach.retryCountValid (stateFileMetadata c').
Proof.
  intros Hact Hvalid.
  destruct Hact as [env io fileList c | env io c | env io c | env uio pio c].
  - destruct fileList as [files|]; [|constructor].
    eapply Forall_impl; [apply folder_retryCount_zero|].
    intros m Hm. unfold Reach.retryCountValid, retryCountOr0. rewrite Hm. simpl. lia.
  - apply upload_valid; exact Hvalid.
  - apply process_valid; exact Hvalid.
  - unfold handleUploadAndProcess.
    destruct (existsb _ _); [apply process_valid; [exact Hvalid|]|];
      apply upload_valid; exact Hvalid.
Qed.

Lemma reachable_valid c :
  Reach.reachable c -> Forall Reach.retryCountValid (stateFileMetadata c).
Proof.
  induction 1 as [|c c' _ IH Hact]; [constructor|].
  eapply action_valid; eassumption.
Qed.

Lemma notLowered_refl (metas : list FileMetadata) : Reach.notLowered metas metas.
Proof. induction metas; constructor; [lia | assumption]. Qed.

Lemma notLowered_map (mark : FileMetadata -> FileMetadata) (metas : list FileMetadata) :
  (forall m, retryCountOr0 m <= retryCountOr0 (mark m)) ->
  Reach.notLowered metas (map mark metas).
Proof.
  intros Hmark. induction metas as [|m metas IH]; constructor; [apply Hmark | exact IH].
Qed.

Lemma markError_raises message m :
  retryCountOr0 m <= retryCountOr0 (markError message m).
Proof.
  unfold retryCountOr0 at 2. cbn [retryCount markError default from_option Datatypes.id].
  lia.
Qed.

Lemma notLowered_cases (metas state' : list FileMetadata) at_ duration
    (mark : string -> Z -> FileMetadata -> FileMetadata) :
  (forall m, retryCount (mark at_ duration m) = retryCount m) ->
  state' = metas
  \/ (exists message, state' = map (markError message) metas)
  \/ state' = map (mark at_ duration) metas ->
  Reach.notLowered metas state'.
Proof.
  intros Hmark [-> | [[message ->] | ->]].
  - apply notLowered_refl.
  - apply notLowered_map. intros m. apply markError_raises.
  - apply notLowered_map. intros m. unfold retryCountOr0. rewrite Hmark. lia.
Qed.

Lemma upload_notLowered env io c :
  Reach.notLowered (stateFileMetadata c)
    (stateFileMetadata (handleUploadOnly (renderOf env c) io c)).
Proof.
  apply (notLowered_cases _ _ (doneAt io) (endTime io - startTime io) markUploaded);
    [reflexivity|].
  exact (upload_state_cases (renderOf env c) io c).
Qed.

Lemma process_notLowered env io c :
  Reach.notLowered (stateFileMetadata c)
    (stateFileMetadata (handleProcessOnly (renderOf env c) io c)).
Proof.
  apply (notLowered_cases _ _ (doneAt io) (endTime io - startTime io) markProcessed);
    [reflexivity|].
  exact (process_state_cases (renderOf env c) io c).
Qed.

Lemma run_notLowered env uploadIo processIo c :
  Reach.notLowered (stateFileMetadata c)
    (stateFileMetadata (handleUploadAndProcess (renderOf env c) uploadIo processIo c)).
Proof.
  unfold handleUploadAndProcess.
  destruct (existsb _ _); [|apply upload_notLowered].
  destruct (process_state_cases (renderOf env c) processIo
              (handleUploadOnly (renderOf env c) uploadIo c)) as [-> | Hcases].
  - apply upload_notLowered.
  - apply (notLowered_cases _ _ (doneAt processIo)
             (endTime processIo - startTime processIo) markProcessed);
      [reflexivity | right; exact Hcases].
Qed.

(** C5, as stated, fails: a successful upload after a failed one leaves
    [retryCount] at 1 in every record, it does not set it back to 0. *)
Lemma upload_success_keeps_retryCount :
  map retryCount (stateFileMetadata failedPage) = [Some 1; Some 1]
  /\ map (fun m => (status m, retryCount m))
       (stateFileMetadata (handleUploadOnly (renderOf local failedPage) http200 failedPage))
     = [(uploaded, Some 1); (uploaded, Some 1)].
Proof. split; vm_compute; reflexivity. Qed.

(** C5, as amended. The [retryCount] of every record is 0 at registration
    and at least 0 in every state the handlers reach from the empty page;
    every handler keeps it at least 0 from any state in which it is. When
    [handleUploadOnly] or [handleProcessOnly] is run by its own button, in
    the render of the current state, a failed call raises the counter of
    every record by exactly 1; a successful call, and a run that returns
    at its guard, leaves every counter as it is: a success does not set it
    back to 0. No run of [handleUploadOnly], [handleProcessOnly] or
    [handleUploadAndProcess] ends with a counter lower than it was when
    the run started. *)
Theorem retryCount_tracking (env : Environment) (c : Client) :
  let r := renderOf env c in
  (Reach.reachable c -> Forall Reach.retryCountValid (stateFileMetadata c))
  /\ (forall c',
        Reach.action c c' ->
        Forall Reach.retryCountValid (stateFileMetadata c) ->
        Forall Reach.retryCountValid (stateFileMetadata c'))
  /\ (forall io files,
        Forall (fun m => retryCount m = Some 0)
          (stateFileMetadata (handleFolderChange r io (Some files) c)))
  /\ (forall io message,
        filteredFiles r <> [] ->
        failure "Yükleme başarısız: " (result io) = Some message ->
        map retryCount (stateFileMetadata (handleUploadOnly r io c))
        = map (fun m => Some (retryCountOr0 m + 1)) (stateFileMetadata c))
  /\ (forall io message,
        uploadedOf r <> [] ->
        failure "İşleme başarısız: " (result io) = Some message ->
        map retryCount (stateFileMetadata (handleProcessOnly r io c))
        = map (fun m => Some (retryCountOr0 m + 1)) (stateFileMetadata c))
  /\ (forall io,
        filteredFiles r = [] \/ failure "Yükleme başarısız: " (result io) = None ->
        map retryCount (stateFileMetadata (handleUploadOnly r io c))
        = map retryCount (stateFileMetadata c))
  /\ (forall io,
        uploadedOf r = [] \/ failure "İşleme başarısız: " (result io) = None ->
        map retryCount (stateFileMetadata (handleProcessOnly r io c))
        = map retryCount (stateFileMetadata c))
  /\ (forall uploadIo processIo,
        Reach.notLowered (stateFileMetadata c)
          (stateFileMetadata (handleUploadOnly r uploadIo c))
        /\ Reach.notLowered (stateFileMetadata c)
             (stateFileMetadata (handleProcessOnly r processIo c))
        /\ Reach.notLowered (stateFileMetadata c)
             (stateFileMetadata (handleUploadAndProcess r uploadIo processIo c))).
Proof.
  intros r. split; [apply reachable_valid|]. split; [apply action_valid|].
  split; [|split; [|split; [|split; [|split]]]].
  - intros io files. apply folder_retryCount_zero.
  - intros io message Hne Hfail.
    rewrite (upload_failure_state r io c message Hne Hfail), map_map. reflexivity.
  - intros io message Hne Hfail.
    rewrite (process_failure_state r io c message Hne Hfail), map_map. reflexivity.
  - intros io Hok. destruct (filteredFiles r) eqn:Hf.
    + rewrite (upload_guard_state r io c Hf). reflexivity.
    + destruct Hok as [Hnil | Hok]; [discriminate Hnil|].
      rewrite upload_success_state, map_map; [reflexivity| |exact Hok].
      rewrite Hf; discriminate.
  - intros io Hok. destruct (uploadedOf r) eqn:Hf.
    + rewrite (process_guard_state r io c Hf). reflexivity.
    + destruct Hok as [Hnil | Hok]; [discriminate Hnil|].
      rewrite process_success_state, map_map; [reflexivity| |exact Hok].
      rewrite Hf; discriminate.
  - intros uploadIo processIo. split; [|split].
    + apply upload_notLowered.
    + apply process_notLowered.
    + apply run_notLowered.
Qed.

Lemma selected_reachable : Reach.reachable selected.
Proof.
  eapply Reach.reach_action; [apply Reach.reach_initial|].
  apply (Reach.folderChange local folderIo (Some [a_txt; b_pdf; c_exe])).
Defined.

Lemma retryCount_tracking_witness :
  Forall Reach.retryCountValid (stateFileMetadata selected)
  /\ map retryCount (stateFileMetadata failedPage) = [Some 1; Some 1]
  /\ Reach.notLowered (stateFileMetadata uploadedPage)
       (stateFileMetadata
          (handleUploadAndProcess (renderOf local uploadedPage) http500 http200
             uploadedPage)).
Proof.
  split; [|split].
  - exact (proj1 (retryCount_tracking local selected) selected_reachable).
  - unfold failedPage.
    rewrite (proj1 (proj2 (proj2 (proj2 (retryCount_tracking local selected))))
               http500 "Yükleme başarısız: 500 Internal Server Error").
    + vm_compute. reflexivity.
    + vm_compute. discriminate.
    + vm_compute. reflexivity.
  - exact (proj2 (proj2
             (proj2 (proj2 (proj2 (proj2 (proj2 (proj2 (proj2
                (retryCount_tracking local uploadedPage))))))) http500 http200))).
Defined.

End RetryCount.

(** ** The requests sent to the ingestion service *)
Section Requests.
Import Web WebRequest Page Sample.

Lemma append_fold {A} (g : A -> string * FormValue) (l : list A) : forall acc,
  fold_left (fun fd x => append (fst (g x)) (snd (g x)) fd) l acc
  = (acc ++ map g l)%list.
Proof.
  induction l as [|x l IH]; intros acc; simpl.
  - rewrite app_nil_r. reflexivity.
  - rewrite IH. unfold append. rewrite <- app_assoc. simpl.
    destruct (g x). reflexivity.
Qed.

Lemma uploadFormData_parts r :
  uploadFormData r
  = map (fun file => ("files", FormFile file (Web.name file))) (filteredFiles r).
Proof.
  unfold uploadFormData.
  exact (append_fold (fun file => ("files", FormFile file (Web.name file)))
           (filteredFiles r) []).
Qed.

Lemma has_parts key (l : list File) :
  key <> "files" ->
  has key (map (fun file => ("files", FormFile file (Web.name file))) l) = false.
Proof.
  intros Hkey. unfold has. induction l as [|file l IH]; [reflexivity|].
  cbn [map existsb fst]. rewrite IH, orb_false_r.
  apply String.eqb_neq. congruence.
Qed.

(** C6, as stated, fails on the page: the one upload request issued for the
    selection [{a.txt, b.pdf}] carries none of the three metadata fields. *)
Lemma page_upload_request_lacks_metadata :
  map (fun req => (has "uploaded_at" (formOf req),
                   has "uploaded_by" (formOf req),
                   has "original_path" (formOf req)))
    (backendRequests
       (trace (handleUploadOnly (renderOf local selected) http200 (quiet selected))))
  = [(false, false, false)].
Proof. vm_compute. reflexivity. Qed.

(** C6, as amended. Every upload request of [app.js] is a form of one
    file part and the three fields [uploaded_at] (the clock's ISO string),
    [uploaded_by] and [original_path]; the upload request of the page is a
    form of file parts only, one [files] part for each supported file, and
    has no other field. *)
Theorem upload_request_fields :
  (forall io files req,
     In req (AppJs.requests (AppJs.click io files)) ->
     AppJs.isUpload req = true ->
     exists i file,
       formOf req
       = [("file", FormFile file (Web.name file));
          ("uploaded_at", FormText (AppJs.toISOString io i));
          ("uploaded_by", FormText (AppJs.userAgent io));
          ("original_path", FormText (webkitRelativePath file))])
  /\ (forall r,
        formOf (uploadRequest r)
        = map (fun file => ("files", FormFile file (Web.name file))) (filteredFiles r))
  /\ (forall r key, key <> "files" -> has key (formOf (uploadRequest r)) = false).
Proof.
  split; [|split].
  - intros io files req Hin Hup.
    destruct files as [|f files]; [destruct Hin|].
    rewrite click_requests in Hin by discriminate.
    apply in_app_or in Hin. destruct Hin as [Hin | [<- | []]]; [|discriminate Hup].
    apply list_elem_of_In, list_elem_of_lookup in Hin. destruct Hin as [k Hk].
    rewrite uploadLoop_requests in Hk.
    destruct (List.filter AppJs.supported (f :: files) !! k) as [file|]; [|discriminate Hk].
    injection Hk as <-. exists k, file. reflexivity.
  - intros r. apply uploadFormData_parts.
  - intros r key Hkey. cbn [formOf uploadRequest body].
    rewrite uploadFormData_parts. apply has_parts, Hkey.
Qed.

Lemma upload_request_fields_witness :
  has "uploaded_at" (formOf (uploadRequest (renderOf local selected))) = false
  /\ exists i file,
       formOf (AppJs.uploadRequest (appIo allSucceed) 1 b_pdf)
       = [("file", FormFile file (Web.name file));
          ("uploaded_at", FormText (AppJs.toISOString (appIo allSucceed) i));
          ("uploaded_by", FormText (AppJs.userAgent (appIo allSucceed)));
          ("original_path", FormText (webkitRelativePath file))].
Proof.
  split.
  - apply (proj2 (proj2 upload_request_fields)). discriminate.
  - apply (proj1 upload_request_fields (appIo allSucceed) [a_txt; b_pdf; c_exe]).
    + vm_compute. tauto.
    + reflexivity.
Defined.

End Requests.

(** ** The order of the requests of a run *)
Section Runs.
Import Web WebRequest Page Sample.

Lemma backend_app (a b : list Event) :
  backendRequests (a ++ b) = (backendRequests a ++ backendRequests b)%list.
Proof. apply omap_app. Qed.

Lemma backend_route {A} (g : A -> Event) (l : list A) :
  (forall x, match g x with Backend _ => False | _ => True end) ->
  backendRequests (map g l) = [].
Proof.
  intros Hg. induction l as [|x l IH]; [reflexivity|].
  cbn [map]. change (g x :: map g l) with ([g x] ++ map g l)%list.
  rewrite backend_app, IH. specialize (Hg x).
  destruct (g x); [destruct Hg | reflexivity | reflexivity].
Qed.

Ltac own_events :=
  cbn [trace emitAll emit addLog uploadFiles processUploaded setFileMetadata failed];
  rewrite <- ?app_assoc; reflexivity.

Lemma backend_cons (e : Event) (l : list Event) :
  backendRequests (e :: l)
  = match e with
    | Backend r => r :: backendRequests l
    | _ => backendRequests l
    end.
Proof. destruct e; reflexivity. Qed.

Ltac backend_only :=
  unfold put;
  repeat first [ rewrite backend_cons; cbn beta iota
               | rewrite backend_app
               | rewrite backend_route by (intros ?; exact I) ];
  reflexivity.

Lemma upload_trace r io c :
  exists own,
    trace (handleUploadOnly r io c) = (trace c ++ own)%list
    /\ backendRequests own
       = if (length (filteredFiles r) =? 0)%nat then [] else [uploadRequest r].
Proof.
  unfold handleUploadOnly.
  destruct (length (filteredFiles r) =? 0)%nat.
  - eexists. split; [own_events | reflexivity].
  - destruct (failure "Yükleme başarısız: " (result io)) as [message|].
    + eexists. split; [own_events | backend_only].
    + eexists. split; [own_events | backend_only].
Qed.

Lemma process_trace r io c :
  exists own,
    trace (handleProcessOnly r io c) = (trace c ++ own)%list
    /\ backendRequests own
       = if (length (uploadedOf r) =? 0)%nat then [] else [processRequest r].
Proof.
  unfold handleProcessOnly.
  destruct (length (uploadedOf r) =? 0)%nat.
  - eexists. split; [own_events | reflexivity].
  - destruct (failure "İşleme başarısız: " (result io)) as [message|].
    + eexists. split; [own_events | backend_only].
    + eexists. split; [own_events | backend_only].
Qed.

Lemma existsb_uploadedOf r :
  existsb (fun f => FileStatus_eqb (status f) uploaded) (fileMetadata r)
  = negb (length (uploadedOf r) =? 0)%nat.
Proof.
  unfold uploadedOf. induction (fileMetadata r) as [|m l IH]; [reflexivity|].
  simpl. destruct (FileStatus_eqb (status m) uploaded); [reflexivity | exact IH].
Qed.

(** The requests a run of [handleUploadAndProcess] sends to the service. *)
Lemma run_trace r uploadIo processIo c :
  exists own,
    trace (handleUploadAndProcess r uploadIo processIo c) = (trace c ++ own)%list
    /\ backendRequests own
       = ((if (length (filteredFiles r) =? 0)%nat then [] else [uploadRequest r])
          ++ (if (length (uploadedOf r) =? 0)%nat then [] else [processRequest r]))%list.
Proof.
  unfold handleUploadAndProcess. rewrite existsb_uploadedOf.
  destruct (upload_trace r uploadIo c) as (own1 & Ht1 & Hb1).
  destruct (length (uploadedOf r) =? 0)%nat eqn:Hguard; cbn [negb].
  - exists own1. split; [exact Ht1|]. rewrite Hb1, app_nil_r. reflexivity.
  - destruct (process_trace r processIo (handleUploadOnly r uploadIo c))
      as (own2 & Ht2 & Hb2).
    exists (own1 ++ own2)%list. split.
    + rewrite Ht2, Ht1, app_assoc. reflexivity.
    + rewrite backend_app, Hb1, Hb2, Hguard. reflexivity.
Qed.

End Runs.

Section Trigger.
Import Web WebRequest Page Sample.

(** C7, as stated, fails on the page: a run on the fresh selection whose
    upload is answered with status 500 issues the upload request and no
    processing request at all. *)
Lemma failed_run_issues_no_trigger :
  backendRequests
    (trace (handleUploadAndProcess (renderOf local selected) http500 http200
              (quiet selected)))
  = [uploadRequest (renderOf local selected)]
  /\ length
       (List.filter isProcess
          (backendRequests
             (trace (handleUploadAndProcess (renderOf local selected) http500 http200
                       (quiet selected)))))
     = 0%nat.
Proof. split; vm_compute; reflexivity. Qed.

(** C7, as amended. A run issues at most one processing request, never one
    per file, and only after its upload requests, which are awaited one by
    one. [app.js] issues exactly one, as its last request, whenever a file
    was picked. The page issues its single upload request first and the
    processing request behind its gate on [uploaded] records: none when no
    record is [uploaded] and the upload fails, one when a record is
    [uploaded] and the upload succeeds. *)
Theorem processing_trigger_order :
  (forall io files,
     files <> [] ->
     exists uploads,
       AppJs.requests (AppJs.click io files) = (uploads ++ [AppJs.processRequest])%list
       /\ length uploads = length (List.filter AppJs.supported files)
       /\ Forall (fun req => AppJs.isUpload req = true /\ AppJs.isProcess req = false)
            uploads
       /\ AppJs.isProcess AppJs.processRequest = true)
  /\ (forall r uploadIo processIo c,
        exists own,
          trace (handleUploadAndProcess r uploadIo processIo c) = (trace c ++ own)%list
          /\ (backendRequests own = []
              \/ backendRequests own = [uploadRequest r]
              \/ backendRequests own = [processRequest r]
              \/ backendRequests own = [uploadRequest r; processRequest r]))
  /\ (forall r, isUpload (uploadRequest r) = true
                /\ isProcess (uploadRequest r) = false
                /\ isProcess (processRequest r) = true)
  /\ (forall r uploadIo processIo c message,
        uploadedOf r = [] ->
        failure "Yükleme başarısız: " (result uploadIo) = Some message ->
        exists own,
          trace (handleUploadAndProcess r uploadIo processIo c) = (trace c ++ own)%list
          /\ List.filter isProcess (backendRequests own) = [])
  /\ (forall r uploadIo processIo c,
        filteredFiles r <> [] ->
        uploadedOf r <> [] ->
        failure "Yükleme başarısız: " (result uploadIo) = None ->
        exists own,
          trace (handleUploadAndProcess r uploadIo processIo c) = (trace c ++ own)%list
          /\ backendRequests own = [uploadRequest r; processRequest r]).
Proof.
  split; [|split; [|split; [|split]]].
  - intros io files Hne.
    exists (snd (AppJs.uploadLoop io 0 (List.filter AppJs.supported files))).
    split; [apply click_requests, Hne|]. split; [apply uploadLoop_lengths|].
    split; [apply uploadLoop_all_uploads | reflexivity].
  - intros r uio pio c. destruct (run_trace r uio pio c) as (own & Ht & Hb).
    exists own. split; [exact Ht|]. rewrite Hb.
    destruct (length (filteredFiles r) =? 0)%nat, (length (uploadedOf r) =? 0)%nat;
      cbn [app]; tauto.
  - intros r. unfold isUpload, isProcess, uploadRequest, processRequest.
    cbn [url]. destruct (environment r); repeat split; reflexivity.
  - intros r uio pio c message Hnil _.
    destruct (run_trace r uio pio c) as (own & Ht & Hb).
    exists own. split; [exact Ht|]. rewrite Hb, Hnil. cbn [length Nat.eqb].
    destruct (length (filteredFiles r) =? 0)%nat; [reflexivity|].
    unfold isProcess, uploadRequest. cbn [app List.filter url].
    destruct (environment r); reflexivity.
  - intros r uio pio c Hfiles Hup _.
    destruct (run_trace r uio pio c) as (own & Ht & Hb).
    exists own. split; [exact Ht|].
    rewrite Hb, (guard_nonempty _ Hfiles), (guard_nonempty _ Hup). reflexivity.
Qed.

Lemma processing_trigger_order_witness :
  (exists uploads,
     AppJs.requests (AppJs.click (appIo secondFails) [a_txt; b_pdf; c_exe])
     = (uploads ++ [AppJs.processRequest])%list
     /\ length uploads = 2%nat)
  /\ exists own,
       trace (handleUploadAndProcess (renderOf local uploadedPage) http200 http200
                uploadedPage)
       = (trace uploadedPage ++ own)%list
       /\ backendRequests own
          = [uploadRequest (renderOf local uploadedPage);
             processRequest (renderOf local uploadedPage)].
Proof.
  split.
  - destruct (proj1 processing_trigger_order (appIo secondFails) [a_txt; b_pdf; c_exe])
      as (uploads & Hreq & Hlen & _); [discriminate|].
    exists uploads. split; [exact Hreq | exact Hlen].
  - apply (proj2 (proj2 (proj2 (proj2 processing_trigger_order)))).
    + vm_compute. discriminate.
    + vm_compute. discriminate.
    + vm_compute. reflexivity.
Defined.

End Trigger.

(** ** The selection of a folder *)
Section Folder.
Import Web WebRequest Page Sample.

Lemma filesRequests_cons (e : Event) (l : list Event) :
  filesRequests (e :: l)
  = match e with
    | FilesRoute method body => (method, body) :: filesRequests l
    | _ => filesRequests l
    end.
Proof. destruct e; reflexivity. Qed.

Lemma logEntries_cons (e : Event) (l : list Event) :
  logEntries (e :: l)
  = match e with
    | LogsRoute message level fileId => (message, level, fileId) :: logEntries l
    | _ => logEntries l
    end.
Proof. destruct e; reflexivity. Qed.

Lemma saveLoop_posts io : forall files metas index,
  length metas = length files ->
  filesRequests (snd (saveLoop io index files metas))
  = map (fun meta => ("POST", toJSON meta)) metas.
Proof.
  induction files as [|file files IH]; intros metas index Hlen.
  - destruct metas; [reflexivity | discriminate Hlen].
  - destruct metas as [|meta metas]; [discriminate Hlen|]. cbn [saveLoop].
    specialize (IH metas (S index) ltac:(simpl in Hlen; lia)).
    destruct (saveLoop io (S index) files metas) as [rest events].
    cbn [snd] in IH.
    destruct (save io index); cbn [snd map];
      rewrite ?filesRequests_cons; cbn beta iota; rewrite IH; reflexivity.
Qed.

Lemma listedEntry_mono file files e :
  listedEntry files e -> listedEntry (file :: files) e.
Proof.
  intros [Hl (f & Hin & Hm)]. split; [exact Hl|].
  exists f. split; [right|]; assumption.
Qed.

Lemma saveLoop_logs io : forall files metas index,
  Forall (listedEntry files) (logEntries (snd (saveLoop io index files metas))).
Proof.
  induction files as [|file files IH]; intros metas index.
  - destruct metas; constructor.
  - destruct metas as [|meta metas]; [constructor|]. cbn [saveLoop].
    specialize (IH metas (S index)).
    destruct (saveLoop io (S index) files metas) as [rest events].
    cbn [snd] in IH.
    assert (Hrest : Forall (listedEntry (file :: files)) (logEntries events)).
    { eapply Forall_impl; [exact IH|]. intros e. apply listedEntry_mono. }
    assert (Hhere : forall fileId,
              listedEntry (file :: files) (fileListed file, Level.info, fileId)).
    { intros fileId. split; [reflexivity|]. exists file. split; [left|]; reflexivity. }
    destruct (save io index); cbn [snd];
      rewrite ?logEntries_cons; cbn beta iota; try constructor; auto.
Qed.

Lemma folder_trace r io files c :
  trace (handleFolderChange r io (Some files) c)
  = (trace c
     ++ LogsRoute (FolderSelected (length (List.filter isSupportedFile files))
                     (length files)) Level.info None
     :: snd (saveLoop io 0 (List.filter isSupportedFile files)
               (imap (metaOf r io) (List.filter isSupportedFile files))))%list.
Proof.
  unfold handleFolderChange.
  destruct (saveLoop io 0 _ _) as [metas events].
  cbn [trace emitAll emit addLog setFileMetadata setSelectedFiles snd].
  rewrite <- app_assoc. reflexivity.
Qed.

Lemma isSupportedFile_name f g :
  Web.name f = Web.name g -> isSupportedFile f = isSupportedFile g.
Proof. unfold isSupportedFile. intros ->. reflexivity. Qed.

End Folder.

Section FolderSelection.
Import Web WebRequest Page Sample.

Lemma logLevels_entries (t : list Event) :
  logLevels t = map (fun e => snd (fst e)) (logEntries t).
Proof.
  induction t as [|e t IH]; [reflexivity|].
  rewrite logEntries_cons. destruct e; cbn [map fst snd]; rewrite <- IH; reflexivity.
Qed.

Lemma listed_not_warning files entries :
  Forall (listedEntry files) entries ->
  List.filter isWarning (map (fun e => snd (fst e)) entries) = [].
Proof.
  induction 1 as [|e entries [Hl _] _ IH]; [reflexivity|].
  cbn [map List.filter]. rewrite Hl, IH. reflexivity.
Qed.

(** C8, as stated, fails: picking [{a.txt, b.pdf, c.exe}] registers two
    records and asks for three log entries, all of level [info]; there is
    no [warning] entry for [c.exe]. *)
Lemma unsupported_file_logs_no_warning :
  map name (stateFileMetadata selected) = ["a.txt"; "b.pdf"]
  /\ logLevels (trace selected) = [Level.info; Level.info; Level.info]
  /\ length (List.filter isWarning (logLevels (trace selected))) = 0%nat.
Proof. repeat split; vm_compute; reflexivity. Qed.

(** C8, as amended. When a folder is picked, the records are those of the
    supported files, in order and all [pending]; a file with an unsupported
    extension gets no record, no request to the files route and no log
    entry of its own: besides the one [info] entry that counts the
    supported and all the files, every entry is the [info] entry listing a
    supported file, and no entry has the level [warning]. *)
Theorem folder_selection_registers r io files c :
  let supported := List.filter isSupportedFile files in
  let c' := handleFolderChange r io (Some files) c in
  map name (stateFileMetadata c') = map Web.name supported
  /\ Forall (fun m => status m = pending) (stateFileMetadata c')
  /\ (forall file, In file files -> isSupportedFile file = false ->
        ~ In (Web.name file) (map name (stateFileMetadata c')))
  /\ exists own listed,
       trace c' = (trace c ++ own)%list
       /\ filesRequests own
          = map (fun meta => ("POST", toJSON meta)) (imap (metaOf r io) supported)
       /\ logEntries own
          = (FolderSelected (length supported) (length files), Level.info, None) :: listed
       /\ Forall (listedEntry supported) listed
       /\ List.filter isWarning (logLevels own) = [].
Proof.
  intros supported c'.
  destruct (folder_registers r io files c) as (_ & Hstatus & Hname).
  fold supported in Hstatus, Hname. fold c' in Hstatus, Hname.
  split; [exact Hname|]. split; [|split].
  - apply Forall_forall. intros m Hin. apply list_elem_of_In in Hin.
    assert (Hz : In (status m) (map status (stateFileMetadata c')))
      by (apply in_map, Hin).
    rewrite Hstatus in Hz. apply in_map_iff in Hz. destruct Hz as (? & Hz & _).
    congruence.
  - intros file Hin Hunsupported Hrec. rewrite Hname in Hrec.
    apply in_map_iff in Hrec. destruct Hrec as (g & Hg & Hgin).
    apply filter_In in Hgin. destruct Hgin as [_ Hsup].
    rewrite (isSupportedFile_name g file Hg) in Hsup. congruence.
  - eexists. exists (logEntries (snd (saveLoop io 0 supported (imap (metaOf r io) supported)))).
    split; [apply folder_trace|]. split; [|split; [|split]].
    + rewrite filesRequests_cons. cbn beta iota.
      apply saveLoop_posts, length_imap.
    + rewrite logEntries_cons. reflexivity.
    + apply saveLoop_logs.
    + rewrite logLevels_entries, logEntries_cons. cbn [map List.filter fst snd isWarning].
      eapply listed_not_warning, saveLoop_logs.
Qed.

Lemma folder_selection_registers_witness :
  ~ In "c.exe" (map name (stateFileMetadata selected)).
Proof.
  apply (proj1 (proj2 (proj2 (folder_selection_registers
           (renderOf local Reach.initial) folderIo [a_txt; b_pdf; c_exe]
           Reach.initial))) c_exe).
  - vm_compute. tauto.
  - vm_compute. reflexivity.
Defined.

End FolderSelection.

(** ** The store *)
Section Store.
Import Web Page Sample.

Lemma onDeleteSetNull_hit (gone : string -> bool) (l : Db.Log) (f : string) :
  Db.fileId l = Some f -> gone f = true ->
  Db.onDeleteSetNull gone l
  = {| Db.message := Db.message l; Db.level := Db.level l;
       Db.timestamp := Db.timestamp l; Db.fileId := None |}.
Proof. intros Hf Hgone. unfold Db.onDeleteSetNull. rewrite Hf, Hgone. reflexivity. Qed.

Lemma onDeleteSetNull_miss (gone : string -> bool) (l : Db.Log) :
  (forall f, Db.fileId l = Some f -> gone f = false) ->
  Db.onDeleteSetNull gone l = l.
Proof.
  intros Hmiss. unfold Db.onDeleteSetNull.
  destruct (Db.fileId l) as [f|] eqn:Hf; [|reflexivity].
  rewrite (Hmiss f eq_refl). reflexivity.
Qed.

(** C9. A log entry that references a file row survives the deletion of
    that row, by its id or by the [DELETE] of the files route: the entry
    is still stored under its own id, with its message, level and
    timestamp, and its [fileId] is null; no log entry is removed, and an
    entry that references another row is not touched by the deletion of
    this one. *)
Theorem log_survives_file_deletion (db : Db.t) (k f : string) (l : Db.Log)
    (row : gmap string JValue) :
  Db.Logs db !! k = Some l ->
  Db.fileId l = Some f ->
  Db.FileMetadata db !! f = Some row ->
  let survivor := {| Db.message := Db.message l; Db.level := Db.level l;
                     Db.timestamp := Db.timestamp l; Db.fileId := None |} in
  Db.FileMetadata (Db.deleteFile f db) !! f = None
  /\ Db.Logs (Db.deleteFile f db) !! k = Some survivor
  /\ dom (Db.Logs (Db.deleteFile f db)) = dom (Db.Logs db)
  /\ (forall k' l', Db.Logs db !! k' = Some l' -> Db.fileId l' <> Some f ->
        Db.Logs (Db.deleteFile f db) !! k' = Some l')
  /\ Db.FileMetadata (FilesApi.DELETE db) !! f = None
  /\ Db.Logs (FilesApi.DELETE db) !! k = Some survivor
  /\ dom (Db.Logs (FilesApi.DELETE db)) = dom (Db.Logs db).
Proof.
  intros Hl Hf Hrow survivor. unfold FilesApi.DELETE, Db.deleteManyFiles, Db.deleteFile.
  rewrite Hrow. cbn [Db.FileMetadata Db.Logs].
  split; [apply lookup_delete_eq|]. split; [|split; [|split; [|split; [|split]]]].
  - rewrite lookup_fmap, Hl. cbn. f_equal.
    apply (onDeleteSetNull_hit _ l f Hf), String.eqb_refl.
  - apply dom_fmap_L.
  - intros k' l' Hl' Hother. rewrite lookup_fmap, Hl'. cbn. f_equal.
    apply onDeleteSetNull_miss. intros g Hg. apply String.eqb_neq. congruence.
  - apply lookup_empty.
  - rewrite lookup_fmap, Hl. cbn. f_equal.
    apply (onDeleteSetNull_hit _ l f Hf), bool_decide_eq_true. rewrite Hrow. eauto.
  - apply dom_fmap_L.
Qed.

Lemma log_survives_file_deletion_witness :
  Db.Logs (FilesApi.DELETE store) !! "c1"
  = Some {| Db.message := FileListed "a.txt" 12 "text/plain";
            Db.level := Level.info;
            Db.timestamp := "2025-08-22T12:09:36.000Z";
            Db.fileId := None |}.
Proof.
  assert (Hsome : is_Some (Db.FileMetadata store !! "c0"))
    by (apply (bool_decide_unpack _); vm_compute; exact I).
  destruct Hsome as [row Hrow].
  refine (proj1 (proj2 (proj2 (proj2 (proj2 (proj2
            (log_survives_file_deletion store "c1" "c0"
               {| Db.message := FileListed "a.txt" 12 "text/plain";
                  Db.level := Level.info;
                  Db.timestamp := "2025-08-22T12:09:36.000Z";
                  Db.fileId := Some "c0" |}
               row _ _ Hrow))))))).
  - vm_compute. reflexivity.
  - reflexivity.
Defined.

Lemma putData_uploadedAt eng (body : gmap string JValue) :
  FilesApi.putData eng body !! "uploadedAt"
  = Some (FilesApi.dateOrNull eng (body !! "uploadedAt")).
Proof.
  unfold FilesApi.putData, FilesApi.updateData.
  rewrite lookup_insert_ne by discriminate.
  rewrite lookup_insert_eq, lookup_delete_ne by discriminate. reflexivity.
Qed.

Lemma putData_processedAt eng (body : gmap string JValue) :
  FilesApi.putData eng body !! "processedAt"
  = Some (FilesApi.dateOrNull eng (body !! "processedAt")).
Proof.
  unfold FilesApi.putData, FilesApi.updateData.
  rewrite lookup_insert_eq, lookup_delete_ne by discriminate. reflexivity.
Qed.

Lemma putData_raw eng (body : gmap string JValue) (col : string) :
  col <> "uploadedAt" -> col <> "processedAt" -> col <> "id" ->
  FilesApi.putData eng body !! col = Db.Raw <$> (body !! col).
Proof.
  intros Hu Hp Hid. unfold FilesApi.putData, FilesApi.updateData.
  rewrite !lookup_insert_ne by congruence.
  rewrite lookup_fmap, lookup_delete_ne by congruence. reflexivity.
Qed.

Lemma putData_id eng (body : gmap string JValue) :
  FilesApi.putData eng body !! "id" = None.
Proof.
  unfold FilesApi.putData, FilesApi.updateData.
  rewrite !lookup_insert_ne by discriminate.
  rewrite lookup_fmap, lookup_delete_eq. reflexivity.
Qed.

Lemma putData_other eng (body : gmap string JValue) (col : string) :
  col <> "uploadedAt" -> col <> "processedAt" ->
  body !! col = None -> FilesApi.putData eng body !! col = None.
Proof.
  intros Hu Hp Hcol. destruct (decide (col = "id")) as [->|Hid].
  - apply putData_id.
  - rewrite putData_raw by assumption. rewrite Hcol. reflexivity.
Qed.

Lemma valid_lookup eng (data : gmap string Db.Datum) (col : string) (d : Db.Datum) :
  Db.valid eng data = true -> data !! col = Some d -> Db.accepted eng col d = true.
Proof.
  unfold Db.valid. intros Hvalid. apply bool_decide_eq_true in Hvalid.
  exact (Hvalid col d).
Qed.

Lemma invalid_lookup eng (data : gmap string Db.Datum) (col : string) (d : Db.Datum) :
  data !! col = Some d -> Db.accepted eng col d = false -> Db.valid eng data = false.
Proof.
  intros Hcol Hd. destruct (Db.valid eng data) eqn:Hvalid; [|reflexivity].
  rewrite (valid_lookup eng data col d Hvalid Hcol) in Hd. discriminate Hd.
Qed.

Lemma accepted_instant eng (col : string) (instant : option JValue) :
  Db.accepted eng col (Db.DateObject instant) = true -> is_Some instant.
Proof.
  unfold Db.accepted. destruct (Db.columnOf col) as [[ty nullable]|]; [|discriminate].
  destruct instant; [eauto | discriminate].
Qed.

Lemma columns_schema : Db.columns = map fst Db.schema.
Proof. reflexivity. Qed.

Lemma accepted_column eng (col : string) (d : Db.Datum) :
  Db.accepted eng col d = true -> In col Db.columns.
Proof.
  unfold Db.accepted, Db.columnOf.
  destruct (List.find _ Db.schema) as [c|] eqn:Hfind; [|discriminate].
  intros _. apply find_some in Hfind. destruct Hfind as [Hin Heq].
  apply String.eqb_eq in Heq. subst col. rewrite columns_schema.
  apply in_map, Hin.
Qed.

Lemma required_not_null (col : string) :
  In col Db.required -> exists ty, Db.columnOf col = Some (ty, false).
Proof.
  intros Hin. cbn in Hin.
  destruct Hin as [<-|[<-|[<-|[<-|[<-|[<-|[]]]]]]]; eexists; reflexivity.
Qed.

(** The two outcomes of a [PUT]. *)
Lemma put_cases eng now (body : gmap string JValue) (db : Db.t) :
  (exists key row,
     body !! "id" = Some (JStr key)
     /\ Db.FileMetadata db !! key = Some row
     /\ Db.valid eng (FilesApi.putData eng body) = true
     /\ FilesApi.PUT eng now body db
        = (FilesApi.Done key,
           {| Db.FileMetadata :=
                <[key := (Db.stored <$> FilesApi.putData eng body)
                         ∪ <["updatedAt" := JStr now]> row]> (Db.FileMetadata db);
              Db.Logs := Db.Logs db;
              Db.generated := Db.generated db |}))
  \/ (FilesApi.PUT eng now body db = (FilesApi.Failed500, db)
      /\ ~ exists key row,
             body !! "id" = Some (JStr key)
             /\ Db.FileMetadata db !! key = Some row
             /\ Db.valid eng (FilesApi.putData eng body) = true).
Proof.
  unfold FilesApi.PUT, Db.updateFile.
  destruct (body !! "id") as [[| | |key]|] eqn:Hid;
    try (right; split; [reflexivity|]; intros (k & row & Hk & _); discriminate Hk).
  destruct (Db.FileMetadata db !! key) as [row|] eqn:Hrow.
  - destruct (Db.valid eng (FilesApi.putData eng body)) eqn:Hvalid.
    + left. exists key, row. auto.
    + right. split; [reflexivity|]. intros (k & row' & Hk & _ & Hsub). discriminate Hsub.
  - right. split; [reflexivity|]. intros (k & row' & Hk & Hrow' & _).
    injection Hk as <-. congruence.
Qed.

Lemma put_date_stored eng (data : gmap string Db.Datum) (col : string) (v : JValue)
    (rest : gmap string JValue) :
  Db.valid eng data = true ->
  data !! col = Some (FilesApi.dateOrNull eng (Some v)) ->
  truthy (Some v) = true ->
  is_Some (match FilesApi.newDate eng (Some v) with
           | Db.DateObject instant => instant
           | Db.Raw _ => None
           end)
  /\ ((Db.stored <$> data) ∪ rest) !! col
     = Some (Db.stored (FilesApi.newDate eng (Some v))).
Proof.
  intros Hvalid Hcol Htruthy. split.
  - pose proof (valid_lookup eng data col _ Hvalid Hcol) as Hd.
    unfold FilesApi.dateOrNull in Hd. rewrite Htruthy in Hd.
    unfold FilesApi.newDate in *. exact (accepted_instant eng col _ Hd).
  - apply lookup_union_Some_l. rewrite lookup_fmap, Hcol.
    unfold FilesApi.dateOrNull. rewrite Htruthy. reflexivity.
Qed.

Lemma truthy_string (s : string) : s <> "" -> truthy (Some (JStr s)) = true.
Proof.
  intros Hs. unfold truthy, Js.truthyStr.
  rewrite (proj2 (String.eqb_neq _ _) Hs). reflexivity.
Qed.

Lemma put_string_stored eng (data : gmap string Db.Datum) (col s : string)
    (rest : gmap string JValue) :
  Db.valid eng data = true ->
  data !! col = Some (FilesApi.dateOrNull eng (Some (JStr s))) ->
  s <> "" ->
  Db.parses eng s = true /\ ((Db.stored <$> data) ∪ rest) !! col = Some (JStr s).
Proof.
  intros Hvalid Hcol Hs.
  destruct (put_date_stored eng data col (JStr s) rest Hvalid Hcol (truthy_string s Hs))
    as [Hsome Hrow].
  rewrite Hrow. unfold FilesApi.newDate in *.
  destruct (Db.parses eng s); [split; reflexivity|]. destruct Hsome as [? [=]].
Qed.

(** C10. Every [PUT] to the files route that is carried out writes null
    to [uploadedAt] when the body omits [uploadedAt] and null to
    [processedAt] when it omits [processedAt], whatever the row held; a
    time the body supplies is a date and is stored; every other column
    the body omits keeps its value, but for [updatedAt], which the update
    stamps. A [PUT] that names no stored row, or whose data the store does
    not take, is refused with status 500 and leaves the store as it was. *)
Theorem put_nulls_omitted_timestamps (eng : Db.Engine) (now : string)
    (body : gmap string JValue) (db : Db.t) (key : string) :
  (body !! "id" = Some (JStr key) ->
   Db.FileMetadata db !! key = None
   \/ Db.valid eng (FilesApi.putData eng body) = false ->
   FilesApi.PUT eng now body db = (FilesApi.Failed500, db))
  /\ (fst (FilesApi.PUT eng now body db) = FilesApi.Done key ->
      exists row row',
        Db.FileMetadata db !! key = Some row
        /\ Db.FileMetadata (snd (FilesApi.PUT eng now body db)) !! key = Some row'
        /\ (body !! "uploadedAt" = None -> row' !! "uploadedAt" = Some JNull)
        /\ (body !! "processedAt" = None -> row' !! "processedAt" = Some JNull)
        /\ (forall v, body !! "uploadedAt" = Some v -> truthy (Some v) = true ->
              row' !! "uploadedAt" = Some (Db.stored (FilesApi.newDate eng (Some v))))
        /\ (forall v, body !! "processedAt" = Some v -> truthy (Some v) = true ->
              row' !! "processedAt" = Some (Db.stored (FilesApi.newDate eng (Some v))))
        /\ (forall s, body !! "uploadedAt" = Some (JStr s) -> s <> "" ->
              Db.parses eng s = true /\ row' !! "uploadedAt" = Some (JStr s))
        /\ (forall s, body !! "processedAt" = Some (JStr s) -> s <> "" ->
              Db.parses eng s = true /\ row' !! "processedAt" = Some (JStr s))
        /\ (forall col, col <> "uploadedAt" -> col <> "processedAt" ->
              col <> "updatedAt" ->
              body !! col = None -> row' !! col = row !! col)).
Proof.
  destruct (put_cases eng now body db)
    as [(k & row & Hid & Hrow & Hvalid & Hput) | [Hput Hnot]]; rewrite Hput;
    cbn [fst snd].
  - split.
    { intros Hk [Hnone | Hbad]; exfalso; congruence. }
    intros [= <-]. exists row.
    exists ((Db.stored <$> FilesApi.putData eng body) ∪ <["updatedAt" := JStr now]> row).
    cbn [Db.FileMetadata].
    split; [exact Hrow|]. split; [apply lookup_insert_eq|].
    split; [|split; [|split; [|split; [|split; [|split]]]]].
    + intros Hnone. apply lookup_union_Some_l.
      rewrite lookup_fmap, putData_uploadedAt, Hnone. reflexivity.
    + intros Hnone. apply lookup_union_Some_l.
      rewrite lookup_fmap, putData_processedAt, Hnone. reflexivity.
    + intros v Hv Htruthy.
      apply (put_date_stored eng _ _ v _ Hvalid); [|exact Htruthy].
      rewrite putData_uploadedAt, Hv. reflexivity.
    + intros v Hv Htruthy.
      apply (put_date_stored eng _ _ v _ Hvalid); [|exact Htruthy].
      rewrite putData_processedAt, Hv. reflexivity.
    + intros s Hv Hs. apply (put_string_stored eng _ _ s _ Hvalid); [|exact Hs].
      rewrite putData_uploadedAt, Hv. reflexivity.
    + intros s Hv Hs. apply (put_string_stored eng _ _ s _ Hvalid); [|exact Hs].
      rewrite putData_processedAt, Hv. reflexivity.
    + intros col Hu Hp Hstamp Hcol. rewrite lookup_union_r.
      * apply lookup_insert_ne. congruence.
      * rewrite lookup_fmap, putData_other by assumption. reflexivity.
  - split; [reflexivity | discriminate].
Qed.

Lemma put_nulls_omitted_timestamps_witness :
  exists row',
    Db.FileMetadata
      (snd (FilesApi.PUT engine "2025-08-22T12:10:00.100Z" processedBody store))
      !! "c0" = Some row'
    /\ row' !! "uploadedAt" = Some JNull.
Proof.
  destruct (proj2 (put_nulls_omitted_timestamps engine "2025-08-22T12:10:00.100Z"
                     processedBody store "c0"))
    as (row & row' & _ & Hrow' & Hup & _).
  - vm_compute. reflexivity.
  - exists row'. split; [exact Hrow'|]. apply Hup. vm_compute. reflexivity.
Defined.

End Store.

(** * Further properties of the code *)

(** ** File names and extensions *)
Section Extensions.
Import Web Aux.

Lemma lowerChar_dot (c : ascii) :
  Ascii.eqb (Js.lowerChar c) "."%char = Ascii.eqb c "."%char.
Proof. destruct c as [[] [] [] [] [] [] [] []]; vm_compute; reflexivity. Qed.

Lemma toLowerCase_length (s : string) :
  String.length (Js.toLowerCase s) = String.length s.
Proof. induction s as [|c s IH]; simpl; [reflexivity | rewrite IH; reflexivity]. Qed.

Lemma lastDotSuffix_lower (s : string) :
  lastDotSuffix (Js.toLowerCase s) = Js.toLowerCase <$> lastDotSuffix s.
Proof.
  induction s as [|c s IH]; [reflexivity|].
  cbn [Js.toLowerCase lastDotSuffix]. rewrite IH, lowerChar_dot.
  destruct (lastDotSuffix s); [reflexivity|].
  destruct (Ascii.eqb c "."%char); reflexivity.
Qed.

Lemma lastDotSuffix_head (s t : string) :
  lastDotSuffix s = Some t -> exists e, t = String "."%char e.
Proof.
  induction s as [|c s IH]; [discriminate|]. cbn [lastDotSuffix].
  destruct (lastDotSuffix s) as [u|].
  - intros [= <-]. apply IH. reflexivity.
  - destruct (Ascii.eqb c "."%char) eqn:Hc; [|discriminate].
    intros [= <-]. apply Ascii.eqb_eq in Hc. subst c. eauto.
Qed.

Lemma lastDotSuffix_split (s t : string) :
  lastDotSuffix s = Some t -> exists p, s = p +:+ t.
Proof.
  revert t. induction s as [|c s IH]; intros t; [discriminate|]. cbn [lastDotSuffix].
  destruct (lastDotSuffix s) as [u|].
  - intros [= <-]. destruct (IH u eq_refl) as [p ->]. exists (String c p). reflexivity.
  - destruct (Ascii.eqb c "."%char); [|discriminate].
    intros [= <-]. exists "". reflexivity.
Qed.

Lemma length_app (p t : string) :
  String.length (p +:+ t) = (String.length p + String.length t)%nat.
Proof. induction p as [|c p IH]; simpl; [reflexivity | rewrite IH; reflexivity]. Qed.

Lemma substring_all (t : string) : substring 0 (String.length t) t = t.
Proof. induction t as [|c t IH]; simpl; [reflexivity | rewrite IH; reflexivity]. Qed.

Lemma substring_skip (p t : string) (n : nat) :
  substring (String.length p) n (p +:+ t) = substring 0 n t.
Proof. induction p as [|c p IH]; simpl; [reflexivity | exact IH]. Qed.

Lemma substring_length_le (s : string) : forall n m,
  (String.length (substring n m s) <= m)%nat.
Proof.
  induction s as [|c s IH]; intros n m.
  - destruct n, m; simpl; lia.
  - destruct n as [|n]; simpl.
    + destruct m as [|m]; simpl; [lia|]. specialize (IH 0%nat m). lia.
    + apply IH.
Qed.

(** [endsWith] by recursion on the string. *)
Lemma endsWith_nil (x : string) : x <> "" -> Js.endsWith "" x = false.
Proof. destruct x; [congruence | reflexivity]. Qed.

Lemma eqb_length (a b : string) :
  String.length a <> String.length b -> String.eqb a b = false.
Proof. intros Hlen. apply String.eqb_neq. intros ->. congruence. Qed.

Lemma endsWith_cons (c : ascii) (r x : string) :
  Js.endsWith (String c r) x = String.eqb (String c r) x || Js.endsWith r x.
Proof.
  unfold Js.endsWith. cbn [String.length].
  destruct (Nat.leb_spec (String.length x) (String.length r)) as [Hle | Hgt].
  - replace (String.length x <=? S (String.length r))%nat with true
      by (symmetry; apply Nat.leb_le; lia).
    rewrite (eqb_length (String c r) x) by (cbn [String.length]; lia).
    replace (S (String.length r) - String.length x)%nat
      with (S (String.length r - String.length x)) by lia.
    reflexivity.
  - rewrite orb_false_r.
    destruct (Nat.leb_spec (String.length x) (S (String.length r))) as [Hle | Hgt'].
    + replace (S (String.length r) - String.length x)%nat with 0%nat by lia.
      replace (String.length x) with (String.length (String c r))
        by (cbn [String.length]; lia).
      rewrite substring_all. reflexivity.
    + symmetry. apply eqb_length. cbn [String.length]. lia.
Qed.

Lemma endsWith_lastDot (e s : string) :
  lastDotSuffix e = None ->
  Js.endsWith s (String "."%char e)
  = match lastDotSuffix s with
    | Some t => String.eqb t (String "."%char e)
    | None => false
    end.
Proof.
  intros He. induction s as [|c s IH]; [reflexivity|].
  rewrite endsWith_cons, IH. cbn [lastDotSuffix].
  destruct (lastDotSuffix s) as [t|] eqn:Hs.
  - destruct (String.eqb (String c s) (String "."%char e)) eqn:Heq; [|reflexivity].
    apply String.eqb_eq in Heq. injection Heq as _ ->. congruence.
  - rewrite orb_false_r. destruct (Ascii.eqb c "."%char) eqn:Hc; [reflexivity|].
    cbn [String.eqb]. rewrite Hc. reflexivity.
Qed.

Lemma lastIndexOfDot_from_spec (s : string) : forall i found,
  Js.lastIndexOfDot_from i s found
  = match lastDotSuffix s with
    | Some t => i + Z.of_nat (String.length s) - Z.of_nat (String.length t)
    | None => found
    end.
Proof.
  induction s as [|c s IH]; intros i found; [reflexivity|].
  cbn [Js.lastIndexOfDot_from lastDotSuffix]. rewrite IH.
  destruct (lastDotSuffix s) as [t|].
  - cbn [String.length]. lia.
  - destruct (Ascii.eqb c "."%char); [cbn [String.length]; lia | reflexivity].
Qed.

(** Slicing a name at its last dot gives the suffix that starts there; one
    position further gives what follows the dot. *)
Lemma slice_lastDot (s t : string) :
  lastDotSuffix s = Some t -> Js.slice s (Js.lastIndexOfDot s) = t.
Proof.
  intros Hs. unfold Js.lastIndexOfDot. rewrite lastIndexOfDot_from_spec, Hs.
  destruct (lastDotSuffix_split s t Hs) as [p ->].
  unfold Js.slice. rewrite length_app.
  replace (0 + Z.of_nat (String.length p + String.length t)
           - Z.of_nat (String.length t)) with (Z.of_nat (String.length p)) by lia.
  destruct (Z.ltb_spec (Z.of_nat (String.length p)) 0) as [Hneg|_]; [lia|].
  rewrite Z.min_l by lia. rewrite Nat2Z.id.
  replace (Z.to_nat (Z.of_nat (String.length p + String.length t)
                     - Z.of_nat (String.length p))) with (String.length t) by lia.
  rewrite substring_skip. apply substring_all.
Qed.

Lemma append_dot (p e : string) :
  (p +:+ ".") +:+ e = p +:+ String "."%char e.
Proof.
  induction p as [|c p IH]; [reflexivity|].
  change (String c ((p +:+ ".") +:+ e) = String c (p +:+ String "."%char e)).
  rewrite IH. reflexivity.
Qed.

Lemma afterLastDot_lastDot (s e : string) :
  lastDotSuffix s = Some (String "."%char e) -> Js.afterLastDot s = e.
Proof.
  intros Hs. unfold Js.afterLastDot, Js.lastIndexOfDot.
  rewrite lastIndexOfDot_from_spec, Hs.
  destruct (lastDotSuffix_split s _ Hs) as [p ->].
  unfold Js.slice. rewrite length_app. cbn [String.length].
  replace (0 + Z.of_nat (String.length p + S (String.length e))
           - Z.of_nat (S (String.length e)) + 1)
    with (Z.of_nat (String.length (p +:+ "."))) by (rewrite length_app; simpl; lia).
  destruct (Z.ltb_spec (Z.of_nat (String.length (p +:+ "."))) 0) as [Hneg|_]; [lia|].
  rewrite Z.min_l by (rewrite length_app; simpl; lia). rewrite Nat2Z.id.
  replace (Z.to_nat (Z.of_nat (String.length p + S (String.length e))
                     - Z.of_nat (String.length (p +:+ "."))))
    with (String.length e) by (rewrite length_app; simpl; lia).
  replace (p +:+ String "."%char e) with ((p +:+ ".") +:+ e).
  - rewrite substring_skip. apply substring_all.
  - apply append_dot.
Qed.

Lemma slice_no_dot_short (s : string) :
  lastDotSuffix s = None ->
  (String.length (Js.toLowerCase (Js.slice s (Js.lastIndexOfDot s))) <= 1)%nat.
Proof.
  intros Hs. unfold Js.lastIndexOfDot. rewrite lastIndexOfDot_from_spec, Hs.
  rewrite toLowerCase_length. unfold Js.slice. cbn [Z.ltb Z.compare].
  etransitivity; [apply substring_length_le|]. lia.
Qed.

Lemma includes_short (x : string) :
  (String.length x <= 1)%nat -> Js.includes AppJs.SUPPORTED_EXTENSIONS x = false.
Proof.
  intros Hlen. destruct x as [|c [|d x]]; [reflexivity| |simpl in Hlen; lia].
  unfold Js.includes, AppJs.SUPPORTED_EXTENSIONS. cbn [existsb String.eqb].
  destruct (Ascii.eqb c "."%char); reflexivity.
Qed.

End Extensions.

Section Filters.
Import Web Aux.

Lemma existsb_endsWith (s : string) :
  existsb (fun ext => Js.endsWith s ext) Page.SUPPORTED_EXTENSIONS
  = match lastDotSuffix s with
    | Some t => Js.includes AppJs.SUPPORTED_EXTENSIONS t
    | None => false
    end.
Proof.
  unfold Page.SUPPORTED_EXTENSIONS, AppJs.SUPPORTED_EXTENSIONS, Js.includes.
  cbn [existsb].
  rewrite (endsWith_lastDot "txt"), (endsWith_lastDot "pdf"),
    (endsWith_lastDot "docx"), (endsWith_lastDot "md") by reflexivity.
  destruct (lastDotSuffix s); reflexivity.
Qed.

(** X1. The two clients accept the same files: the test of [app.js] on
    the lower-cased text from the last dot of the name and the test of the
    page on the end of the lower-cased name agree on every file. *)
Theorem filters_agree (f : File) : AppJs.supported f = Page.isSupportedFile f.
Proof.
  unfold AppJs.supported, Page.isSupportedFile.
  rewrite existsb_endsWith, lastDotSuffix_lower.
  destruct (lastDotSuffix (name f)) as [t|] eqn:Hs; cbn [fmap option_fmap option_map].
  - rewrite (slice_lastDot _ _ Hs). reflexivity.
  - apply includes_short, slice_no_dot_short, Hs.
Qed.

(** X2. A file the page accepts is typed by its extension alone: its
    [fileType] is one of the four document labels, never the MIME type of
    the file nor ['Unknown']. *)
Theorem supported_file_type (f : File) :
  Page.isSupportedFile f = true ->
  Page.getFileType f = labelOf (Js.toLowerCase (name f)).
Proof.
  unfold Page.isSupportedFile. rewrite existsb_endsWith, lastDotSuffix_lower.
  destruct (lastDotSuffix (name f)) as [t|] eqn:Hs;
    cbn [fmap option_fmap option_map]; [|discriminate].
  destruct (lastDotSuffix_head _ _ Hs) as [e ->].
  intros Hsup. unfold Page.getFileType, labelOf.
  rewrite (afterLastDot_lastDot _ _ Hs).
  rewrite (endsWith_lastDot "txt"), (endsWith_lastDot "pdf"),
    (endsWith_lastDot "docx") by reflexivity.
  rewrite lastDotSuffix_lower, Hs. cbn [fmap option_fmap option_map].
  unfold Js.includes, AppJs.SUPPORTED_EXTENSIONS in Hsup.
  cbn [existsb Js.toLowerCase] in Hsup. cbn [Js.toLowerCase].
  change (Js.lowerChar "."%char) with "."%char in *.
  cbn [String.eqb] in Hsup |- *. rewrite !Ascii.eqb_refl in *.
  destruct (String.eqb (Js.toLowerCase e) "txt") eqn:Htxt.
  { apply String.eqb_eq in Htxt. rewrite Htxt. reflexivity. }
  destruct (String.eqb (Js.toLowerCase e) "pdf") eqn:Hpdf.
  { apply String.eqb_eq in Hpdf. rewrite Hpdf. reflexivity. }
  destruct (String.eqb (Js.toLowerCase e) "docx") eqn:Hdocx.
  { apply String.eqb_eq in Hdocx. rewrite Hdocx. reflexivity. }
  destruct (String.eqb (Js.toLowerCase e) "md") eqn:Hmd; [|discriminate Hsup].
  apply String.eqb_eq in Hmd. rewrite Hmd. reflexivity.
Qed.

Lemma supported_file_type_witness :
  Page.getFileType Sample.b_pdf = "PDF Document".
Proof.
  apply (supported_file_type Sample.b_pdf). vm_compute. reflexivity.
Defined.

End Filters.

(** ** The handlers of the files route and of the logs route *)
Section Routes.
Import Web Aux.





End Routes.

Section FilesPost.
Import Web Aux.

Lemma post_unfold eng now (fileData : gmap string JValue) (db : Db.t) :
  FilesApi.POST eng now fileData db
  = match Db.createFile eng now (postData eng fileData) db with
    | Some (key, db') => (FilesApi.Done key, db')
    | None => (FilesApi.Failed500, db)
    end.
Proof. reflexivity. Qed.

(** The two outcomes of a [POST]. *)
Lemma post_cases eng now (fileData : gmap string JValue) (db : Db.t) :
  (Db.valid eng (postData eng fileData) = true
   /\ forallb (fun col => bool_decide (is_Some (postData eng fileData !! col)))
        Db.required = true
   /\ FilesApi.POST eng now fileData db
      = (FilesApi.Done (Db.cuid (Db.generated db)),
         {| Db.FileMetadata :=
              <[Db.cuid (Db.generated db) :=
                  (Db.stored <$> postData eng fileData) ∪ Db.defaults now]>
                (Db.FileMetadata db);
            Db.Logs := Db.Logs db;
            Db.generated := S (Db.generated db) |}))
  \/ (FilesApi.POST eng now fileData db = (FilesApi.Failed500, db)
      /\ Db.valid eng (postData eng fileData)
         && forallb (fun col => bool_decide (is_Some (postData eng fileData !! col)))
              Db.required = false).
Proof.
  rewrite post_unfold. unfold Db.createFile.
  destruct (Db.valid eng (postData eng fileData)) eqn:Hvalid; cbn [andb]; [|auto].
  destruct (forallb _ Db.required) eqn:Hrequired; auto.
Qed.

Ltac post_lookup :=
  unfold postData, FilesApi.properties; rewrite lookup_omap;
  cbn [list_to_map foldr fst snd];
  repeat (rewrite lookup_insert_ne by discriminate);
  rewrite ?lookup_insert_eq, ?lookup_empty; cbn [mbind option_bind].

Lemma postData_plain eng (fileData : gmap string JValue) (col : string) :
  In col ["name"; "sizeBytes"; "relativePath"; "lastModified"; "host"; "status";
          "errorMessage"; "computerName"; "userName"; "userAgent"; "uploadDuration";
          "processDuration"; "fileType"; "mimeType"; "checksum"] ->
  postData eng fileData !! col = Db.Raw <$> (fileData !! col).
Proof.
  intros Hin. cbn in Hin.
  repeat (destruct Hin as [<-|Hin]; [post_lookup; reflexivity|]). destruct Hin.
Qed.

Lemma postData_selectedAt eng (fileData : gmap string JValue) :
  postData eng fileData !! "selectedAt"
  = Some (FilesApi.newDate eng (fileData !! "selectedAt")).
Proof. post_lookup. reflexivity. Qed.

Lemma postData_uploadedAt eng (fileData : gmap string JValue) :
  postData eng fileData !! "uploadedAt"
  = Some (FilesApi.dateOrNull eng (fileData !! "uploadedAt")).
Proof. post_lookup. reflexivity. Qed.

Lemma postData_processedAt eng (fileData : gmap string JValue) :
  postData eng fileData !! "processedAt"
  = Some (FilesApi.dateOrNull eng (fileData !! "processedAt")).
Proof. post_lookup. reflexivity. Qed.

Lemma postData_retryCount eng (fileData : gmap string JValue) :
  postData eng fileData !! "retryCount"
  = Some (FilesApi.orZero (fileData !! "retryCount")).
Proof. post_lookup. reflexivity. Qed.

Lemma postData_lookup eng (fileData : gmap string JValue) (col : string) (d : Db.Datum) :
  postData eng fileData !! col = Some d ->
  (In col ["name"; "sizeBytes"; "relativePath"; "lastModified"; "host"; "status";
           "errorMessage"; "computerName"; "userName"; "userAgent"; "uploadDuration";
           "processDuration"; "fileType"; "mimeType"; "checksum"]
   /\ Db.Raw <$> (fileData !! col) = Some d)
  \/ (col = "selectedAt" /\ d = FilesApi.newDate eng (fileData !! "selectedAt"))
  \/ (col = "uploadedAt" /\ d = FilesApi.dateOrNull eng (fileData !! "uploadedAt"))
  \/ (col = "processedAt" /\ d = FilesApi.dateOrNull eng (fileData !! "processedAt"))
  \/ (col = "retryCount" /\ d = FilesApi.orZero (fileData !! "retryCount")).
Proof.
  unfold postData, FilesApi.properties. rewrite lookup_omap_Some.
  intros (o & Ho & Hcol). cbn [list_to_map foldr] in Hcol.
  repeat (apply lookup_insert_Some in Hcol;
          destruct Hcol as [[<- <-] | [_ Hcol]];
          [first [ left; split; [cbn; tauto | exact Ho]
                 | injection Ho as <-; tauto ]|]).
  rewrite lookup_empty in Hcol. discriminate Hcol.
Qed.

Lemma post_valid eng (fileData : gmap string JValue) :
  (forall col v,
     In col ["name"; "sizeBytes"; "relativePath"; "lastModified"; "host"; "status";
             "errorMessage"; "computerName"; "userName"; "userAgent"; "uploadDuration";
             "processDuration"; "fileType"; "mimeType"; "checksum"] ->
     fileData !! col = Some v -> Db.accepted eng col (Db.Raw v) = true) ->
  Db.accepted eng "selectedAt" (FilesApi.newDate eng (fileData !! "selectedAt")) = true ->
  Db.accepted eng "uploadedAt" (FilesApi.dateOrNull eng (fileData !! "uploadedAt")) = true ->
  Db.accepted eng "processedAt" (FilesApi.dateOrNull eng (fileData !! "processedAt")) = true ->
  Db.accepted eng "retryCount" (FilesApi.orZero (fileData !! "retryCount")) = true ->
  Db.valid eng (postData eng fileData) = true.
Proof.
  intros Hplain Hselected Huploaded Hprocessed Hretry.
  unfold Db.valid. apply bool_decide_eq_true, map_Forall_lookup_2.
  intros col d Hd. apply postData_lookup in Hd.
  destruct Hd as [[Hin Hd] | [[-> ->] | [[-> ->] | [[-> ->] | [-> ->]]]]]; try assumption.
  destruct (fileData !! col) as [v|] eqn:Hv; [|discriminate Hd].
  injection Hd as <-. exact (Hplain col v Hin Hv).
Qed.

Lemma required_missing eng (fileData : gmap string JValue) (col : string) :
  In col Db.required -> postData eng fileData !! col = None ->
  forallb (fun col => bool_decide (is_Some (postData eng fileData !! col)))
    Db.required = false.
Proof.
  intros Hin Hnone. destruct (forallb _ Db.required) eqn:Hall; [|reflexivity].
  rewrite forallb_forall in Hall. specialize (Hall col Hin).
  apply bool_decide_eq_true in Hall. rewrite Hnone in Hall. destruct Hall as [? [=]].
Qed.

Lemma post_refused eng now (fileData : gmap string JValue) (db : Db.t) :
  Db.valid eng (postData eng fileData) = false
  \/ forallb (fun col => bool_decide (is_Some (postData eng fileData !! col)))
       Db.required = false ->
  FilesApi.POST eng now fileData db = (FilesApi.Failed500, db).
Proof.
  intros Hbad.
  destruct (post_cases eng now fileData db) as [(Hvalid & Hreq & _) | [Hpost _]];
    [|exact Hpost].
  destruct Hbad as [Hbad | Hbad]; congruence.
Qed.

Lemma null_selectedAt_accepted eng now (fileData : gmap string JValue) (db : Db.t)
    (key : string) :
  fst (FilesApi.POST eng now fileData db) = FilesApi.Done key ->
  fst (FilesApi.POST eng now (<["selectedAt" := JNull]> fileData) db) = FilesApi.Done key.
Proof.
  intros Hdone.
  destruct (post_cases eng now fileData db) as [(Hvalid & Hreq & Hpost) | [Hpost _]];
    rewrite Hpost in Hdone; cbn [fst] in Hdone; [|discriminate Hdone].
  destruct (post_cases eng now (<["selectedAt" := JNull]> fileData) db)
    as [(_ & _ & ->) | [_ Hbad]]; [exact Hdone|].
  exfalso. apply andb_false_iff in Hbad. destruct Hbad as [Hbad | Hbad].
  - rewrite post_valid in Hbad; [discriminate Hbad| | | | |].
    + intros col v Hin Hv.
      assert (Hcol : col <> "selectedAt")
        by (intros ->; cbn in Hin; intuition discriminate).
      rewrite lookup_insert_ne in Hv by congruence.
      apply (valid_lookup eng _ col _ Hvalid).
      rewrite (postData_plain eng fileData col Hin), Hv. reflexivity.
    + rewrite lookup_insert_eq. reflexivity.
    + rewrite lookup_insert_ne by discriminate.
      exact (valid_lookup eng _ _ _ Hvalid (postData_uploadedAt eng fileData)).
    + rewrite lookup_insert_ne by discriminate.
      exact (valid_lookup eng _ _ _ Hvalid (postData_processedAt eng fileData)).
    + rewrite lookup_insert_ne by discriminate.
      exact (valid_lookup eng _ _ _ Hvalid (postData_retryCount eng fileData)).
  - rewrite forallb_forall in Hreq.
    assert (Hall : forallb
                     (fun col => bool_decide
                                   (is_Some (postData eng (<["selectedAt" := JNull]> fileData)
                                             !! col))) Db.required = true).
    { apply forallb_forall. intros col Hin. specialize (Hreq col Hin).
      apply bool_decide_eq_true. apply bool_decide_eq_true in Hreq.
      cbn in Hin. destruct Hin as [<-|[<-|[<-|[<-|[<-|[<-|[]]]]]]];
        rewrite ?postData_selectedAt; eauto;
        rewrite postData_plain in * by (cbn; tauto);
        rewrite lookup_insert_ne by discriminate; exact Hreq. }
    congruence.
Qed.

(** X5. The [POST] of the files route answers 500 and stores nothing when
    [name], [sizeBytes], [lastModified], [host] or [status] is missing or
    null, when [selectedAt] is missing or a string that is no date, and
    when a property is not a value its column takes. A null [selectedAt]
    is not refused: a body that is accepted is accepted with a null
    [selectedAt] too, and the date stored is the epoch. A row that is
    stored has the generated id; it has [retryCount] 0 when the body has
    none or a falsy one, and a null [uploadedAt] or [processedAt] when the
    body has none or a falsy one; the log table is untouched. *)
Theorem post_file_outcome (eng : Db.Engine) (now : string)
    (fileData : gmap string JValue) (db : Db.t) :
  ((exists col, In col ["name"; "sizeBytes"; "lastModified"; "host"; "status"]
                /\ absent fileData col)
   \/ fileData !! "selectedAt" = None
   \/ (exists s, fileData !! "selectedAt" = Some (JStr s) /\ Db.parses eng s = false)
   \/ (exists col v,
         In col ["name"; "sizeBytes"; "relativePath"; "lastModified"; "host"; "status";
                 "errorMessage"; "computerName"; "userName"; "userAgent";
                 "uploadDuration"; "processDuration"; "fileType"; "mimeType";
                 "checksum"]
         /\ fileData !! col = Some v /\ Db.accepted eng col (Db.Raw v) = false) ->
   FilesApi.POST eng now fileData db = (FilesApi.Failed500, db))
  /\ (forall key,
        fst (FilesApi.POST eng now fileData db) = FilesApi.Done key ->
        exists row,
          key = Db.cuid (Db.generated db)
          /\ snd (FilesApi.POST eng now fileData db)
             = {| Db.FileMetadata := <[key := row]> (Db.FileMetadata db);
                  Db.Logs := Db.Logs db;
                  Db.generated := S (Db.generated db) |}
          /\ (truthy (fileData !! "retryCount") = false ->
              row !! "retryCount" = Some (JNum 0))
          /\ (truthy (fileData !! "uploadedAt") = false ->
              row !! "uploadedAt" = Some JNull)
          /\ (truthy (fileData !! "processedAt") = false ->
              row !! "processedAt" = Some JNull)
          /\ (fileData !! "selectedAt" = Some JNull ->
              row !! "selectedAt" = Some (JNum 0)))
  /\ (forall key,
        fst (FilesApi.POST eng now fileData db) = FilesApi.Done key ->
        fst (FilesApi.POST eng now (<["selectedAt" := JNull]> fileData) db)
        = FilesApi.Done key).
Proof.
  split; [|split; [|apply null_selectedAt_accepted]].
  - intros [(col & Hin & Habsent) | [Hnone | [(s & Hs & Hbad) | (col & v & Hin & Hv & Hbad)]]];
      apply post_refused.
    + assert (Hplain : postData eng fileData !! col = Db.Raw <$> (fileData !! col))
        by (apply postData_plain; cbn in *; intuition auto 20).
      destruct Habsent as [Hmissing | Hnull].
      * right. apply (required_missing eng fileData col).
        -- cbn in *. intuition auto 20.
        -- rewrite Hplain, Hmissing. reflexivity.
      * left. apply (invalid_lookup eng _ col (Db.Raw JNull)).
        -- rewrite Hplain, Hnull. reflexivity.
        -- cbn in Hin. destruct Hin as [<-|[<-|[<-|[<-|[<-|[]]]]]]; reflexivity.
    + left. apply (invalid_lookup eng _ "selectedAt"
                     (FilesApi.newDate eng None)); [|reflexivity].
      rewrite postData_selectedAt, Hnone. reflexivity.
    + left. apply (invalid_lookup eng _ "selectedAt"
                     (FilesApi.newDate eng (Some (JStr s)))).
      * rewrite postData_selectedAt, Hs. reflexivity.
      * unfold FilesApi.newDate. rewrite Hbad. reflexivity.
    + left. apply (invalid_lookup eng _ col (Db.Raw v)); [|exact Hbad].
      rewrite (postData_plain eng fileData col Hin), Hv. reflexivity.
  - intros key Hdone.
    destruct (post_cases eng now fileData db) as [(Hvalid & Hreq & Hpost) | [Hpost _]];
      rewrite Hpost in *; cbn [fst snd] in *; [|discriminate Hdone].
    injection Hdone as <-. eexists. split; [reflexivity|]. split; [reflexivity|].
    split; [|split; [|split]].
    + intros Hfalsy. apply lookup_union_Some_l.
      rewrite lookup_fmap, postData_retryCount. unfold FilesApi.orZero.
      rewrite Hfalsy. reflexivity.
    + intros Hfalsy. apply lookup_union_Some_l.
      rewrite lookup_fmap, postData_uploadedAt. unfold FilesApi.dateOrNull.
      rewrite Hfalsy. reflexivity.
    + intros Hfalsy. apply lookup_union_Some_l.
      rewrite lookup_fmap, postData_processedAt. unfold FilesApi.dateOrNull.
      rewrite Hfalsy. reflexivity.
    + intros Hnull. apply lookup_union_Some_l.
      rewrite lookup_fmap, postData_selectedAt, Hnull. reflexivity.
Qed.

Lemma post_file_outcome_witness :
  FilesApi.POST Sample.engine "2025-08-22T12:09:35.500Z"
    (<["name" := JStr "a.txt"]> ∅) Sample.store
  = (FilesApi.Failed500, Sample.store).
Proof.
  apply (proj1 (post_file_outcome Sample.engine "2025-08-22T12:09:35.500Z"
                  (<["name" := JStr "a.txt"]> ∅) Sample.store)).
  left. exists "status". split; [cbn; auto 10 | left; reflexivity].
Defined.

(** X6. The [POST] of the files route reads the columns it stores and
    nothing else: a property of the body that is not a column, such as the
    [id] the page makes up for a record, has no effect on the answer nor
    on the stored row. *)
Theorem post_file_ignores_other_keys (eng : Db.Engine) (now : string)
    (fileData : gmap string JValue) (db : Db.t) (k : string) (v : JValue) :
  ~ In k Db.columns ->
  FilesApi.POST eng now (<[k := v]> fileData) db = FilesApi.POST eng now fileData db.
Proof.
  intros Hk. rewrite !post_unfold.
  replace (postData eng (<[k := v]> fileData)) with (postData eng fileData);
    [reflexivity|].
  unfold postData.
  rewrite !lookup_insert_ne by (intros ->; apply Hk; cbn; auto 25).
  reflexivity.
Qed.

Lemma post_file_ignores_other_keys_witness :
  FilesApi.POST Sample.engine "2025-08-22T12:09:35.500Z"
    (<["id" := JStr "a.txt-12-1755864575000-0"]> Sample.storedRow) Db.empty
  = FilesApi.POST Sample.engine "2025-08-22T12:09:35.500Z" Sample.storedRow Db.empty.
Proof.
  apply post_file_ignores_other_keys. cbn.
  intros H. repeat (destruct H as [H|H]; [discriminate H|]). exact H.
Defined.

End FilesPost.

Section LogsPost.
Import Web Aux.

(** X7. The [POST] of the logs route stores the entry under a generated
    id, with a null [fileId] when the body has none or an empty one, and
    leaves the file rows alone; when the [fileId] names no stored row the
    foreign key refuses the entry: the answer is 500 and the store is as
    before. *)
Theorem post_log_outcome (message : Page.Message) (level : Level.t)
    (fileId : option string) (now : string) (db : Db.t) :
  (forall f, LogsApi.fileIdOrNull fileId = Some f ->
             Db.FileMetadata db !! f = None ->
             LogsApi.POST message level fileId now db = (FilesApi.Failed500, db))
  /\ ((forall f, LogsApi.fileIdOrNull fileId = Some f ->
                 is_Some (Db.FileMetadata db !! f)) ->
      LogsApi.POST message level fileId now db
      = (FilesApi.Done (Db.cuid (Db.generated db)),
         {| Db.FileMetadata := Db.FileMetadata db;
            Db.Logs := <[Db.cuid (Db.generated db) :=
                           {| Db.message := message; Db.level := level;
                              Db.timestamp := now;
                              Db.fileId := LogsApi.fileIdOrNull fileId |}]> (Db.Logs db);
            Db.generated := S (Db.generated db) |}))
  /\ (fileId = None \/ fileId = Some "" -> LogsApi.fileIdOrNull fileId = None).
Proof.
  unfold LogsApi.POST, Db.createLog. cbn [Db.fileId]. split; [|split].
  - intros f Hf Hrow. rewrite Hf, Hrow.
    rewrite bool_decide_eq_false_2 by (intros [? ?]; discriminate). reflexivity.
  - intros Hrows. destruct (LogsApi.fileIdOrNull fileId) as [f|]; [|reflexivity].
    rewrite (bool_decide_eq_true_2 _ (Hrows f eq_refl)). reflexivity.
  - intros [-> | ->]; reflexivity.
Qed.

Lemma post_log_outcome_witness :
  LogsApi.POST Page.NoValidFile Level.error (Some "gone") "2025-08-22T12:09:36.000Z"
    Db.empty
  = (FilesApi.Failed500, Db.empty).
Proof.
  apply (proj1 (post_log_outcome Page.NoValidFile Level.error (Some "gone")
                  "2025-08-22T12:09:36.000Z" Db.empty) "gone").
  - reflexivity.
  - apply lookup_empty.
Defined.

End LogsPost.

(** ** Referential integrity of the store *)
Section Integrity.
Import Web Aux.

Lemma empty_consistent : consistent Db.empty.
Proof.
  intros k l f Hl. cbn [Db.Logs Db.empty] in Hl.
  rewrite lookup_empty in Hl. discriminate Hl.
Qed.

Lemma filesPost_consistent eng now fileData db :
  consistent db -> consistent (snd (FilesApi.POST eng now fileData db)).
Proof.
  intros Hdb.
  destruct (post_cases eng now fileData db) as [(_ & _ & ->) | [-> _]]; [|exact Hdb].
  intros k l f Hl Hf. cbn [snd Db.Logs Db.FileMetadata] in *.
  destruct (decide (Db.cuid (Db.generated db) = f)) as [->|Hne].
  - rewrite lookup_insert_eq. eauto.
  - rewrite lookup_insert_ne by exact Hne. exact (Hdb k l f Hl Hf).
Qed.

Lemma filesPut_consistent eng now body db :
  consistent db -> consistent (snd (FilesApi.PUT eng now body db)).
Proof.
  intros Hdb.
  destruct (put_cases eng now body db) as [(key & row & _ & Hrow & _ & ->) | [-> _]];
    [|exact Hdb].
  intros k l f Hl Hf. cbn [snd Db.Logs Db.FileMetadata] in *.
  destruct (decide (key = f)) as [->|Hne].
  - rewrite lookup_insert_eq. eauto.
  - rewrite lookup_insert_ne by exact Hne. exact (Hdb k l f Hl Hf).
Qed.

Lemma onDeleteSetNull_fileId gone l f :
  Db.fileId (Db.onDeleteSetNull gone l) = Some f ->
  Db.fileId l = Some f /\ gone f = false.
Proof.
  unfold Db.onDeleteSetNull. destruct (Db.fileId l) as [g|] eqn:Hg.
  - destruct (gone g) eqn:Hgone; cbn [Db.fileId].
    + discriminate.
    + rewrite Hg. intros [= <-]. auto.
  - rewrite Hg. discriminate.
Qed.

Lemma filesDelete_consistent db :
  consistent db -> consistent (FilesApi.DELETE db).
Proof.
  intros Hdb k l f Hl Hf. unfold FilesApi.DELETE, Db.deleteManyFiles in *.
  cbn [Db.Logs Db.FileMetadata] in *.
  rewrite lookup_fmap in Hl.
  destruct (Db.Logs db !! k) as [l0|] eqn:Hl0; [|discriminate Hl].
  injection Hl as <-. apply onDeleteSetNull_fileId in Hf. destruct Hf as [Hf0 Hgone].
  apply bool_decide_eq_false in Hgone. exfalso. apply Hgone. exact (Hdb k l0 f Hl0 Hf0).
Qed.

Lemma deleteFile_consistent key db :
  consistent db -> consistent (Db.deleteFile key db).
Proof.
  intros Hdb. unfold Db.deleteFile.
  destruct (Db.FileMetadata db !! key) eqn:Hkey; [|exact Hdb].
  intros k l f Hl Hf. cbn [Db.Logs Db.FileMetadata] in *.
  rewrite lookup_fmap in Hl.
  destruct (Db.Logs db !! k) as [l0|] eqn:Hl0; [|discriminate Hl].
  injection Hl as <-. apply onDeleteSetNull_fileId in Hf. destruct Hf as [Hf0 Hgone].
  apply String.eqb_neq in Hgone. rewrite lookup_delete_ne by exact Hgone.
  exact (Hdb k l0 f Hl0 Hf0).
Qed.

Lemma logsPost_consistent message level fileId now db :
  consistent db -> consistent (snd (LogsApi.POST message level fileId now db)).
Proof.
  intros Hdb. unfold LogsApi.POST, Db.createLog. cbn [Db.fileId].
  destruct (LogsApi.fileIdOrNull fileId) as [g|] eqn:Hg.
  - destruct (bool_decide (is_Some (Db.FileMetadata db !! g))) eqn:Hrow; [|exact Hdb].
    apply bool_decide_eq_true in Hrow.
    intros k l f Hl Hf. cbn [snd Db.Logs Db.FileMetadata] in *.
    destruct (decide (Db.cuid (Db.generated db) = k)) as [Heq|Hne].
    + rewrite Heq, lookup_insert_eq in Hl. injection Hl as <-. cbn [Db.fileId] in Hf.
      injection Hf as <-. exact Hrow.
    + rewrite lookup_insert_ne in Hl by exact Hne. exact (Hdb k l f Hl Hf).
  - intros k l f Hl Hf. cbn [snd Db.Logs Db.FileMetadata] in *.
    destruct (decide (Db.cuid (Db.generated db) = k)) as [Heq|Hne].
    + rewrite Heq, lookup_insert_eq in Hl. injection Hl as <-. discriminate Hf.
    + rewrite lookup_insert_ne in Hl by exact Hne. exact (Hdb k l f Hl Hf).
Qed.

Lemma logsDelete_consistent db : consistent (LogsApi.DELETE db).
Proof.
  intros k l f Hl. unfold LogsApi.DELETE, Db.deleteManyLogs in Hl.
  cbn [Db.Logs] in Hl. rewrite lookup_empty in Hl. discriminate Hl.
Qed.

Lemma deliver_consistent eng clock e db :
  consistent db -> consistent (Wire.deliver eng clock e db).
Proof.
  intros Hdb. destruct e as [req | method body | message level fileId];
    cbn [Wire.deliver]; [exact Hdb | | apply logsPost_consistent, Hdb].
  destruct (String.eqb method "POST"); [apply filesPost_consistent, Hdb|].
  destruct (String.eqb method "PUT"); [apply filesPut_consistent, Hdb|].
  destruct (String.eqb method "DELETE"); [apply filesDelete_consistent, Hdb | exact Hdb].
Qed.

(** X8. The handlers keep the references of the log table valid: if every
    log entry names no file row or a stored one, the same holds after any
    sequence of requests to the files route and the logs route has run,
    and after the removal of a single row; the empty store is such a
    store, and the [DELETE] of the logs route always gives one. *)
Theorem store_stays_consistent (eng : Db.Engine) (clock : nat -> string)
    (t : list Page.Event) (db : Db.t) (key : string) :
  consistent db ->
  consistent (Wire.deliverAll eng clock t db)
  /\ consistent (Db.deleteFile key db)
  /\ consistent Db.empty
  /\ consistent (LogsApi.DELETE db).
Proof.
  intros Hdb. split; [|split; [|split]].
  - revert db Hdb. unfold Wire.deliverAll.
    induction t as [|e t IH]; intros db Hdb; [exact Hdb|].
    cbn [fold_left]. apply IH, deliver_consistent, Hdb.
  - apply deleteFile_consistent, Hdb.
  - apply empty_consistent.
  - apply logsDelete_consistent.
Qed.

Lemma sample_store_consistent : consistent Sample.store.
Proof.
  unfold Sample.store. apply logsPost_consistent, filesPost_consistent, empty_consistent.
Defined.

Lemma store_stays_consistent_witness :
  consistent (Wire.deliverAll Sample.engine (fun _ => "2025-08-22T12:10:00.000Z")
                (Page.trace Sample.uploadedPage) Sample.store).
Proof.
  apply (proj1 (store_stays_consistent Sample.engine
                  (fun _ => "2025-08-22T12:10:00.000Z")
                  (Page.trace Sample.uploadedPage) Sample.store "c0"
                  sample_store_consistent)).
Defined.



End Integrity.

(** ** The updates of the page as they reach the store *)
Section Delivery.
Import Web Aux.

Lemma logsPost_files message level fileId now db :
  Db.FileMetadata (snd (LogsApi.POST message level fileId now db)) = Db.FileMetadata db.
Proof.
  unfold LogsApi.POST, Db.createLog.
  destruct (match Db.fileId _ with Some f => _ | None => true end); reflexivity.
Qed.

Lemma deliver_put eng clock body db :
  Wire.deliver eng clock (Page.FilesRoute "PUT" body) db
  = snd (FilesApi.PUT eng (clock (Db.generated db)) body db).
Proof. reflexivity. Qed.

Lemma deliver_keeps_row eng clock written e db key :
  putsOf eng written e ->
  is_Some (Db.FileMetadata db !! key) ->
  is_Some (Db.FileMetadata (Wire.deliver eng clock e db) !! key).
Proof.
  intros He Hrow. destruct e as [req | method body | message level fileId].
  - exact Hrow.
  - destruct He as [-> _]. rewrite deliver_put.
    destruct (put_cases eng (clock (Db.generated db)) body db)
      as [(k & row & _ & Hk & _ & ->) | [-> _]]; [|exact Hrow].
    cbn [snd Db.FileMetadata]. destruct (decide (k = key)) as [->|Hne].
    + rewrite lookup_insert_eq. eauto.
    + rewrite lookup_insert_ne by exact Hne. exact Hrow.
  - cbn [Wire.deliver]. rewrite logsPost_files. exact Hrow.
Qed.

Lemma written_stored eng written body (rest : gmap string JValue) col v :
  writes eng written body -> In (col, v) written ->
  ((Db.stored <$> FilesApi.putData eng body) ∪ rest) !! col = Some v.
Proof.
  intros [_ Hbody] Hin. apply lookup_union_Some_l.
  rewrite lookup_fmap. exact (Hbody col v Hin).
Qed.

Lemma deliver_keeps_values eng clock written e db key :
  putsOf eng written e -> holds written db key ->
  holds written (Wire.deliver eng clock e db) key.
Proof.
  intros He (row & Hrow & Hvals). destruct e as [req | method body | message level fileId].
  - exists row. auto.
  - destruct He as [-> Hbody]. rewrite deliver_put.
    destruct (put_cases eng (clock (Db.generated db)) body db)
      as [(k & row0 & _ & Hk & _ & ->) | [-> _]]; [|exists row; auto].
    unfold holds. cbn [snd Db.FileMetadata]. destruct (decide (k = key)) as [->|Hne].
    + eexists. rewrite lookup_insert_eq.
      split; [reflexivity|]. intros col v Hin.
      exact (written_stored eng written body _ col v Hbody Hin).
    + exists row. rewrite lookup_insert_ne by exact Hne. auto.
  - exists row. cbn [Wire.deliver]. rewrite logsPost_files. auto.
Qed.

Lemma deliver_sets_values eng clock written body db key :
  writes eng written body ->
  body !! "id" = Some (JStr key) ->
  is_Some (Db.FileMetadata db !! key) ->
  holds written (Wire.deliver eng clock (Page.FilesRoute "PUT" body) db) key.
Proof.
  intros Hbody Hid [row Hrow]. rewrite deliver_put.
  destruct (put_cases eng (clock (Db.generated db)) body db)
    as [(k & row0 & Hk & _ & _ & ->) | [_ Hnot]].
  - rewrite Hid in Hk. injection Hk as <-. unfold holds. cbn [snd Db.FileMetadata].
    eexists. rewrite lookup_insert_eq.
    split; [reflexivity|]. intros col v Hin.
    exact (written_stored eng written body _ col v Hbody Hin).
  - exfalso. apply Hnot. destruct Hbody as [Hvalid _]. eauto.
Qed.

Lemma deliverAll_keeps_values eng clock written t : forall db key,
  Forall (putsOf eng written) t -> holds written db key ->
  holds written (Wire.deliverAll eng clock t db) key.
Proof.
  unfold Wire.deliverAll. induction t as [|e t IH]; intros db key Ht Hdb; [exact Hdb|].
  cbn [fold_left]. apply Forall_cons in Ht. destruct Ht as [He Ht].
  apply IH; [exact Ht|]. apply deliver_keeps_values; assumption.
Qed.

(** Once a [PUT] for a stored row is in the trace, the row ends with the
    values the bodies of the trace write. *)
Lemma deliverAll_sets_values eng clock written t : forall db body key,
  Forall (putsOf eng written) t ->
  In (Page.FilesRoute "PUT" body) t ->
  body !! "id" = Some (JStr key) ->
  is_Some (Db.FileMetadata db !! key) ->
  holds written (Wire.deliverAll eng clock t db) key.
Proof.
  induction t as [|e t IH]; intros db body key Ht Hin Hid Hrow; [destruct Hin|].
  apply Forall_cons in Ht. destruct Ht as [He Ht].
  change (Wire.deliverAll eng clock (e :: t) db)
    with (Wire.deliverAll eng clock t (Wire.deliver eng clock e db)).
  destruct Hin as [-> | Hin].
  - apply deliverAll_keeps_values; [exact Ht|].
    destruct He as [_ Hbody]. apply deliver_sets_values; assumption.
  - apply (IH _ body); try assumption.
    eapply deliver_keeps_row; eassumption.
Qed.

End Delivery.

Section StoredUpdates.
Import Web WebRequest Page Aux.

Lemma date_of_string eng (at_ : string) :
  at_ <> "" -> Db.parses eng at_ = true ->
  FilesApi.dateOrNull eng (Some (JStr at_)) = Db.DateObject (Some (JStr at_)).
Proof.
  intros Hat Hparses. unfold FilesApi.dateOrNull, FilesApi.newDate.
  rewrite (truthy_string at_ Hat), Hparses. reflexivity.
Qed.

(** The data of a patch of the page: the two times, and the properties of
    the patch but its [id]. *)
Ltac patch_data :=
  unfold FilesApi.putData, FilesApi.updateData;
  rewrite delete_insert_eq;
  rewrite delete_id
    by (rewrite ?lookup_insert_ne by discriminate; apply lookup_empty);
  repeat (rewrite lookup_insert_ne by discriminate);
  rewrite ?lookup_insert_eq, ?lookup_empty.

Ltac patch_valid :=
  unfold Db.valid; apply bool_decide_eq_true;
  apply map_Forall_lookup_2; intros i x Hx;
  rewrite !fmap_insert, fmap_empty in Hx;
  repeat (apply lookup_insert_Some in Hx;
          destruct Hx as [[<- <-] | [? Hx]]; [first [reflexivity | congruence]|]);
  rewrite lookup_empty in Hx; discriminate Hx.

Ltac patch_values Hin :=
  cbn in Hin;
  repeat (destruct Hin as [[= <- <-] | Hin];
          [repeat (rewrite lookup_insert_ne by discriminate);
           rewrite ?lookup_insert_eq; try rewrite lookup_fmap;
           repeat (rewrite lookup_insert_ne by discriminate);
           rewrite ?lookup_insert_eq; reflexivity|]);
  destruct Hin.

Lemma uploadedPatch_writes eng at_ d m :
  at_ <> "" -> Db.parses eng at_ = true ->
  writes eng
    [("status", JStr "uploaded"); ("uploadedAt", JStr at_); ("processedAt", JNull)]
    (uploadedPatch (markUploaded at_ d m)).
Proof.
  intros Hat Hparses. unfold writes, uploadedPatch.
  cbn [field markUploaded id status uploadedAt uploadDuration fmap option_fmap
       option_map statusName].
  patch_data. rewrite (date_of_string eng at_ Hat Hparses).
  split; [patch_valid|]. intros col v Hin. patch_values Hin.
Qed.

Lemma processedPatch_writes eng at_ d m :
  at_ <> "" -> Db.parses eng at_ = true ->
  writes eng
    [("status", JStr "processed"); ("processedAt", JStr at_); ("uploadedAt", JNull)]
    (processedPatch (markProcessed at_ d m)).
Proof.
  intros Hat Hparses. unfold writes, processedPatch.
  cbn [field markProcessed id status processedAt processDuration fmap option_fmap
       option_map statusName].
  patch_data. rewrite (date_of_string eng at_ Hat Hparses).
  split; [patch_valid|]. intros col v Hin. patch_values Hin.
Qed.

Lemma errorPatch_writes eng message m :
  writes eng
    [("status", JStr "error"); ("errorMessage", JStr message);
     ("uploadedAt", JNull); ("processedAt", JNull)]
    (errorPatch (markError message m)).
Proof.
  unfold writes, errorPatch.
  cbn [field markError id status errorMessage retryCount fmap option_fmap
       option_map statusName].
  patch_data.
  split; [patch_valid|]. intros col v Hin. patch_values Hin.
Qed.

Lemma puts_good eng written (patch : FileMetadata -> gmap string JValue)
    (mark : FileMetadata -> FileMetadata) (metas : list FileMetadata) :
  (forall m, writes eng written (patch (mark m))) ->
  Forall (putsOf eng written) (put patch (map mark metas)).
Proof.
  intros Hgood. unfold put. rewrite map_map. apply Forall_map, Forall_forall.
  intros m _. split; [reflexivity | apply Hgood].
Qed.

Lemma puts_member (patch : FileMetadata -> gmap string JValue)
    (mark : FileMetadata -> FileMetadata) (metas : list FileMetadata) m :
  In m metas -> In (FilesRoute "PUT" (patch (mark m))) (put patch (map mark metas)).
Proof.
  intros Hin. unfold put. rewrite map_map.
  apply (in_map (fun x => FilesRoute "PUT" (patch (mark x)))), Hin.
Qed.

Lemma logs_good {A} eng written (g : A -> Event) (l : list A) :
  (forall x, match g x with FilesRoute _ _ => False | _ => True end) ->
  Forall (putsOf eng written) (map g l).
Proof.
  intros Hg. apply Forall_map, Forall_forall. intros x _.
  specialize (Hg x). destruct (g x); [exact I | destruct Hg | exact I].
Qed.

Ltac trace_parts :=
  cbn [trace quiet emitAll emit addLog uploadFiles processUploaded setFileMetadata
       failed].

Ltac all_good Hpatch :=
  trace_parts; rewrite ?Forall_app; repeat split; cbn [app];
  first [ apply puts_good; exact Hpatch
        | apply logs_good; intros ?; exact I
        | repeat constructor ].

Ltac has_put patch mark m Hin :=
  trace_parts; rewrite ?in_app_iff;
  pose proof (puts_member patch mark _ m Hin); tauto.

Lemma patch_id_uploaded at_ d m :
  uploadedPatch (markUploaded at_ d m) !! "id" = Some (JStr (id m)).
Proof. unfold uploadedPatch, field. apply lookup_insert_eq. Qed.

Lemma patch_id_processed at_ d m :
  processedPatch (markProcessed at_ d m) !! "id" = Some (JStr (id m)).
Proof. unfold processedPatch, field. apply lookup_insert_eq. Qed.

Lemma patch_id_error message m :
  errorPatch (markError message m) !! "id" = Some (JStr (id m)).
Proof. unfold errorPatch, field. apply lookup_insert_eq. Qed.

(** X10. When the requests of a successful upload reach the store, the
    stored row of every record of the page has the status [uploaded] and
    the upload time of the call, a time that [new Date] reads, and its
    [processedAt] is null, whatever it was. *)
Theorem upload_success_in_store eng clock r io c db m :
  filteredFiles r <> [] ->
  failure "Yükleme başarısız: " (result io) = None ->
  doneAt io <> "" ->
  Db.parses eng (doneAt io) = true ->
  In m (fileMetadata r) ->
  is_Some (Db.FileMetadata db !! id m) ->
  holds [("status", JStr "uploaded"); ("uploadedAt", JStr (doneAt io));
         ("processedAt", JNull)]
    (Wire.deliverAll eng clock (trace (handleUploadOnly r io (quiet c))) db) (id m).
Proof.
  intros Hne Hok Hat Hparses Hin Hrow.
  pose proof (fun m => uploadedPatch_writes eng (doneAt io) (endTime io - startTime io) m
                         Hat Hparses)
    as Hpatch.
  apply (deliverAll_sets_values _ _ _ _ _
           (uploadedPatch (markUploaded (doneAt io) (endTime io - startTime io) m)));
    [| |apply patch_id_uploaded | exact Hrow];
    unfold handleUploadOnly; rewrite (guard_nonempty _ Hne), Hok.
  - all_good Hpatch.
  - has_put uploadedPatch (markUploaded (doneAt io) (endTime io - startTime io)) m Hin.
Qed.

Lemma sample_row_stored : is_Some (Db.FileMetadata Sample.store !! "c0").
Proof. apply (bool_decide_unpack _). vm_compute. exact I. Defined.

Lemma upload_success_in_store_witness :
  holds [("status", JStr "uploaded"); ("uploadedAt", JStr "2025-08-22T12:09:40.250Z");
         ("processedAt", JNull)]
    (Wire.deliverAll Sample.engine (fun _ => "2025-08-22T12:09:41.000Z")
       (trace (handleUploadOnly (renderOf local Sample.selected) Sample.http200
                 (quiet Sample.selected)))
       Sample.store)
    "c0".
Proof.
  apply (upload_success_in_store Sample.engine (fun _ => "2025-08-22T12:09:41.000Z")
           (renderOf local Sample.selected) Sample.http200 Sample.selected Sample.store
           (withId "c0" (metaOf (renderOf local Reach.initial) Sample.folderIo 0
                           Sample.a_txt))).
  - vm_compute. discriminate.
  - vm_compute. reflexivity.
  - vm_compute. discriminate.
  - vm_compute. reflexivity.
  - vm_compute. left. reflexivity.
  - exact sample_row_stored.
Defined.

(** X11. When the requests of a successful processing trigger reach the
    store, the stored row of every record of the page has the status
    [processed] and the processing time of the call, a time that
    [new Date] reads, and its [uploadedAt] is null: the store no longer
    tells when the file was uploaded. *)
Theorem process_success_in_store eng clock r io c db m :
  uploadedOf r <> [] ->
  failure "İşleme başarısız: " (result io) = None ->
  doneAt io <> "" ->
  Db.parses eng (doneAt io) = true ->
  In m (fileMetadata r) ->
  is_Some (Db.FileMetadata db !! id m) ->
  holds [("status", JStr "processed"); ("processedAt", JStr (doneAt io));
         ("uploadedAt", JNull)]
    (Wire.deliverAll eng clock (trace (handleProcessOnly r io (quiet c))) db) (id m).
Proof.
  intros Hne Hok Hat Hparses Hin Hrow.
  pose proof (fun m => processedPatch_writes eng (doneAt io) (endTime io - startTime io) m
                         Hat Hparses)
    as Hpatch.
  apply (deliverAll_sets_values _ _ _ _ _
           (processedPatch (markProcessed (doneAt io) (endTime io - startTime io) m)));
    [| |apply patch_id_processed | exact Hrow];
    unfold handleProcessOnly; rewrite (guard_nonempty _ Hne), Hok.
  - all_good Hpatch.
  - has_put processedPatch (markProcessed (doneAt io) (endTime io - startTime io)) m Hin.
Qed.

Lemma process_success_in_store_witness :
  holds [("status", JStr "processed"); ("processedAt", JStr "2025-08-22T12:09:40.250Z");
         ("uploadedAt", JNull)]
    (Wire.deliverAll Sample.engine (fun _ => "2025-08-22T12:09:41.000Z")
       (trace (handleProcessOnly (renderOf local Sample.uploadedPage) Sample.http200
                 (quiet Sample.uploadedPage)))
       Sample.store)
    "c0".
Proof.
  apply (process_success_in_store Sample.engine (fun _ => "2025-08-22T12:09:41.000Z")
           (renderOf local Sample.uploadedPage) Sample.http200 Sample.uploadedPage
           Sample.store
           (markUploaded "2025-08-22T12:09:40.250Z" 250
              (withId "c0" (metaOf (renderOf local Reach.initial) Sample.folderIo 0
                              Sample.a_txt)))).
  - vm_compute. discriminate.
  - vm_compute. reflexivity.
  - vm_compute. discriminate.
  - vm_compute. reflexivity.
  - vm_compute. left. reflexivity.
  - exact sample_row_stored.
Defined.

(** X12. When the requests of a failed upload or of a failed processing
    trigger reach the store, the stored row of every record of the page
    has the status [error] and the message of the failure, and both its
    [uploadedAt] and its [processedAt] are null. *)
Theorem failure_in_store eng clock r io c db m message :
  In m (fileMetadata r) ->
  is_Some (Db.FileMetadata db !! id m) ->
  (filteredFiles r <> [] ->
   failure "Yükleme başarısız: " (result io) = Some message ->
   holds [("status", JStr "error"); ("errorMessage", JStr message);
          ("uploadedAt", JNull); ("processedAt", JNull)]
     (Wire.deliverAll eng clock (trace (handleUploadOnly r io (quiet c))) db) (id m))
  /\ (uploadedOf r <> [] ->
      failure "İşleme başarısız: " (result io) = Some message ->
      holds [("status", JStr "error"); ("errorMessage", JStr message);
             ("uploadedAt", JNull); ("processedAt", JNull)]
        (Wire.deliverAll eng clock (trace (handleProcessOnly r io (quiet c))) db) (id m)).
Proof.
  intros Hin Hrow. pose proof (errorPatch_writes eng message) as Hpatch. split.
  - intros Hne Hfail.
    apply (deliverAll_sets_values _ _ _ _ _ (errorPatch (markError message m)));
      [| |apply patch_id_error | exact Hrow];
      unfold handleUploadOnly; rewrite (guard_nonempty _ Hne), Hfail.
    + all_good Hpatch.
    + has_put errorPatch (markError message) m Hin.
  - intros Hne Hfail.
    apply (deliverAll_sets_values _ _ _ _ _ (errorPatch (markError message m)));
      [| |apply patch_id_error | exact Hrow];
      unfold handleProcessOnly; rewrite (guard_nonempty _ Hne), Hfail.
    + all_good Hpatch.
    + has_put errorPatch (markError message) m Hin.
Qed.

Lemma failure_in_store_witness :
  holds [("status", JStr "error");
         ("errorMessage", JStr "İşleme başarısız: 500 Internal Server Error");
         ("uploadedAt", JNull); ("processedAt", JNull)]
    (Wire.deliverAll Sample.engine (fun _ => "2025-08-22T12:09:41.000Z")
       (trace (handleProcessOnly (renderOf local Sample.uploadedPage) Sample.http500
                 (quiet Sample.uploadedPage)))
       Sample.store)
    "c0".
Proof.
  apply (proj2 (failure_in_store Sample.engine (fun _ => "2025-08-22T12:09:41.000Z")
           (renderOf local Sample.uploadedPage) Sample.http500 Sample.uploadedPage
           Sample.store
           (markUploaded "2025-08-22T12:09:40.250Z" 250
              (withId "c0" (metaOf (renderOf local Reach.initial) Sample.folderIo 0
                              Sample.a_txt)))
           "İşleme başarısız: 500 Internal Server Error"
           ltac:(vm_compute; left; reflexivity) sample_row_stored)).
  - vm_compute. discriminate.
  - vm_compute. reflexivity.
Defined.

End StoredUpdates.

(** ** What the handlers write to the log *)
Section HandlerLogs.
Import Web WebRequest Page Aux.

Lemma logLevels_app (a b : list Event) :
  logLevels (a ++ b) = (logLevels a ++ logLevels b)%list.
Proof. apply omap_app. Qed.

Lemma logLevels_cons (e : Event) (l : list Event) :
  logLevels (e :: l)
  = match e with
    | LogsRoute _ level _ => level :: logLevels l
    | _ => logLevels l
    end.
Proof. destruct e; reflexivity. Qed.

Lemma logLevels_put patch metas : logLevels (put patch metas) = [].
Proof. unfold put. induction metas as [|m l IH]; [reflexivity | exact IH]. Qed.

Lemma logLevels_logs {A} (g : A -> Message) (level : Level.t) (h : A -> option string)
    (l : list A) :
  logLevels (map (fun x => LogsRoute (g x) level (h x)) l) = map (fun _ => level) l.
Proof.
  induction l as [|x l IH]; [reflexivity|].
  cbn [map]. rewrite logLevels_cons, IH. reflexivity.
Qed.

Ltac levels :=
  cbn [trace quiet emitAll emit addLog uploadFiles processUploaded setFileMetadata failed];
  rewrite ?logLevels_app, ?logLevels_put, ?logLevels_logs; reflexivity.

(** X13. A handler that is refused at its guard writes one [error] entry
    and sends nothing to the service; a failed call writes exactly one
    [error] entry and no [success] entry; a successful call writes no
    [error] entry, one [success] entry for the call and one for each file
    it names. *)
Theorem handler_log_levels r io c :
  (filteredFiles r = [] ->
     logLevels (trace (handleUploadOnly r io (quiet c))) = [Level.error]
     /\ backendRequests (trace (handleUploadOnly r io (quiet c))) = [])
  /\ (uploadedOf r = [] ->
      logLevels (trace (handleProcessOnly r io (quiet c))) = [Level.error]
      /\ backendRequests (trace (handleProcessOnly r io (quiet c))) = [])
  /\ (forall message,
        filteredFiles r <> [] ->
        failure "Yükleme başarısız: " (result io) = Some message ->
        logLevels (trace (handleUploadOnly r io (quiet c)))
        = [Level.info; Level.info; Level.error])
  /\ (forall message,
        uploadedOf r <> [] ->
        failure "İşleme başarısız: " (result io) = Some message ->
        logLevels (trace (handleProcessOnly r io (quiet c)))
        = [Level.info; Level.info; Level.error])
  /\ (filteredFiles r <> [] ->
      failure "Yükleme başarısız: " (result io) = None ->
      logLevels (trace (handleUploadOnly r io (quiet c)))
      = Level.info :: Level.info :: Level.success
          :: map (fun _ => Level.success) (filteredFiles r))
  /\ (uploadedOf r <> [] ->
      failure "İşleme başarısız: " (result io) = None ->
      logLevels (trace (handleProcessOnly r io (quiet c)))
      = Level.info :: Level.info :: Level.success
          :: map (fun _ => Level.success) (uploadedOf r)).
Proof.
  split; [|split; [|split; [|split; [|split]]]].
  - intros Hnil. unfold handleUploadOnly. rewrite Hnil. split; reflexivity.
  - intros Hnil. unfold handleProcessOnly. rewrite Hnil. split; reflexivity.
  - intros message Hne Hfail. unfold handleUploadOnly.
    rewrite (guard_nonempty _ Hne), Hfail. levels.
  - intros message Hne Hfail. unfold handleProcessOnly.
    rewrite (guard_nonempty _ Hne), Hfail. levels.
  - intros Hne Hok. unfold handleUploadOnly.
    rewrite (guard_nonempty _ Hne), Hok. levels.
  - intros Hne Hok. unfold handleProcessOnly.
    rewrite (guard_nonempty _ Hne), Hok. levels.
Qed.

Lemma handler_log_levels_witness :
  logLevels (trace (handleUploadOnly (renderOf local Sample.selected) Sample.http500
                      (quiet Sample.selected)))
  = [Level.info; Level.info; Level.error].
Proof.
  apply (proj1 (proj2 (proj2 (handler_log_levels (renderOf local Sample.selected)
                                Sample.http500 Sample.selected)))
           "Yükleme başarısız: 500 Internal Server Error").
  - vm_compute. discriminate.
  - vm_compute. reflexivity.
Defined.

End HandlerLogs.

(** ** The run of the upload-and-process button *)
Section RunState.
Import Web WebRequest Page Aux.

(** X14. When the render of the click holds an [uploaded] record, the
    state a run of [handleUploadAndProcess] leaves is made from that
    render's records and the outcome of the processing call alone: the
    records are all [processed] after a successful trigger and all [error]
    after a failed one, whether the upload of the run succeeded or not. *)
Theorem run_state_follows_trigger r uploadIo processIo c :
  uploadedOf r <> [] ->
  (failure "İşleme başarısız: " (result processIo) = None ->
     stateFileMetadata (handleUploadAndProcess r uploadIo processIo c)
     = map (markProcessed (doneAt processIo) (endTime processIo - startTime processIo))
         (fileMetadata r))
  /\ (forall message,
        failure "İşleme başarısız: " (result processIo) = Some message ->
        stateFileMetadata (handleUploadAndProcess r uploadIo processIo c)
        = map (markError message) (fileMetadata r)).
Proof.
  intros Hne. unfold handleUploadAndProcess.
  rewrite existsb_uploadedOf, (guard_nonempty _ Hne). cbn [negb]. split.
  - intros Hok. apply process_success_state; assumption.
  - intros message Hfail. apply process_failure_state; assumption.
Qed.

Lemma run_state_follows_trigger_witness :
  map status
    (stateFileMetadata
       (handleUploadAndProcess (renderOf local Sample.uploadedPage) Sample.http500
          Sample.http200 Sample.uploadedPage))
  = [processed; processed].
Proof.
  rewrite (proj1 (run_state_follows_trigger (renderOf local Sample.uploadedPage)
                    Sample.http500 Sample.http200 Sample.uploadedPage
                    ltac:(vm_compute; discriminate))
             ltac:(vm_compute; reflexivity)).
  vm_compute. reflexivity.
Defined.

(** X15. When the render of the click holds no [uploaded] record, a run
    of [handleUploadAndProcess] is the upload alone: after a successful
    upload every record is [uploaded], none is [processed], and the only
    request sent to the service is the upload. *)
Theorem run_on_fresh_selection_uploads_only r uploadIo processIo c :
  uploadedOf r = [] ->
  filteredFiles r <> [] ->
  failure "Yükleme başarısız: " (result uploadIo) = None ->
  handleUploadAndProcess r uploadIo processIo c = handleUploadOnly r uploadIo c
  /\ Forall (fun m => status m = uploaded)
       (stateFileMetadata (handleUploadAndProcess r uploadIo processIo c))
  /\ backendRequests (trace (handleUploadAndProcess r uploadIo processIo (quiet c)))
     = [uploadRequest r].
Proof.
  intros Hnil Hne Hok.
  assert (Hrun : forall c',
            handleUploadAndProcess r uploadIo processIo c' = handleUploadOnly r uploadIo c').
  { intros c'. unfold handleUploadAndProcess.
    rewrite existsb_uploadedOf, Hnil. reflexivity. }
  split; [apply Hrun|]. split.
  - rewrite Hrun, (upload_success_state r uploadIo c Hne Hok).
    apply Forall_map, Forall_forall. intros m _. reflexivity.
  - rewrite Hrun. destruct (upload_trace r uploadIo (quiet c)) as (own & Ht & Hb).
    rewrite Ht. cbn [trace quiet app]. rewrite Hb, (guard_nonempty _ Hne). reflexivity.
Qed.

Lemma run_on_fresh_selection_uploads_only_witness :
  backendRequests
    (trace (handleUploadAndProcess (renderOf local Sample.selected) Sample.http200
              Sample.http200 (quiet Sample.selected)))
  = [uploadRequest (renderOf local Sample.selected)].
Proof.
  apply (run_on_fresh_selection_uploads_only (renderOf local Sample.selected)
           Sample.http200 Sample.http200 Sample.selected).
  - vm_compute. reflexivity.
  - vm_compute. discriminate.
  - vm_compute. reflexivity.
Defined.

Lemma upload_keeps_selection r io c :
  stateSelectedFiles (handleUploadOnly r io c) = stateSelectedFiles c.
Proof.
  unfold handleUploadOnly. destruct (length (filteredFiles r) =? 0)%nat; [reflexivity|].
  destruct (failure _ (result io)); reflexivity.
Qed.

(** X16. Pressing the upload button again after a failure counts: after
    [n] presses in a row that all fail, the [retryCount] of every record
    is [n] higher than before, and after a first failure every record is
    [error]. *)
Theorem failed_uploads_add_up env ios c :
  filteredFiles (renderOf env c) <> [] ->
  Forall (fun io => failure "Yükleme başarısız: " (result io) <> None) ios ->
  map retryCountOr0 (stateFileMetadata (uploads env ios c))
  = map (fun m => retryCountOr0 m + Z.of_nat (length ios)) (stateFileMetadata c)
  /\ (ios <> [] ->
      Forall (fun m => status m = error) (stateFileMetadata (uploads env ios c))).
Proof.
  intros Hne Hall. revert c Hne.
  induction Hall as [|io ios Hio Hall IH]; intros c Hne.
  - split; [|congruence]. cbn [uploads length]. apply map_ext. intros m.
    change (Z.of_nat 0) with 0. lia.
  - cbn [uploads].
    destruct (failure "Yükleme başarısız: " (result io)) as [message|] eqn:Hfail;
      [|congruence].
    pose proof (upload_failure_state (renderOf env c) io c message Hne Hfail) as Hstate.
    cbn [renderOf fileMetadata] in Hstate.
    assert (Hne' : filteredFiles
                     (renderOf env (handleUploadOnly (renderOf env c) io c)) <> []).
    { unfold filteredFiles, renderOf in *. cbn [selectedFiles] in *.
      rewrite upload_keeps_selection. exact Hne. }
    destruct (IH _ Hne') as [Hcount Hstatus]. split.
    + rewrite Hcount, Hstate, map_map. apply map_ext. intros m.
      cbn [length]. rewrite Nat2Z.inj_succ. unfold retryCountOr0.
      cbn [retryCount markError]. unfold retryCountOr0.
      destruct (retryCount m); unfold default, from_option, Datatypes.id; lia.
    + intros _. destruct ios as [|io' ios'].
      * cbn [uploads]. rewrite Hstate. apply Forall_map, Forall_forall.
        intros m _. reflexivity.
      * apply Hstatus. discriminate.
Qed.

Lemma failed_uploads_add_up_witness :
  map retryCountOr0
    (stateFileMetadata (uploads local [Sample.http500; Sample.http500; Sample.http500]
                          Sample.selected))
  = [3; 3].
Proof.
  rewrite (proj1 (failed_uploads_add_up local
                    [Sample.http500; Sample.http500; Sample.http500] Sample.selected
                    ltac:(vm_compute; discriminate)
                    ltac:(repeat constructor; vm_compute; discriminate))).
  vm_compute. reflexivity.
Defined.

End RunState.

(** ** The log panel *)
Section PanelLines.

Lemma push_all_snoc (messages : list string) (m : string) (prev : list string) :
  Panel.pushAll (messages ++ [m]) prev = Panel.push m (Panel.pushAll messages prev).
Proof. unfold Panel.pushAll. rewrite fold_left_app. reflexivity. Qed.

(** X17. The log panel holds the newest messages first and never more
    than 100 lines: after any messages were added to a panel of at most
    100 lines, it shows the 100 newest of the old and the new lines. *)
Theorem panel_keeps_newest_hundred (messages prev : list string) :
  (length prev <= 100)%nat ->
  Panel.pushAll messages prev = firstn 100 (rev messages ++ prev)
  /\ (length (Panel.pushAll messages prev) <= 100)%nat.
Proof.
  intros Hprev.
  assert (Heq : Panel.pushAll messages prev = firstn 100 (rev messages ++ prev)).
  { induction messages as [|m messages IH] using rev_ind.
    - cbn [Panel.pushAll fold_left rev app]. symmetry. apply firstn_all2. exact Hprev.
    - rewrite push_all_snoc, IH, rev_app_distr. cbn [rev app]. unfold Panel.push.
      rewrite firstn_firstn. reflexivity. }
  split; [exact Heq|]. rewrite Heq. rewrite length_firstn. lia.
Qed.

Lemma panel_keeps_newest_hundred_witness :
  Panel.pushAll ["first"; "second"] ["old"] = ["second"; "first"; "old"].
Proof.
  rewrite (proj1 (panel_keeps_newest_hundred ["first"; "second"] ["old"]
                    ltac:(simpl; lia))).
  reflexivity.
Defined.

End PanelLines.

(** ** The records and the log entries of a selection *)
Section Registration.
Import Web WebRequest Page Aux.

Lemma saveLoop_registered r io (files : list File) : forall index,
  fst (saveLoop io index files (imap (fun k => metaOf r io (index + k)) files))
  = imap (fun k => registered r io (index + k)) files.
Proof.
  induction files as [|file files IH]; intros index; [reflexivity|].
  rewrite !imap_cons. cbn [saveLoop].
  rewrite (imap_ext _ (fun k => metaOf r io (S index + k)) files)
    by (intros k x _; cbn; f_equal; lia).
  rewrite (imap_ext (_ ∘ S) (fun k => registered r io (S index + k)) files)
    by (intros k x _; cbn; f_equal; lia).
  specialize (IH (S index)).
  destruct (saveLoop io (S index) files _) as [rest events]. cbn [fst] in IH.
  unfold registered at 1. rewrite Nat.add_0_r.
  destruct (save io index); cbn [fst]; rewrite IH; reflexivity.
Qed.

Lemma saveLoop_listings r io (files : list File) : forall index,
  logEntries (snd (saveLoop io index files (imap (fun k => metaOf r io (index + k)) files)))
  = omap (fun x => x) (imap (fun k => listing io (index + k)) files).
Proof.
  induction files as [|file files IH]; intros index; [reflexivity|].
  rewrite !imap_cons. cbn [saveLoop].
  rewrite (imap_ext _ (fun k => metaOf r io (S index + k)) files)
    by (intros k x _; cbn; f_equal; lia).
  rewrite (imap_ext (_ ∘ S) (fun k => listing io (S index + k)) files)
    by (intros k x _; cbn; f_equal; lia).
  specialize (IH (S index)).
  destruct (saveLoop io (S index) files _) as [rest events]. cbn [snd] in IH.
  unfold listing at 1. rewrite Nat.add_0_r.
  destruct (save io index); cbn [snd omap list_omap];
    rewrite ?logEntries_cons; cbn beta iota; rewrite IH; reflexivity.
Qed.

(** X18. After a folder was picked, the record of a supported file has
    the id the store answered with when its row was saved, and the id the
    page made up from name, size, time and position otherwise. The file
    is listed in the log with that stored id, without an id when the save
    threw, and not at all when the save was answered with an error. When
    the picker gives no list, the selection and the records are emptied
    and nothing is sent. *)
Theorem folder_records_and_listings r io files c :
  stateFileMetadata (handleFolderChange r io (Some files) c)
  = imap (registered r io) (List.filter isSupportedFile files)
  /\ logEntries (trace (handleFolderChange r io (Some files) (quiet c)))
     = (FolderSelected (length (List.filter isSupportedFile files)) (length files),
        Level.info, None)
       :: omap (fun x => x) (imap (listing io) (List.filter isSupportedFile files))
  /\ stateFileMetadata (handleFolderChange r io None c) = []
  /\ stateSelectedFiles (handleFolderChange r io None c) = []
  /\ trace (handleFolderChange r io None c) = trace c.
Proof.
  split; [|split; [|repeat split]].
  - rewrite folder_state.
    exact (saveLoop_registered r io (List.filter isSupportedFile files) 0).
  - rewrite folder_trace. cbn [trace quiet app]. rewrite logEntries_cons.
    cbn beta iota. f_equal.
    exact (saveLoop_listings r io (List.filter isSupportedFile files) 0).
Qed.

End Registration.

(** ** The click handler of [app.js] at its edges *)
Section AppJsEdges.
Import Web WebRequest AppJs.

Lemma filter_none {A} (p : A -> bool) (l : list A) :
  Forall (fun x => p x = false) l -> List.filter p l = [].
Proof.
  induction 1 as [|x l Hx _ IH]; [reflexivity|]. cbn [List.filter]. rewrite Hx. exact IH.
Qed.

Lemma settle_not_pending (o : UploadOutcome) : fst (settle o) <> Pending.
Proof. destruct o as [[] ?|?]; discriminate. Qed.

(** X19. With no file picked the handler of [app.js] only alerts: it
    sends no request and adds no row. With files picked of which none is
    supported it uploads nothing and still sends the processing request.
    In every run the processing request is sent whatever the uploads
    answered, and no row of the table is left [Pending]. *)
Theorem click_edges io files :
  (files = [] ->
     click io files
     = {| alerted := true; rows := []; requests := []; statusText := None |})
  /\ (files <> [] ->
      Forall (fun f => supported f = false) files ->
      click io files
      = {| alerted := false; rows := []; requests := [processRequest];
           statusText := Some (processStatus (process io)) |})
  /\ (files <> [] -> In processRequest (requests (click io files)))
  /\ Forall (fun row => uploadStatus row <> Pending) (rows (click io files)).
Proof.
  split; [|split; [|split]].
  - intros ->. reflexivity.
  - intros Hne Hnone. unfold click. rewrite (guard_nonempty _ Hne).
    rewrite (filter_none _ _ Hnone). reflexivity.
  - intros Hne. rewrite (click_requests io files Hne). apply in_or_app.
    right. left. reflexivity.
  - apply Forall_forall. intros row Hin. apply list_elem_of_lookup in Hin.
    destruct Hin as [k Hk]. rewrite click_rows, uploadLoop_rows in Hk.
    destruct (List.filter supported files !! k) as [file|]; [|discriminate Hk].
    injection Hk as <-. apply settle_not_pending.
Qed.

Lemma click_edges_witness :
  click (Sample.appIo Sample.allSucceed) [Sample.c_exe]
  = {| alerted := false; rows := []; requests := [processRequest];
       statusText := Some (ProcessingComplete (Some 7)) |}.
Proof.
  apply (proj1 (proj2 (click_edges (Sample.appIo Sample.allSucceed) [Sample.c_exe]))).
  - discriminate.
  - repeat constructor.
Defined.

End AppJsEdges.

(** ** Registration at the files route *)
Section StoredRegistration.
Import Web WebRequest Page Aux.

Lemma cuid_inj (n m : nat) : Db.cuid n = Db.cuid m -> n = m.
Proof. unfold Db.cuid. intros [= H]. exact (pretty_nat_inj _ _ H). Qed.

Lemma defaults_plain (now now' col : string) :
  col <> "createdAt" -> col <> "updatedAt" ->
  Db.defaults now !! col = Db.defaults now' !! col.
Proof.
  intros Hc Hu. unfold Db.defaults.
  do 2 (rewrite lookup_insert_ne by congruence). symmetry.
  do 2 (rewrite lookup_insert_ne by congruence). reflexivity.
Qed.

(** X20. The files route does not look for a row of the same content: a
    body that was accepted is accepted again when it is posted a second
    time, and is then stored twice, under two different ids; the two rows
    hold the same values but for their [createdAt] and [updatedAt]. *)
Theorem post_twice_stores_two_rows (eng : Db.Engine) (now now' : string)
    (fileData : gmap string JValue) (db : Db.t) (k1 : string) :
  fst (FilesApi.POST eng now fileData db) = FilesApi.Done k1 ->
  let once := snd (FilesApi.POST eng now fileData db) in
  let twice := snd (FilesApi.POST eng now' fileData once) in
  exists k2 row1 row2,
    fst (FilesApi.POST eng now' fileData once) = FilesApi.Done k2
    /\ k1 <> k2
    /\ Db.FileMetadata twice !! k1 = Some row1
    /\ Db.FileMetadata twice !! k2 = Some row2
    /\ sameButStamps row1 row2.
Proof.
  intros Hdone once twice. subst once twice.
  destruct (post_cases eng now fileData db) as [(Hvalid & Hreq & Hpost) | [Hpost _]];
    rewrite Hpost in *; cbn [fst snd] in *; [|discriminate Hdone].
  injection Hdone as <-.
  match goal with
  | |- context [FilesApi.POST eng now' fileData ?d] =>
      destruct (post_cases eng now' fileData d) as [(_ & _ & Hpost') | [_ Hbad]]
  end.
  - rewrite Hpost'. cbn [fst snd Db.generated Db.FileMetadata].
    assert (Hne : Db.cuid (Db.generated db) <> Db.cuid (S (Db.generated db))).
    { intros Heq. apply cuid_inj in Heq. lia. }
    eexists _, _, _. split; [reflexivity|]. split; [exact Hne|]. split; [|split].
    + rewrite lookup_insert_ne by congruence. apply lookup_insert_eq.
    + apply lookup_insert_eq.
    + intros col Hc Hu. rewrite !lookup_union.
      rewrite (defaults_plain now now' col Hc Hu). reflexivity.
  - rewrite Hvalid, Hreq in Hbad. discriminate Hbad.
Qed.

Lemma post_twice_stores_two_rows_witness :
  exists k2 row1 row2,
    fst (FilesApi.POST Sample.engine "2025-08-22T12:09:37.000Z" Sample.storedRow
           (snd (FilesApi.POST Sample.engine "2025-08-22T12:09:35.500Z"
                   Sample.storedRow Db.empty)))
    = FilesApi.Done k2
    /\ "c0" <> k2
    /\ Db.FileMetadata
         (snd (FilesApi.POST Sample.engine "2025-08-22T12:09:37.000Z" Sample.storedRow
                 (snd (FilesApi.POST Sample.engine "2025-08-22T12:09:35.500Z"
                         Sample.storedRow Db.empty)))) !! "c0" = Some row1
    /\ Db.FileMetadata
         (snd (FilesApi.POST Sample.engine "2025-08-22T12:09:37.000Z" Sample.storedRow
                 (snd (FilesApi.POST Sample.engine "2025-08-22T12:09:35.500Z"
                         Sample.storedRow Db.empty)))) !! k2 = Some row2
    /\ sameButStamps row1 row2.
Proof.
  apply (post_twice_stores_two_rows Sample.engine "2025-08-22T12:09:35.500Z"
           "2025-08-22T12:09:37.000Z" Sample.storedRow Db.empty "c0").
  vm_compute. reflexivity.
Defined.

Ltac registered_body :=
  unfold toJSON;
  cbn [metaOf field id name sizeBytes relativePath lastModified selectedAt uploadedAt
       processedAt host status errorMessage computerName userName userAgent
       uploadDuration processDuration fileType mimeType checksum retryCount
       fmap option_fmap option_map];
  repeat (rewrite lookup_insert_ne by discriminate);
  rewrite ?lookup_insert_eq, ?lookup_empty.

Lemma registration_accepted eng r io index file :
  Db.parses eng (nowIso io) = true ->
  Db.valid eng (postData eng (toJSON (metaOf r io index file))) = true
  /\ forallb (fun col => bool_decide (is_Some (postData eng (toJSON (metaOf r io index file))
                                               !! col)))
       Db.required = true.
Proof.
  intros Hparses. split.
  - apply post_valid.
    + intros col v Hin. cbn in Hin.
      repeat (destruct Hin as [<-|Hin];
              [registered_body; intros [= <-]; reflexivity|]).
      destruct Hin.
    + registered_body. unfold FilesApi.newDate. rewrite Hparses. reflexivity.
    + registered_body. reflexivity.
    + registered_body. reflexivity.
    + registered_body. reflexivity.
  - apply forallb_forall. intros col Hin. apply bool_decide_eq_true. cbn in Hin.
    destruct Hin as [<-|[<-|[<-|[<-|[<-|[<-|[]]]]]]];
      rewrite ?postData_selectedAt; rewrite ?postData_plain by (cbn; tauto);
      registered_body; eauto.
Qed.

(** X21. The row of a record that [handleFolderChange] builds, with the
    time of the selection a date, is always accepted by the files route:
    it is stored under a generated id with the name of the file, the
    status [pending], [retryCount] 0, and null [uploadedAt], [processedAt],
    [errorMessage] and [checksum]. *)
Theorem registration_is_stored eng now r io index file db :
  Db.parses eng (nowIso io) = true ->
  exists row,
    FilesApi.POST eng now (toJSON (metaOf r io index file)) db
    = (FilesApi.Done (Db.cuid (Db.generated db)),
       {| Db.FileMetadata := <[Db.cuid (Db.generated db) := row]> (Db.FileMetadata db);
          Db.Logs := Db.Logs db;
          Db.generated := S (Db.generated db) |})
    /\ row !! "name" = Some (JStr (Web.name file))
    /\ row !! "status" = Some (JStr "pending")
    /\ row !! "retryCount" = Some (JNum 0)
    /\ row !! "uploadedAt" = Some JNull
    /\ row !! "processedAt" = Some JNull
    /\ row !! "errorMessage" = Some JNull
    /\ row !! "checksum" = Some JNull.
Proof.
  intros Hparses. destruct (registration_accepted eng r io index file Hparses)
    as [Hvalid Hreq].
  destruct (post_cases eng now (toJSON (metaOf r io index file)) db)
    as [(_ & _ & Hpost) | [_ Hbad]]; [|rewrite Hvalid, Hreq in Hbad; discriminate Hbad].
  eexists. split; [exact Hpost|].
  repeat split;
    first [ apply lookup_union_Some_l; rewrite lookup_fmap;
            rewrite ?postData_uploadedAt, ?postData_processedAt, ?postData_retryCount;
            rewrite ?postData_plain by (cbn; tauto);
            registered_body; reflexivity
          | rewrite lookup_union_r
              by (rewrite lookup_fmap, postData_plain by (cbn; tauto);
                  registered_body; reflexivity);
            reflexivity ].
Qed.

Lemma registration_is_stored_witness :
  exists row,
    FilesApi.POST Sample.engine "2025-08-22T12:09:35.500Z"
      (toJSON (metaOf (renderOf local Reach.initial) Sample.folderIo 0 Sample.a_txt))
      Db.empty
    = (FilesApi.Done "c0",
       {| Db.FileMetadata := <["c0" := row]> ∅; Db.Logs := ∅; Db.generated := 1 |})
    /\ row !! "status" = Some (JStr "pending").
Proof.
  destruct (registration_is_stored Sample.engine "2025-08-22T12:09:35.500Z"
              (renderOf local Reach.initial) Sample.folderIo 0 Sample.a_txt Db.empty)
    as (row & Hpost & _ & Hstatus & _).
  - vm_compute. reflexivity.
  - exists row. split; [exact Hpost | exact Hstatus].
Defined.

Lemma find_by_name (metas : list FileMetadata) (m : FileMetadata) :
  NoDup (map name metas) -> In m metas ->
  List.find (fun x => String.eqb (name x) (name m)) metas = Some m.
Proof.
  induction metas as [|x metas IH]; intros Hnodup Hin; [destruct Hin|].
  cbn [map] in Hnodup. apply NoDup_cons in Hnodup. destruct Hnodup as [Hx Hnodup].
  cbn [List.find]. destruct Hin as [-> | Hin].
  - rewrite String.eqb_refl. reflexivity.
  - destruct (String.eqb (name x) (name m)) eqn:Heq; [|apply IH; assumption].
    apply String.eqb_eq in Heq. exfalso. apply Hx. rewrite Heq.
    apply list_elem_of_In, in_map, Hin.
Qed.

Lemma find_no_name (metas : list FileMetadata) (n : string) :
  ~ In n (map name metas) ->
  List.find (fun x => String.eqb (name x) n) metas = None.
Proof.
  induction metas as [|x metas IH]; intros Hn; [reflexivity|].
  cbn [List.find]. destruct (String.eqb (name x) n) eqn:Heq.
  - apply String.eqb_eq in Heq. exfalso. apply Hn. left. exact Heq.
  - apply IH. intros Hin. apply Hn. right. exact Hin.
Qed.

(** X22. The log entry a handler writes for a file is tied to a record
    by the name alone: when the records have different names, the entry
    of a file carries the id of the record of that name, and it carries
    no id when no record has the name. *)
Theorem log_entry_names_record (metas : list FileMetadata) :
  (NoDup (map name metas) ->
   forall m, In m metas -> idByName metas (name m) = Some (id m))
  /\ (forall n, ~ In n (map name metas) -> idByName metas n = None).
Proof.
  unfold idByName. split.
  - intros Hnodup m Hin. rewrite (find_by_name metas m Hnodup Hin). reflexivity.
  - intros n Hn. rewrite (find_no_name metas n Hn). reflexivity.
Qed.

Lemma log_entry_names_record_witness :
  idByName (stateFileMetadata Sample.uploadedPage) "c.exe" = None.
Proof.
  apply (proj2 (log_entry_names_record (stateFileMetadata Sample.uploadedPage))).
  vm_compute. intros [H|[H|[]]]; discriminate H.
Defined.

End StoredRegistration.
